(** * Stock-ledger transaction engine of SistemaEstoqueAndrey

    A shallow embedding of the stock-affecting code of the repository:

    - [lib/products.ts]            : [computeVirtualStock]
    - [services/storage.ts]        : the localStorage collections and
                                     [storage.runTransaction]
    - [services/hooks.ts]          : [doc], [increment], [writeBatch]
    - [services/bom.ts]            : [processBomExplosionSale],
                                     [processAssemblyToStock]
    - [sales/new-sale-form.tsx]    : [handleAddItem], [onFinalizeSale]
    - [purchases/new-purchase-form]: [onFinalizePurchase]
    - [transactions/details-dialog]: [handleRevert]

    Conventions of the embedding.

    - A JavaScript [number] is a double, kept as the rational [Q] it
      denotes.  Comparisons, [Math.min], [Math.max] and [Math.floor] are
      exact on doubles; every [+], [-], [*] and [/] of the source is the
      rational operation followed by [round64], the rounding of IEEE 754
      binary64 to the nearest double, ties to even ([+!], [-!], [*!],
      [/!]).  The statements hold for every rational input, so for every
      double.  A quotient that overflows is [Infinity] or [-Infinity] where
      the code tests for it ([Number.isFinite] in [computeVirtualStock]);
      elsewhere magnitudes are taken to stay below 2^1024, and NaN and the
      sign of zero are not modelled.
    - [x || 0] is [orZero]; an optional field is an [option].
    - A collection is the JSON array kept in localStorage: a [list] of
      records, searched by [id] from the front.
    - [uuidv4()] is a stream [uuid : nat -> string]; the k-th call of an
      operation returns [uuid k].
    - The [updatedAt]/[createdAt] stamps, [ownerId] (always the single local
      user) and the dates carry no stock information and are left out. *)

From Stdlib Require Import List Ascii String Bool Arith Lia ZArith QArith Qminmax Qround Lqa.
From Stdlib Require Import Qpower Qreduction Morphisms.
Import ListNotations.

Open Scope string_scope.
Open Scope list_scope.
Open Scope Q_scope.

Set Implicit Arguments.

(** ** Numbers and strings as JavaScript uses them *)

(** *** Doubles *)

Definition pow2 (e : Z) : Q := 2 ^ e.

(** The binary exponent of a positive rational [n/d]: the [e] with
    [2^e <= n/d < 2^(e+1)]. *)
Definition floorLog2 (n d : positive) : Z :=
  let k := (Z.log2 (Zpos n) - Z.log2 (Zpos d))%Z in
  if Qle_bool (pow2 k) (Zpos n # d) then k else (k - 1)%Z.

(** The nearest integer, a tie going to the even one. *)
Definition roundHalfEven (x : Q) : Z :=
  let f := Qfloor x in
  match Qcompare (x - inject_Z f) (1 # 2) with
  | Lt => f
  | Gt => (f + 1)%Z
  | Eq => if Z.even f then f else (f + 1)%Z
  end.

(** The double nearest to a positive rational: a significand of 53 bits
    counted in units of [2^(e - 52)], and in units of [2^-1074] below the
    normal range. *)
Definition roundPos (n d : positive) : Q :=
  let u := pow2 (Z.max (floorLog2 n d - 52) (-1074)) in
  inject_Z (roundHalfEven ((Zpos n # d) / u)) * u.

(** Rounding to binary64, on the reduced fraction and with a reduced
    result. *)
Definition round64 (x : Q) : Q :=
  match Qred x with
  | Z0 # _ => 0
  | Zpos n # d => Qred (roundPos n d)
  | Zneg n # d => Qred (- roundPos n d)
  end.

(** The four operations of the source on numbers.  The code divides only
    by numbers it has tested to be positive. *)
Definition jsAdd (a b : Q) : Q := round64 (a + b).
Definition jsSub (a b : Q) : Q := round64 (a - b).
Definition jsMul (a b : Q) : Q := round64 (a * b).
Definition jsDiv (a b : Q) : Q := round64 (a / b).

Infix "+!" := jsAdd (at level 50, left associativity) : Q_scope.
Infix "-!" := jsSub (at level 50, left associativity) : Q_scope.
Infix "*!" := jsMul (at level 40, left associativity) : Q_scope.
Infix "/!" := jsDiv (at level 40, left associativity) : Q_scope.

Arguments round64 : simpl never.
Arguments jsAdd : simpl never.
Arguments jsSub : simpl never.
Arguments jsMul : simpl never.
Arguments jsDiv : simpl never.

(** A number that may be infinite: the quotient and the running minimum
    of [computeVirtualStock]. *)
Inductive Units : Type := NegInfinity | Finite (z : Z) | Infinity.

(** [Math.floor(a / b)]: the quotient of two doubles is an infinity when
    its rounded magnitude reaches 2^1024, and [Math.floor] keeps an
    infinity. *)
Definition floorQuotient (a b : Q) : Units :=
  let quotient := a /! b in
  if Qle_bool (pow2 1024) quotient then Infinity
  else if Qle_bool quotient (- pow2 1024) then NegInfinity
  else Finite (Qfloor quotient).

(** [Math.min] *)
Definition mathMin (a b : Units) : Units :=
  match a, b with
  | NegInfinity, _ | _, NegInfinity => NegInfinity
  | Infinity, x | x, Infinity => x
  | Finite x, Finite y => Finite (Z.min x y)
  end.

(** The order of the extended numbers. *)
Definition unitsLe (a b : Units) : Prop :=
  match a, b with
  | NegInfinity, _ | _, Infinity => True
  | Finite x, Finite y => (x <= y)%Z
  | _, _ => False
  end.

(** [Number.isFinite(x) ? x : 0] *)
Definition finiteOrZero (x : Units) : Z :=
  match x with
  | Finite z => z
  | _ => 0%Z
  end.

(** [a > b] on numbers. *)
Definition Qgtb (a b : Q) : bool := negb (Qle_bool a b).

(** [x || 0]: a falsy number is replaced by 0. *)
Definition orZero (x : Q) : Q := if Qeq_bool x 0 then 0 else x.

(** [x || 0] where [x] may be [undefined]. *)
Definition orZeroOpt (x : option Q) : Q :=
  match x with
  | Some q => orZero q
  | None => 0
  end.

(** [s || d] on strings: the empty string is falsy. *)
Definition strOr (s d : string) : string :=
  if (s =? "")%string then d else s.

(** Whether an optional value is there. *)
Definition isSome (A : Type) (x : option A) : bool :=
  match x with
  | Some _ => true
  | None => false
  end.

(** [s || ''] where [s] may be [undefined]. *)
Definition strOrEmpty (s : option string) : string :=
  match s with
  | Some x => x
  | None => ""
  end.

(** ** Data model ([lib/types.ts]) *)

Record BomItem : Type := mkBomItem {
  bom_productId : string;
  bom_quantity : Q
}.

Inductive ProductType : Type := FINAL | INSUMO.

Record Product : Type := mkProduct {
  p_id : string;
  p_name : string;
  p_sku : option string;
  currentStock : Q;
  minStock : Q;
  maxStock : Q;
  p_costPrice : option Q;
  salePrice : option Q;
  p_type : option ProductType;
  p_supplierId : option string;
  bom : option (list BomItem)
}.

(** The declared union is ['IN' | 'OUT']; [services/bom.ts] also stores
    ['ASSEMBLY'] in the same collection. *)
Inductive TxType : Type := IN | OUT | ASSEMBLY.

Inductive TxStatus : Type := COMPLETED | CANCELLED | PENDING_PAYMENT.

Record Transaction : Type := mkTransaction {
  t_id : string;
  t_type : TxType;
  t_status : TxStatus;
  t_supplierId : option string;
  t_clientId : option string;
  t_clientName : option string;
  totalValue : Q;
  discountValue : Q;
  netTotal : Q;
  t_notes : option string;
  t_invoiceNumber : option string
}.

Record TransactionItem : Type := mkTransactionItem {
  ti_id : string;
  transactionId : string;
  ti_productId : string;
  ti_productName : string;
  ti_quantity : Q;
  ti_price : Q;
  ti_costPrice : option Q;
  ti_sku : option string
}.

Definition TxType_eqb (a b : TxType) : bool :=
  match a, b with
  | IN, IN | OUT, OUT | ASSEMBLY, ASSEMBLY => true
  | _, _ => false
  end.

Definition TxStatus_eqb (a b : TxStatus) : bool :=
  match a, b with
  | COMPLETED, COMPLETED | CANCELLED, CANCELLED
  | PENDING_PAYMENT, PENDING_PAYMENT => true
  | _, _ => false
  end.

(** [Array.isArray(p.bom) && p.bom.length > 0] *)
Definition hasBom (p : Product) : bool :=
  match bom p with
  | Some (_ :: _) => true
  | _ => false
  end.

(** The entries iterated by [for (const comp of prodData.bom)] when the
    guard above holds, and none otherwise. *)
Definition bomList (p : Product) : list BomItem :=
  match bom p with
  | Some l => l
  | None => []
  end.

(** ** Virtual stock ([lib/products.ts]) *)

(** [allProducts.find(p => p.id === id)] *)
Definition findProduct (allProducts : list Product) (id : string) : option Product :=
  find (fun p => (p_id p =? id)%string) allProducts.

(** [compProduct?.currentStock || 0] *)
Definition availableOf (compProduct : option Product) : Q :=
  match compProduct with
  | Some p => orZero (currentStock p)
  | None => 0
  end.

(** The loop of [computeVirtualStock]; [inl 0] is the early [return 0]. *)
Fixpoint virtualStockLoop (allProducts : list Product) (comps : list BomItem)
    (minUnits : Units) : Z + Units :=
  match comps with
  | [] => inr minUnits
  | comp :: rest =>
      let available := availableOf (findProduct allProducts (bom_productId comp)) in
      let neededPerUnit := orZero (bom_quantity comp) in
      if Qle_bool neededPerUnit 0 then inl 0%Z
      else
        let producible := floorQuotient available neededPerUnit in
        virtualStockLoop allProducts rest (mathMin minUnits producible)
  end.

Definition computeVirtualStock (finalProduct : option Product)
    (allProducts : option (list Product)) : Z :=
  match finalProduct, allProducts with
  | Some fp, Some all =>
      match bom fp with
      | None => 0%Z
      | Some [] => 0%Z
      | Some comps =>
          match virtualStockLoop all comps Infinity with
          | inl z => z
          | inr minUnits => finiteOrZero minUnits
          end
      end
  | _, _ => 0%Z
  end.

(** What the specification calls [producible] for one BOM entry. *)
Definition producibleOf (allProducts : list Product) (comp : BomItem) : Units :=
  floorQuotient (availableOf (findProduct allProducts (bom_productId comp)))
    (bom_quantity comp).

(** ** The localStorage collections ([services/storage.ts]) *)

Section Collections.
Variable A : Type.
Variable key : A -> string.

(** [items.find(item => item.id === id) || null] *)
Definition getById (items : list A) (id : string) : option A :=
  find (fun x => (key x =? id)%string) items.

(** [storage.set]: the first record with that id is merged with the
    data, and without one the data is pushed at the end. *)
Fixpoint collSet (merge : A -> A) (fresh : A) (items : list A) (id : string)
    : list A :=
  match items with
  | [] => [fresh]
  | x :: rest =>
      if (key x =? id)%string then merge x :: rest
      else x :: collSet merge fresh rest id
  end.

(** [storage.update]: the first record with that id is patched;
    [None] is the thrown [Item ... not found]. *)
Fixpoint collUpdate (patch : A -> A) (items : list A) (id : string)
    : option (list A) :=
  match items with
  | [] => None
  | x :: rest =>
      if (key x =? id)%string then Some (patch x :: rest)
      else
        match collUpdate patch rest id with
        | Some rest' => Some (x :: rest')
        | None => None
        end
  end.

(** [storage.delete]: every record with that id is filtered out. *)
Definition collDelete (items : list A) (id : string) : list A :=
  filter (fun x => negb (key x =? id)%string) items.
End Collections.

Record Store : Type := mkStore {
  products : list Product;
  transactions : list Transaction;
  transaction_items : list TransactionItem
}.

(** A numeric field of an update: a plain value or the [increment]
    sentinel of [services/hooks.ts]. *)
Inductive NumUpdate : Type :=
| Assign (v : Q)
| Increment (v : Q).

(** The data object handed to [update] on a product document. *)
Record ProductPatch : Type := mkPatch {
  u_currentStock : option NumUpdate;
  u_costPrice : option Q;
  u_supplierId : option string
}.

(** [updatedData[key] = (currentItem[key] || 0) + value.value] for an
    increment, the value itself otherwise. *)
Definition applyNum (current : Q) (u : NumUpdate) : Q :=
  match u with
  | Assign v => v
  | Increment v => orZero current +! v
  end.

(** [{ ...currentItem, ...updatedData }] *)
Definition applyPatch (d : ProductPatch) (p : Product) : Product :=
  mkProduct (p_id p) (p_name p) (p_sku p)
    (match u_currentStock d with
     | Some u => applyNum (currentStock p) u
     | None => currentStock p
     end)
    (minStock p) (maxStock p)
    (match u_costPrice d with
     | Some c => Some c
     | None => p_costPrice p
     end)
    (salePrice p) (p_type p)
    (match u_supplierId d with
     | Some s => Some s
     | None => p_supplierId p
     end)
    (bom p).

Definition orElse (B : Type) (a b : option B) : option B :=
  match a with
  | Some _ => a
  | None => b
  end.

(** [{ ...items[index], ...data }] for a transaction document: the keys
    present in the data win. *)
Definition mergeTransaction (data old : Transaction) : Transaction :=
  mkTransaction (t_id data) (t_type data) (t_status data)
    (orElse (t_supplierId data) (t_supplierId old))
    (orElse (t_clientId data) (t_clientId old))
    (orElse (t_clientName data) (t_clientName old))
    (totalValue data) (discountValue data) (netTotal data)
    (orElse (t_notes data) (t_notes old))
    (orElse (t_invoiceNumber data) (t_invoiceNumber old)).

Definition mergeItem (data old : TransactionItem) : TransactionItem :=
  mkTransactionItem (ti_id data) (transactionId data) (ti_productId data)
    (ti_productName data) (ti_quantity data) (ti_price data)
    (orElse (ti_costPrice data) (ti_costPrice old))
    (orElse (ti_sku data) (ti_sku old)).

(** The operation log of [runTransaction] and [writeBatch]: the source
    keeps [{ type, ref: {collection, id}, data }]; the collection of the
    reference selects the constructor here.  These are the five shapes the
    embedded operations queue. *)
Inductive Op : Type :=
| SetTransaction (id : string) (data : Transaction)
| SetItem (id : string) (data : TransactionItem)
| UpdateProduct (id : string) (data : ProductPatch)
| DeleteItem (id : string)
| DeleteTransaction (id : string).

Inductive Error : Type :=
| EmptyCart
| ProductNotFound (name : string)
| ComponentNotFound (id : string)
| InsufficientComponentStock (name : string) (required available : Q)
| NoBomDefined
| AlreadyCancelled
| ItemsNotLoaded
| TypeError
| StorageItemNotFound (id : string).

(** One step of the commit loop. *)
Definition applyOp (s : Store) (op : Op) : Error + Store :=
  match op with
  | SetTransaction id data =>
      inr (mkStore (products s)
             (collSet t_id (mergeTransaction data) data (transactions s) id)
             (transaction_items s))
  | SetItem id data =>
      inr (mkStore (products s) (transactions s)
             (collSet ti_id (mergeItem data) data (transaction_items s) id))
  | UpdateProduct id data =>
      match collUpdate p_id (applyPatch data) (products s) id with
      | Some ps => inr (mkStore ps (transactions s) (transaction_items s))
      | None => inl (StorageItemNotFound id)
      end
  | DeleteItem id =>
      inr (mkStore (products s) (transactions s)
             (collDelete ti_id (transaction_items s) id))
  | DeleteTransaction id =>
      inr (mkStore (products s) (collDelete t_id (transactions s) id)
             (transaction_items s))
  end.

(** What an operation leaves behind: the store, and the error when it
    threw.  A throw inside the commit loop keeps the writes already made. *)
Definition Outcome : Type := (option Error * Store)%type.

(** [for (const op of operations) { await this.set/update/delete }] *)
Fixpoint commit (s : Store) (ops : list Op) : Outcome :=
  match ops with
  | [] => (None, s)
  | op :: rest =>
      match applyOp s op with
      | inl e => (Some e, s)
      | inr s' => commit s' rest
      end
  end.

(** [storage.runTransaction]: the update function reads the store through
    [transaction.get] and only queues its writes; a throw inside it skips
    the commit loop. *)
Definition runTransaction (updateFunction : Store -> Error + list Op) (s : Store)
    : Outcome :=
  match updateFunction s with
  | inl e => (Some e, s)
  | inr ops => commit s ops
  end.

(** An error-or-value bind for the bodies of the update functions. *)
Definition bindE (X Y : Type) (m : Error + X) (k : X -> Error + Y) : Error + Y :=
  match m with
  | inl e => inl e
  | inr x => k x
  end.

Notation "'do' x <- m ; k" := (bindE m (fun x => k))
  (at level 10, x name, m at level 100, k at level 200).
Notation "'do' ' p <- m ; k" := (bindE m (fun p => k))
  (at level 10, p pattern, m at level 100, k at level 200).

(** ** The sale form ([components/sales/new-sale-form.tsx]) *)

Record CartItem : Type := mkCartItem {
  productId : string;
  productName : string;
  quantity : Q;
  price : Q;
  availableStock : Q;
  costPrice : Q
}.

(** The master state of the form read by [onFinalizeSale]. *)
Record SaleForm : Type := mkSaleForm {
  clientId : string;
  clientName : string;
  paymentStatus : TxStatus;
  discount : Q
}.

(** [cart.reduce((acc, item) => acc + item.quantity * item.price, 0)] *)
Definition subtotal (cart : list CartItem) : Q :=
  fold_left (fun acc item => acc +! quantity item *! price item) cart 0.

(** The entry kept in [productDetails]. *)
Record ProductDetail : Type := mkDetail {
  d_ref : string;
  d_snap : Product;
  d_item : CartItem
}.

(** The entry kept in [consumptionOps]. *)
Record ConsumptionOp : Type := mkConsumption {
  c_ref : string;
  c_snap : Product;
  c_required : Q;
  c_name : string
}.

(** [{ ...item, availableStock: fromStock }] *)
Definition withAvailableStock (item : CartItem) (fromStock : Q) : CartItem :=
  mkCartItem (productId item) (productName item) (quantity item) (price item)
    fromStock (costPrice item).

(** The inner loop of step 1: one BOM of one cart line. *)
Fixpoint saleCheckBom (s : Store) (shortfall : Q) (comps : list BomItem)
    (consumptionOps : list ConsumptionOp) : Error + list ConsumptionOp :=
  match comps with
  | [] => inr consumptionOps
  | comp :: rest =>
      match getById p_id (products s) (bom_productId comp) with
      | None => inl (ComponentNotFound (bom_productId comp))
      | Some compData =>
          let required := shortfall *! bom_quantity comp in
          let available := orZero (currentStock compData) in
          let name := strOr (p_name compData) (bom_productId comp) in
          if Qgtb required available
          then inl (InsufficientComponentStock name required available)
          else
            saleCheckBom s shortfall rest
              (if Qgtb required 0
               then consumptionOps ++ [mkConsumption (bom_productId comp) compData required name]
               else consumptionOps)
      end
  end.

(** Step 1 of [onFinalizeSale]: read every product and check stock. *)
Fixpoint saleReadCart (s : Store) (cart : list CartItem)
    (productDetails : list ProductDetail) (consumptionOps : list ConsumptionOp)
    : Error + (list ProductDetail * list ConsumptionOp) :=
  match cart with
  | [] => inr (productDetails, consumptionOps)
  | item :: rest =>
      match getById p_id (products s) (productId item) with
      | None => inl (ProductNotFound (productName item))
      | Some prodData =>
          let currentStock := orZero (currentStock prodData) in
          let fromStock := Qmin currentStock (quantity item) in
          let shortfall := Qmax 0 (quantity item -! fromStock) in
          do consumptionOps' <-
            (if hasBom prodData
             then saleCheckBom s shortfall (bomList prodData) consumptionOps
             else inr consumptionOps);
          saleReadCart s rest
            (productDetails ++
               [mkDetail (productId item) prodData (withAvailableStock item fromStock)])
            consumptionOps'
      end
  end.

(** [assembledCostPerUnit += compCost * comp.quantity] over one BOM; the
    snapshot is read again and [data()] of a missing document is null. *)
Fixpoint saleAssembledCost (s : Store) (comps : list BomItem)
    (assembledCostPerUnit : Q) : Error + Q :=
  match comps with
  | [] => inr assembledCostPerUnit
  | comp :: rest =>
      match getById p_id (products s) (bom_productId comp) with
      | None => inl TypeError
      | Some compData =>
          let compCost := orZeroOpt (p_costPrice compData) in
          saleAssembledCost s rest (assembledCostPerUnit +! compCost *! bom_quantity comp)
      end
  end.

Definition stockAssign (newStock : Q) : ProductPatch :=
  mkPatch (Some (Assign newStock)) None None.

(** The blended unit cost written on the item of one detail. *)
Definition saleCostPerUnit (fromStock readyCost shortfall assembledCostPerUnit totalQty : Q) : Q :=
  if Qgtb totalQty 0
  then (fromStock *! readyCost +! shortfall *! assembledCostPerUnit) /! totalQty
  else readyCost.

Section SaleWrites.
Variable uuid : nat -> string.
Variable transactionId' : string.

(** Steps 3a and 3b, once per entry of [productDetails]; [k] counts the
    identifiers drawn so far. *)
Fixpoint saleWriteDetails (s : Store) (k : nat) (details : list ProductDetail)
    : Error + list Op :=
  match details with
  | [] => inr []
  | detail :: rest =>
      let prodData := d_snap detail in
      let fromStock := orZero (availableStock (d_item detail)) in
      let shortfall := Qmax 0 (quantity (d_item detail) -! fromStock) in
      do assembledCostPerUnit <-
        (if hasBom prodData
         then saleAssembledCost s (bomList prodData) 0
         else inr 0);
      let readyCost := orZeroOpt (p_costPrice prodData) in
      let totalQty := quantity (d_item detail) in
      let costPerUnit :=
        saleCostPerUnit fromStock readyCost shortfall assembledCostPerUnit totalQty in
      let itemId := uuid k in
      let newStock := currentStock prodData -! fromStock in
      do ops <- saleWriteDetails s (S k) rest;
      inr (SetItem itemId
             (mkTransactionItem itemId transactionId' (productId (d_item detail))
                (productName (d_item detail)) (quantity (d_item detail))
                (price (d_item detail)) (Some costPerUnit) None)
           :: UpdateProduct (d_ref detail) (stockAssign newStock)
           :: ops)
  end.
End SaleWrites.

(** [for (const cons of consumptionOps)]: one update per entry. *)
Definition saleWriteConsumption (consumptionOps : list ConsumptionOp) : list Op :=
  map (fun cons =>
         UpdateProduct (c_ref cons)
           (stockAssign (currentStock (c_snap cons) -! c_required cons)))
      consumptionOps.

(** The document of step 2. *)
Definition saleTransactionDoc (form : SaleForm) (cart : list CartItem)
    (transactionId' : string) : Transaction :=
  mkTransaction transactionId' IN (paymentStatus form) None
    (Some (clientId form)) (Some (clientName form))
    (subtotal cart) (discount form) (subtotal cart -! discount form)
    None None.

(** The update function handed to [runTransaction] by [onFinalizeSale]. *)
Definition saleUpdateFunction (uuid : nat -> string) (form : SaleForm)
    (cart : list CartItem) (s : Store) : Error + list Op :=
  let transactionId' := uuid 0%nat in
  do '(productDetails, consumptionOps) <- saleReadCart s cart [] [];
  do itemOps <- saleWriteDetails uuid transactionId' s 1 productDetails;
  inr (SetTransaction transactionId' (saleTransactionDoc form cart transactionId')
       :: itemOps ++ saleWriteConsumption consumptionOps).

Definition onFinalizeSale (uuid : nat -> string) (form : SaleForm)
    (cart : list CartItem) (s : Store) : Outcome :=
  match cart with
  | [] => (Some EmptyCart, s)
  | _ => runTransaction (saleUpdateFunction uuid form cart) s
  end.

(** *** Adding a line to the cart ([handleAddItem]) *)

(** The destructive toasts of [handleAddItem]. *)
Inductive AddToast : Type :=
| ToastErro
| ToastEstoqueInsuficiente
| ToastInsumosInsuficientes
| ToastMateriaPrimaInsuficiente
| ToastQuantidadeExcede.

(** The names of the components short of stock, [insufficient.length > 0]. *)
Definition addInsufficient (allProducts : option (list Product)) (shortfall : Q)
    (comps : list BomItem) : list string :=
  flat_map (fun comp =>
    let compProduct :=
      match allProducts with
      | Some all => findProduct all (bom_productId comp)
      | None => None
      end in
    let required := shortfall *! bom_quantity comp in
    let available := availableOf compProduct in
    if Qgtb required available
    then [match compProduct with
          | Some p => strOr (p_name p) (bom_productId comp)
          | None => bom_productId comp
          end]
    else []) comps.

(** [selectedProduct.bom.reduce(...)] or [selectedProduct.costPrice || 0]. *)
Definition addCostPerUnit (allProducts : option (list Product)) (selectedProduct : Product) : Q :=
  if hasBom selectedProduct
  then fold_left (fun sum comp =>
         let compProduct :=
           match allProducts with
           | Some all => findProduct all (bom_productId comp)
           | None => None
           end in
         let compCost :=
           match compProduct with
           | Some p => orZeroOpt (p_costPrice p)
           | None => 0
           end in
         sum +! compCost *! bom_quantity comp) (bomList selectedProduct) 0
  else orZeroOpt (p_costPrice selectedProduct).

(** The updater given to [setCart]: merge into the line of the same
    product, or append a new line.  The price entered is a number here, so
    [Number.isFinite(currentPrice) ? currentPrice : 0] of the new line is
    [currentPrice]. *)
Fixpoint addMerge (selectedProduct : Product) (quantity' currentPrice costPerUnit maxSellable : Q)
    (prevCart : list CartItem) : option AddToast * list CartItem :=
  match prevCart with
  | [] =>
      (None,
       [mkCartItem (p_id selectedProduct) (p_name selectedProduct) quantity'
          currentPrice (currentStock selectedProduct) costPerUnit])
  | existingItem :: rest =>
      if (productId existingItem =? p_id selectedProduct)%string
      then
        let newQuantity := quantity existingItem +! quantity' in
        if Qgtb newQuantity maxSellable
        then (Some ToastQuantidadeExcede, prevCart)
        else
          (None,
           mkCartItem (productId existingItem) (productName existingItem)
             newQuantity currentPrice (availableStock existingItem) costPerUnit
           :: rest)
      else
        let '(t, rest') :=
          addMerge selectedProduct quantity' currentPrice costPerUnit maxSellable rest in
        (t, match t with
            | Some _ => prevCart
            | None => existingItem :: rest'
            end)
  end.

Definition handleAddItem (selectedProduct : option Product) (quantity' currentPrice : Q)
    (allProducts : option (list Product)) (cart : list CartItem)
    : option AddToast * list CartItem :=
  match selectedProduct with
  | None => (Some ToastErro, cart)
  | Some sp =>
      if Qle_bool quantity' 0 then (Some ToastErro, cart)
      else
        let virtualStock :=
          inject_Z (computeVirtualStock selectedProduct
                      (Some match allProducts with Some all => all | None => [] end)) in
        let isBom := hasBom sp in
        if negb isBom && Qgtb quantity' (currentStock sp)
        then (Some ToastEstoqueInsuficiente, cart)
        else if isBom && Qgtb quantity' (currentStock sp +! virtualStock)
        then (Some ToastInsumosInsuficientes, cart)
        else
          let shortfall := Qmax 0 (quantity' -! currentStock sp) in
          match (if isBom then addInsufficient allProducts shortfall (bomList sp) else []) with
          | _ :: _ => (Some ToastMateriaPrimaInsuficiente, cart)
          | [] =>
              addMerge sp quantity' currentPrice (addCostPerUnit allProducts sp)
                (currentStock sp +! virtualStock) cart
          end
  end.

(** ** The purchase form ([onFinalizePurchase]) *)

Record PurchaseItem : Type := mkPurchaseItem {
  pi_productId : string;
  pi_quantity : Q;
  pi_price : Q
}.

Record PurchaseValues : Type := mkPurchaseValues {
  v_supplierId : string;
  v_invoiceNumber : option string;
  v_notes : option string;
  v_discountValue : Q;
  v_items : list PurchaseItem
}.

(** [watchedItems.reduce((acc, item) => acc + (item.quantity || 0) * (item.price || 0), 0)] *)
Definition purchaseSubtotal (items : list PurchaseItem) : Q :=
  fold_left (fun acc item => acc +! orZero (pi_quantity item) *! orZero (pi_price item))
    items 0.

(** [subtotal - (discount || 0)] *)
Definition purchaseNetTotal (values : PurchaseValues) : Q :=
  purchaseSubtotal (v_items values) -! orZero (v_discountValue values).

Definition purchaseTransactionDoc (values : PurchaseValues) (id : string) : Transaction :=
  mkTransaction id OUT COMPLETED (Some (v_supplierId values)) None None
    (purchaseSubtotal (v_items values)) (v_discountValue values)
    (purchaseNetTotal values)
    (Some (strOrEmpty (v_notes values)))
    (Some (strOrEmpty (v_invoiceNumber values))).

Section PurchaseWrites.
Variable uuid : nat -> string.
Variable loaded : option (list Product).
Variable values : PurchaseValues.

(** [values.items.forEach(...)]: a line whose product is not in the
    loaded list returns early and queues nothing. *)
Fixpoint purchaseItemOps (k : nat) (items : list PurchaseItem) : list Op :=
  match items with
  | [] => []
  | item :: rest =>
      match (match loaded with
             | Some ps => findProduct ps (pi_productId item)
             | None => None
             end) with
      | None => purchaseItemOps k rest
      | Some product =>
          let itemId := uuid k in
          SetItem itemId
            (mkTransactionItem itemId (uuid 0%nat) (pi_productId item)
               (p_name product) (pi_quantity item) (pi_price item) None
               (Some (strOrEmpty (p_sku product))))
          :: UpdateProduct (pi_productId item)
               (mkPatch (Some (Increment (pi_quantity item)))
                  (Some (pi_price item)) (Some (v_supplierId values)))
          :: purchaseItemOps (S k) rest
      end
  end.

Definition purchaseOps : list Op :=
  SetTransaction (uuid 0%nat) (purchaseTransactionDoc values (uuid 0%nat))
  :: purchaseItemOps 1 (v_items values).
End PurchaseWrites.

(** [batch.commit()] of [writeBatch] runs the same loop as the commit of
    [runTransaction]. *)
Definition onFinalizePurchase (uuid : nat -> string) (loaded : option (list Product))
    (values : PurchaseValues) (s : Store) : Outcome :=
  commit s (purchaseOps uuid loaded values).

(** ** The BOM service ([services/bom.ts]) *)

(** The entry kept in [componentSnaps]. *)
Record ComponentSnap : Type := mkComponentSnap {
  cs_ref : string;
  cs_snap : Product;
  cs_required : Q
}.

(** The availability loop shared by both functions of the service. *)
Fixpoint bomCheckComponents (s : Store) (units : Q) (comps : list BomItem)
    : Error + list ComponentSnap :=
  match comps with
  | [] => inr []
  | comp :: rest =>
      match getById p_id (products s) (bom_productId comp) with
      | None => inl (ComponentNotFound (bom_productId comp))
      | Some compData =>
          let required := units *! bom_quantity comp in
          let available := orZero (currentStock compData) in
          if Qgtb required available
          then inl (InsufficientComponentStock
                      (strOr (p_name compData) (bom_productId comp)) required available)
          else
            do snaps <- bomCheckComponents s units rest;
            inr (mkComponentSnap (bom_productId comp) compData required :: snaps)
      end
  end.

(** The audit document of either function: no partner, zero values. *)
Definition bomTransactionDoc (id : string) (type : TxType) (notes : string) : Transaction :=
  mkTransaction id type COMPLETED None None None 0 0 0 (Some notes) None.

Section BomWrites.
Variable uuid : nat -> string.

(** One consumption item and one stock update per component. *)
Fixpoint bomConsumeOps (txnId : string) (k : nat) (snaps : list ComponentSnap) : list Op :=
  match snaps with
  | [] => []
  | c :: rest =>
      let itemId := uuid k in
      let compCost := orZeroOpt (p_costPrice (cs_snap c)) in
      SetItem itemId
        (mkTransactionItem itemId txnId (cs_ref c)
           (strOr (p_name (cs_snap c)) (cs_ref c)) (cs_required c) 0
           (Some compCost) None)
      :: UpdateProduct (cs_ref c)
           (stockAssign (currentStock (cs_snap c) -! cs_required c))
      :: bomConsumeOps txnId (S k) rest
  end.

Definition explosionUpdateFunction (finalProductId : string) (quantitySold : Q)
    (s : Store) : Error + list Op :=
  match getById p_id (products s) finalProductId with
  | None => inl (ProductNotFound finalProductId)
  | Some finalData =>
      if negb (hasBom finalData) then inl NoBomDefined
      else
        do componentSnaps <- bomCheckComponents s quantitySold (bomList finalData);
        let txnId := uuid 0%nat in
        inr (SetTransaction txnId (bomTransactionDoc txnId IN "Baixa por Explosão (BOM)")
             :: bomConsumeOps txnId 1 componentSnaps)
  end.

Definition processBomExplosionSale (finalProductId : string) (quantitySold : Q)
    (s : Store) : Outcome :=
  runTransaction (explosionUpdateFunction finalProductId quantitySold) s.

Definition assemblyUpdateFunction (finalProductId : string) (quantityToAssemble : Q)
    (s : Store) : Error + list Op :=
  match getById p_id (products s) finalProductId with
  | None => inl (ProductNotFound finalProductId)
  | Some finalData =>
      if negb (hasBom finalData) then inl NoBomDefined
      else
        do componentSnaps <- bomCheckComponents s quantityToAssemble (bomList finalData);
        let txnId := uuid 0%nat in
        let newFinalStock := currentStock finalData +! quantityToAssemble in
        let finalItemId := uuid (S (List.length componentSnaps)) in
        inr (SetTransaction txnId
               (bomTransactionDoc txnId ASSEMBLY "Montagem para estoque (BOM)")
             :: bomConsumeOps txnId 1 componentSnaps
             ++ [UpdateProduct finalProductId (stockAssign newFinalStock);
                 SetItem finalItemId
                   (mkTransactionItem finalItemId txnId finalProductId
                      (p_name finalData) quantityToAssemble 0 (Some 0) None)])
  end.

Definition processAssemblyToStock (finalProductId : string) (quantityToAssemble : Q)
    (s : Store) : Outcome :=
  runTransaction (assemblyUpdateFunction finalProductId quantityToAssemble) s.
End BomWrites.

(** ** Reversal ([components/transactions/details-dialog.tsx]) *)

(** [transaction.type === 'IN' ? quantity : -quantity] *)
Definition stockAdjustment (type : TxType) (item : TransactionItem) : Q :=
  if TxType_eqb type IN then ti_quantity item else - ti_quantity item.

(** The items of the dialog, or the query on [transaction_items] when the
    hook has delivered an empty list. *)
Definition freshItemsOf (transaction : Transaction) (items : list TransactionItem)
    (s : Store) : list TransactionItem :=
  match items with
  | _ :: _ => items
  | [] =>
      filter (fun it => (transactionId it =? t_id transaction)%string)
        (transaction_items s)
  end.

(** The stock writes of the reversal: an item whose product is gone
    queues nothing. *)
Definition revertStockOps (type : TxType) (freshItems : list TransactionItem)
    (s : Store) : list Op :=
  flat_map (fun item =>
    match getById p_id (products s) (ti_productId item) with
    | Some _ =>
        [UpdateProduct (ti_productId item)
           (mkPatch (Some (Increment (stockAdjustment type item))) None None)]
    | None => []
    end) freshItems.

(** The writes queued by the transactional path and, read again, by the
    batched path. *)
Definition revertOps (transaction : Transaction) (freshItems : list TransactionItem)
    (s : Store) : list Op :=
  revertStockOps (t_type transaction) freshItems s
  ++ map (fun item => DeleteItem (ti_id item)) freshItems
  ++ [DeleteTransaction (t_id transaction)].

Definition revertUpdateFunction (transaction : Transaction)
    (freshItems : list TransactionItem) (s : Store) : Error + list Op :=
  inr (revertOps transaction freshItems s).

(** [handleRevert]; [items] is the list delivered by the collection hook,
    [None] while it has not loaded.  When the transactional path throws,
    the batched path runs on the store that path left behind. *)
Definition handleRevert (transaction : Transaction)
    (items : option (list TransactionItem)) (s : Store) : Outcome :=
  match items with
  | None => (Some ItemsNotLoaded, s)
  | Some its =>
      if TxStatus_eqb (t_status transaction) CANCELLED
      then (Some AlreadyCancelled, s)
      else
        match runTransaction
                (revertUpdateFunction transaction (freshItemsOf transaction its s)) s with
        | (None, s') => (None, s')
        | (Some _, s1) =>
            commit s1 (revertOps transaction (freshItemsOf transaction its s1) s1)
        end
  end.

(** ** Pure descriptions used in the statements *)

(** The effect of a commit on each collection taken alone. *)
Definition itemsStep (items : list TransactionItem) (op : Op) : list TransactionItem :=
  match op with
  | SetItem id data => collSet ti_id (mergeItem data) data items id
  | DeleteItem id => collDelete ti_id items id
  | _ => items
  end.

Definition transactionsStep (txs : list Transaction) (op : Op) : list Transaction :=
  match op with
  | SetTransaction id data => collSet t_id (mergeTransaction data) data txs id
  | DeleteTransaction id => collDelete t_id txs id
  | _ => txs
  end.

(** The product written by an operation, if any. *)
Definition opProduct (op : Op) : option string :=
  match op with
  | UpdateProduct id _ => Some id
  | _ => None
  end.

(** Every product update of the log targets a stored product. *)
Definition updatesExist (s : Store) (ops : list Op) : Prop :=
  Forall (fun op =>
            match op with
            | UpdateProduct id _ => getById p_id (products s) id <> None
            | _ => True
            end) ops.

(** Every product update of the log assigns a stock that is not negative. *)
Definition assignsNonneg (ops : list Op) : Prop :=
  Forall (fun op =>
            match op with
            | UpdateProduct _ d =>
                match u_currentStock d with
                | Some (Assign v) => 0 <= v
                | Some (Increment _) => False
                | None => True
                end
            | _ => True
            end) ops.

Definition stockNonneg (s : Store) : Prop :=
  Forall (fun p => 0 <= currentStock p) (products s).

(** The amounts of one cart line as step 1 of the sale computes them. *)
Definition lineFromStock (p : Product) (item : CartItem) : Q :=
  Qmin (orZero (currentStock p)) (quantity item).

Definition lineShortfall (p : Product) (item : CartItem) : Q :=
  Qmax 0 (quantity item -! lineFromStock p item).

(** What a successful step 1 appends to [productDetails] for one line. *)
Definition lineDetail (s : Store) (item : CartItem) : list ProductDetail :=
  match getById p_id (products s) (productId item) with
  | Some p =>
      [mkDetail (productId item) p (withAvailableStock item (lineFromStock p item))]
  | None => []
  end.

(** What a successful step 1 appends to [consumptionOps] for one BOM entry
    and for one line. *)
Definition bomConsumption (s : Store) (shortfall : Q) (comp : BomItem)
    : list ConsumptionOp :=
  match getById p_id (products s) (bom_productId comp) with
  | Some compData =>
      if Qgtb (shortfall *! bom_quantity comp) 0
      then [mkConsumption (bom_productId comp) compData
              (shortfall *! bom_quantity comp)
              (strOr (p_name compData) (bom_productId comp))]
      else []
  | None => []
  end.

Definition lineConsumption (s : Store) (item : CartItem) : list ConsumptionOp :=
  match getById p_id (products s) (productId item) with
  | Some p =>
      if hasBom p
      then flat_map (bomConsumption s (lineShortfall p item)) (bomList p)
      else []
  | None => []
  end.

(** The checks one BOM entry and one cart line have passed. *)
Definition compOk (s : Store) (shortfall : Q) (comp : BomItem) : Prop :=
  exists compData,
    getById p_id (products s) (bom_productId comp) = Some compData
    /\ shortfall *! bom_quantity comp <= orZero (currentStock compData).

Definition lineOk (s : Store) (item : CartItem) : Prop :=
  exists p,
    getById p_id (products s) (productId item) = Some p
    /\ (hasBom p = true -> Forall (compOk s (lineShortfall p item)) (bomList p)).

(** [compCost] of one BOM entry and the accumulated
    [assembledCostPerUnit] of a product, as step 3 computes them. *)
Definition compCostOf (s : Store) (comp : BomItem) : Q :=
  match getById p_id (products s) (bom_productId comp) with
  | Some compData => orZeroOpt (p_costPrice compData)
  | None => 0
  end.

Definition assembledOf (s : Store) (p : Product) : Q :=
  if hasBom p
  then fold_left (fun acc comp => acc +! compCostOf s comp *! bom_quantity comp)
         (bomList p) 0
  else 0.

(** The item document and the stock update written for one detail. *)
Definition detailItem (transactionId' : string) (s : Store) (itemId : string)
    (detail : ProductDetail) : TransactionItem :=
  let fromStock := orZero (availableStock (d_item detail)) in
  mkTransactionItem itemId transactionId' (productId (d_item detail))
    (productName (d_item detail)) (quantity (d_item detail))
    (price (d_item detail))
    (Some (saleCostPerUnit fromStock (orZeroOpt (p_costPrice (d_snap detail)))
             (Qmax 0 (quantity (d_item detail) -! fromStock))
             (assembledOf s (d_snap detail)) (quantity (d_item detail))))
    None.

Definition detailUpdate (detail : ProductDetail) : Op :=
  UpdateProduct (d_ref detail)
    (stockAssign (currentStock (d_snap detail)
                  -! orZero (availableStock (d_item detail)))).

Fixpoint detailOps (uuid : nat -> string) (transactionId' : string) (s : Store)
    (k : nat) (details : list ProductDetail) : list Op :=
  match details with
  | [] => []
  | detail :: rest =>
      SetItem (uuid k) (detailItem transactionId' s (uuid k) detail)
      :: detailUpdate detail
      :: detailOps uuid transactionId' s (S k) rest
  end.

Fixpoint detailItems (uuid : nat -> string) (transactionId' : string) (s : Store)
    (k : nat) (details : list ProductDetail) : list TransactionItem :=
  match details with
  | [] => []
  | detail :: rest =>
      detailItem transactionId' s (uuid k) detail
      :: detailItems uuid transactionId' s (S k) rest
  end.

(** The whole log of a sale that passed step 1. *)
Definition saleOps (uuid : nat -> string) (form : SaleForm) (cart : list CartItem)
    (s : Store) : list Op :=
  SetTransaction (uuid 0%nat) (saleTransactionDoc form cart (uuid 0%nat))
  :: detailOps uuid (uuid 0%nat) s 1 (flat_map (lineDetail s) cart)
  ++ saleWriteConsumption (flat_map (lineConsumption s) cart).

(** The identifiers drawn by an operation are new to the store and
    pairwise different. *)
Definition freshIds (uuid : nat -> string) (s : Store) : Prop :=
  (forall i j, uuid i = uuid j -> i = j)
  /\ (forall k, getById t_id (transactions s) (uuid k) = None)
  /\ (forall k, getById ti_id (transaction_items s) (uuid k) = None).

(** The item document a successful sale writes for a cart line, with the
    blended cost as step 3 computes it. *)
Definition lineItemOf (transactionId' : string) (s : Store) (item : CartItem)
    (ti : TransactionItem) : Prop :=
  exists p,
    getById p_id (products s) (productId item) = Some p
    /\ transactionId ti = transactionId'
    /\ ti_productId ti = productId item
    /\ ti_productName ti = productName item
    /\ ti_quantity ti = quantity item
    /\ ti_price ti = price item
    /\ ti_costPrice ti
       = Some (saleCostPerUnit (orZero (lineFromStock p item))
                 (orZeroOpt (p_costPrice p))
                 (Qmax 0 (quantity item -! orZero (lineFromStock p item)))
                 (assembledOf s p) (quantity item)).

(** The blended unit cost in the words of the specification, evaluated
    on doubles:
    [fromStock = min(currentStock, quantity)],
    [shortfall = quantity - fromStock],
    [assembledCostPerUnit] the sum, in the order of the BOM, of component
    cost times quantity per unit, and
    [(fromStock * readyCostPrice + shortfall * assembledCostPerUnit) / quantity]. *)
Definition specFromStock (p : Product) (item : CartItem) : Q :=
  Qmin (currentStock p) (quantity item).

Definition specShortfall (p : Product) (item : CartItem) : Q :=
  quantity item -! specFromStock p item.

(** A sum of doubles taken from left to right, starting at 0. *)
Definition sumOf (A : Type) (term : A -> Q) (l : list A) : Q :=
  fold_left (fun acc x => acc +! term x) l 0.

Definition specAssembledCostPerUnit (s : Store) (p : Product) : Q :=
  sumOf (fun comp => compCostOf s comp *! bom_quantity comp) (bomList p).

Definition specBlendedCost (s : Store) (p : Product) (item : CartItem) : Q :=
  (specFromStock p item *! orZeroOpt (p_costPrice p)
   +! specShortfall p item *! specAssembledCostPerUnit s p) /! quantity item.

(** The guard of the purchase loop: the line's product is in the list
    the form has loaded. *)
Definition lineLoaded (loaded : option (list Product)) (item : PurchaseItem) : bool :=
  match loaded with
  | Some ps =>
      match findProduct ps (pi_productId item) with
      | Some _ => true
      | None => false
      end
  | None => false
  end.

(** What a successful availability loop of the BOM service returns for
    one entry. *)
Definition bomSnap (s : Store) (units : Q) (comp : BomItem) : list ComponentSnap :=
  match getById p_id (products s) (bom_productId comp) with
  | Some compData =>
      [mkComponentSnap (bom_productId comp) compData (units *! bom_quantity comp)]
  | None => []
  end.

(** A purchase in the words of the specification: the subtotal of the
    lines, the quantities bought of one product line after line, and the
    last line of a product, whose cost wins. *)
Definition specSubtotal (items : list PurchaseItem) : Q :=
  sumOf (fun item => pi_quantity item *! pi_price item) items.

(** A stock with [deltas] added one after the other, each addition
    rounding as the addition of doubles does and a falsy stock counting
    as 0. *)
Definition incremented (stock : Q) (deltas : list Q) : Q :=
  fold_left (fun acc delta => orZero acc +! delta) deltas stock.

Definition purchasedQuantities (id : string) (items : list PurchaseItem) : list Q :=
  map pi_quantity (filter (fun item => (pi_productId item =? id)%string) items).

Fixpoint lastLineOf (id : string) (items : list PurchaseItem) : option PurchaseItem :=
  match items with
  | [] => None
  | item :: rest =>
      match lastLineOf id rest with
      | Some later => Some later
      | None => if (pi_productId item =? id)%string then Some item else None
      end
  end.

(** Every line names a product of the loaded list that is also stored. *)
Definition linesResolve (cache : list Product) (s : Store)
    (items : list PurchaseItem) : Prop :=
  Forall (fun item =>
            findProduct cache (pi_productId item) <> None
            /\ getById p_id (products s) (pi_productId item) <> None) items.

(** The item document of a purchase line. *)
Definition purchaseLineItem (transactionId' : string) (item : PurchaseItem)
    (ti : TransactionItem) : Prop :=
  transactionId ti = transactionId'
  /\ ti_productId ti = pi_productId item
  /\ ti_quantity ti = pi_quantity item
  /\ ti_price ti = pi_price item.

(** The state of a product after a purchase, against its state before. *)
Definition purchasedProduct (supplier : string) (items : list PurchaseItem)
    (id : string) (p p' : Product) : Prop :=
  currentStock p' == incremented (currentStock p) (purchasedQuantities id items)
  /\ match lastLineOf id items with
     | Some item =>
         p_costPrice p' = Some (pi_price item)
         /\ p_supplierId p' = Some supplier
     | None => p' = p
     end.

(** The stock a log assigns to a product: its last plain write wins;
    [acc] is the value assigned before the log. *)
Definition lastAssign (id : string) (ops : list Op) (acc : option Q) : option Q :=
  fold_left (fun acc op =>
               match op with
               | UpdateProduct i d =>
                   if (i =? id)%string
                   then match u_currentStock d with
                        | Some (Assign v) => Some v
                        | _ => acc
                        end
                   else acc
               | _ => acc
               end) ops acc.

Definition assignedStock (id : string) (ops : list Op) : option Q :=
  lastAssign id ops None.

(** Every product update of the log is a plain write of the stock. *)
Definition onlyStockAssigns (ops : list Op) : Prop :=
  Forall (fun op =>
            match op with
            | UpdateProduct _ d => exists v, d = stockAssign v
            | DeleteItem _ | DeleteTransaction _ => False
            | _ => True
            end) ops.

(** The product with its stock replaced. *)
Definition withStock (p : Product) (v : Q) : Product :=
  applyPatch (stockAssign v) p.

Definition withStockOpt (p : Product) (v : option Q) : Product :=
  match v with
  | Some w => withStock p w
  | None => p
  end.

(** The amounts a reversal gives back to (or takes from) one product,
    item after item. *)
Definition revertedQuantities (type : TxType) (id : string)
    (items : list TransactionItem) : list Q :=
  map (stockAdjustment type)
    (filter (fun item => (ti_productId item =? id)%string) items).

(** The cart line of a product, [cart.find(item => item.productId === id)]. *)
Definition cartLine (cart : list CartItem) (id : string) : option CartItem :=
  find (fun item => (productId item =? id)%string) cart.

(** A whole number that a double holds exactly. *)
Definition wholeNumber (x : Q) : Prop :=
  exists z : Z, x == inject_Z z /\ (Z.abs z < 2 ^ 53)%Z.

(** A cart over products without BOM whose lines stay within the stock. *)
Definition withinStock (s : Store) (cart : list CartItem) : Prop :=
  Forall (fun item =>
            exists p, getById p_id (products s) (productId item) = Some p
                      /\ hasBom p = false
                      /\ quantity item <= currentStock p) cart.

(** ** Sample data used by the closed examples *)

(** A stream of pairwise different identifiers. *)
Fixpoint uuidOf (n : nat) : string :=
  match n with
  | O => "id"
  | S k => String "u"%char (uuidOf k)
  end.

Definition simpleProduct (id : string) (stock : Q) (cost : option Q)
    (b : option (list BomItem)) : Product :=
  mkProduct id id None stock 0 0 cost None (Some FINAL) None b.

(** Scenario B of the specification: final product F assembled from two
    units of C, nothing on the shelf, ten units of C. *)
Definition compC2 : BomItem := mkBomItem "C" 2.
Definition productF : Product := simpleProduct "F" 0 (Some 30) (Some [compC2]).
Definition productC : Product := simpleProduct "C" 10 (Some 7) None.
Definition storeB : Store := mkStore [productF; productC] [] [].
Definition saleFormB : SaleForm := mkSaleForm "consumidor-final" "Consumidor Final" COMPLETED 0.
Definition cartB : list CartItem := [mkCartItem "F" "F" 3 50 0 14].

(** Scenario A: product P with ten units, three sold at 50. *)
Definition storeA : Store := mkStore [simpleProduct "P" 10 (Some 20) None] [] [].
Definition cartA : list CartItem := [mkCartItem "P" "P" 3 50 10 20].
Definition storeA1 : Store := snd (onFinalizeSale uuidOf saleFormB cartA storeA).

(** Scenario C: as scenario B with four units of C only. *)
Definition storeC : Store :=
  mkStore [productF; simpleProduct "C" 4 (Some 7) None] [] [].

(** Scenario D: product P with ten units at cost 12. *)
Definition storeD : Store := mkStore [simpleProduct "P" 10 (Some 12) None] [] [].

(** Scenario E: two units of F assembled to stock in scenario B's store,
    and the transaction and items that assembly leaves behind. *)
Definition storeE : Store := snd (processAssemblyToStock uuidOf "F" 2 storeB).
Definition assemblyTransaction : Transaction :=
  bomTransactionDoc (uuidOf 0) ASSEMBLY "Montagem para estoque (BOM)".

(** A product without BOM with three units on the shelf, and a cart line
    of five units put together while five were still there. *)
Definition productP : Product := simpleProduct "P" 3 (Some 20) None.
Definition storeP : Store := mkStore [productP] [] [].
Definition cartP : list CartItem := [mkCartItem "P" "P" 5 50 5 20].

(** Two final products assembled from the same component: three units of
    F1 at two C each and one unit of F2 at three C, nine C in all out of
    ten. *)
Definition productF1 : Product :=
  simpleProduct "F1" 0 None (Some [mkBomItem "C" 2]).
Definition productF2 : Product :=
  simpleProduct "F2" 0 None (Some [mkBomItem "C" 3]).
Definition storeShared : Store := mkStore [productF1; productF2; productC] [] [].
Definition cartShared : list CartItem :=
  [mkCartItem "F1" "F1" 3 50 0 14; mkCartItem "F2" "F2" 1 80 0 21].

(** A purchase of five units at 20 of a product that is in no list, and
    scenario D, the same purchase of product P. *)
Definition purchaseGhost : PurchaseValues :=
  mkPurchaseValues "supplier-1" None None 0 [mkPurchaseItem "ghost" 5 20].
Definition purchaseD : PurchaseValues :=
  mkPurchaseValues "supplier-1" None None 0 [mkPurchaseItem "P" 5 20].
Definition cartGhost : list CartItem := [mkCartItem "ghost" "Ghost" 1 10 1 0].

(** Scenario D's purchase with a line for a product that is in no list
    before the line of P. *)
Definition purchaseMixed : PurchaseValues :=
  mkPurchaseValues "supplier-1" None None 0
    [mkPurchaseItem "ghost" 5 20; mkPurchaseItem "P" 5 20].

(** A BOM with a negative quantity per unit over a stocked component. *)
Definition malformedComp : BomItem := mkBomItem "B" (-1).
Definition malformedCatalog : list Product :=
  [simpleProduct "B" 5 None None;
   simpleProduct "F" 0 None (Some [malformedComp])].
Definition malformedFinal : Product :=
  simpleProduct "F" 0 None (Some [malformedComp]).

(** Decimal quantities: F is assembled from C at 0.05 per unit, over 0.85
    and over 2.15 of C in stock, every decimal being the double nearest to
    it; and the cart line of so many units of F. *)
Definition compC005 : BomItem := mkBomItem "C" (round64 (5 # 100)).
Definition productFd : Product := simpleProduct "F" 0 (Some 30) (Some [compC005]).
Definition storeDecimalLow : Store :=
  mkStore [productFd; simpleProduct "C" (round64 (85 # 100)) (Some 7) None] [] [].
Definition storeDecimalHigh : Store :=
  mkStore [productFd; simpleProduct "C" (round64 (215 # 100)) (Some 7) None] [] [].
Definition cartOfF (units : Q) : list CartItem := [mkCartItem "F" "F" units 50 0 0].

(** ** Further code of the cited files *)

(** [handleRemoveItem] of the sale form:
    [prevCart.filter(item => item.productId !== productId)]. *)
Definition handleRemoveItem (productId' : string) (cart : list CartItem) : list CartItem :=
  filter (fun item => negb (productId item =? productId')%string) cart.

(** [addItem] of the purchase form: the line of the same product gets the
    quantities added and the latest cost, a new product is appended. *)
Fixpoint purchaseAddItem (data : PurchaseItem) (fields : list PurchaseItem)
    : list PurchaseItem :=
  match fields with
  | [] => [data]
  | existingItem :: rest =>
      if (pi_productId existingItem =? pi_productId data)%string
      then mkPurchaseItem (pi_productId existingItem)
             (pi_quantity existingItem +! pi_quantity data) (pi_price data)
           :: rest
      else existingItem :: purchaseAddItem data rest
  end.

(** [PRODUCT_STATUS_TYPE] and [PRODUCT_STATUS] of [lib/products.ts]. *)
Inductive ProductStatusType : Type := CRITICAL | ALERT | OK | EXCESS.

Definition statusLabel (t : ProductStatusType) : string :=
  match t with
  | CRITICAL => "Estoque Zerado"
  | ALERT => "Repor Estoque"
  | OK => "Estoque Suficiente"
  | EXCESS => "Excesso de Estoque"
  end.

(** [getProductStatus]: the first matching test decides; a [maxStock] of
    0 or less is not controlled. *)
Definition getProductStatus (product : Product) : string * ProductStatusType :=
  let type :=
    if Qle_bool (currentStock product) 0 then CRITICAL
    else if Qle_bool (currentStock product) (minStock product) then ALERT
    else if Qgtb (maxStock product) 0
            && Qle_bool (maxStock product) (currentStock product) then EXCESS
    else OK in
  (statusLabel type, type).

(** The order of the four states from empty to overfull. *)
Definition statusRank (t : ProductStatusType) : nat :=
  match t with
  | CRITICAL => 0
  | ALERT => 1
  | OK => 2
  | EXCESS => 3
  end.

(** The item of scenario A's sale written again with another price and a
    SKU, and no cost. *)
Definition repricedItem : TransactionItem :=
  mkTransactionItem (uuidOf 1) (uuidOf 0) "P" "P" 3 55 None (Some "sku").

(** Scenario A's product with its thresholds: minimum 2, maximum 20. *)
Definition thresholdProduct : Product :=
  mkProduct "P" "P" None 10 2 20 (Some 20) None (Some FINAL) None None.

(** The products a sale can write: the product of every line and, for a
    product with BOM, the components of that BOM. *)
Definition saleTouches (s : Store) (cart : list CartItem) : list string :=
  flat_map (fun item =>
    productId item
    :: match getById p_id (products s) (productId item) with
       | Some p => if hasBom p then map bom_productId (bomList p) else []
       | None => []
       end) cart.

(** Scenario B's store with product P beside F and C. *)
Definition storeBystander : Store := mkStore [productF; productC; productP] [] [].

(** Every product update of the log writes the stock only. *)
Definition stockOnly (ops : list Op) : Prop :=
  Forall (fun op =>
            match op with
            | UpdateProduct _ d => u_costPrice d = None /\ u_supplierId d = None
            | _ => True
            end) ops.

(** [p'] is [p] up to its stock. *)
Definition sameButStock (p p' : Product) : Prop :=
  withStock p' (currentStock p) = p.

(** Scenario D after the purchase. *)
Definition storeD1 : Store :=
  snd (onFinalizePurchase uuidOf (Some (products storeD)) purchaseD storeD).

(** The logs of the BOM service once the availability loop has passed. *)
Definition explosionOps (uuid : nat -> string) (quantitySold : Q) (s : Store)
    (finalData : Product) : list Op :=
  SetTransaction (uuid 0%nat)
    (bomTransactionDoc (uuid 0%nat) IN "Baixa por Explosão (BOM)")
  :: bomConsumeOps uuid (uuid 0%nat) 1
       (flat_map (bomSnap s quantitySold) (bomList finalData)).

Definition assemblyOps (uuid : nat -> string) (finalProductId : string)
    (quantityToAssemble : Q) (s : Store) (finalData : Product) : list Op :=
  let componentSnaps := flat_map (bomSnap s quantityToAssemble) (bomList finalData) in
  let finalItemId := uuid (S (List.length componentSnaps)) in
  SetTransaction (uuid 0%nat)
    (bomTransactionDoc (uuid 0%nat) ASSEMBLY "Montagem para estoque (BOM)")
  :: bomConsumeOps uuid (uuid 0%nat) 1 componentSnaps
  ++ [UpdateProduct finalProductId
        (stockAssign (currentStock finalData +! quantityToAssemble));
      SetItem finalItemId
        (mkTransactionItem finalItemId (uuid 0%nat) finalProductId
           (p_name finalData) quantityToAssemble 0 (Some 0) None)].

(** The conditions under which the BOM service goes through for a final
    product and a number of units. *)
Definition bomReady (s : Store) (finalProductId : string) (units : Q) : Prop :=
  exists finalData,
    getById p_id (products s) finalProductId = Some finalData
    /\ hasBom finalData = true
    /\ Forall (compOk s units) (bomList finalData).

(* ================================================================== *)
(** * Properties *)

(** ** JavaScript helpers *)

Lemma orZero_eq (x : Q) : orZero x == x.
Proof.
  unfold orZero. destruct (Qeq_bool x 0) eqn:E.
  - apply Qeq_bool_iff in E. symmetry. exact E.
  - reflexivity.
Qed.

#[global] Instance orZero_Proper : Proper (Qeq ==> Qeq) orZero.
Proof. intros x y E. rewrite !orZero_eq. exact E. Qed.

Lemma Qgtb_true (a b : Q) : Qgtb a b = true <-> b < a.
Proof.
  unfold Qgtb. rewrite negb_true_iff. split; intro H.
  - apply Qnot_le_lt. intro L. apply Qle_bool_iff in L. congruence.
  - destruct (Qle_bool a b) eqn:E; trivial.
    apply Qle_bool_iff in E. exfalso. apply (Qlt_not_le _ _ H E).
Qed.

Lemma Qgtb_false (a b : Q) : Qgtb a b = false <-> a <= b.
Proof.
  unfold Qgtb. rewrite negb_false_iff. apply Qle_bool_iff.
Qed.

Lemma Qgtb_comp (a a' b : Q) : a == a' -> Qgtb a b = Qgtb a' b.
Proof. intro E. unfold Qgtb. rewrite E. reflexivity. Qed.

Lemma Qle_bool_false (a b : Q) : Qle_bool a b = false <-> b < a.
Proof.
  rewrite <- Qgtb_true. unfold Qgtb. rewrite negb_true_iff. tauto.
Qed.

(** ** Doubles *)

Lemma round64_comp (x y : Q) : x == y -> round64 x = round64 y.
Proof. intro E. unfold round64. rewrite (Qred_complete _ _ E). reflexivity. Qed.

#[global] Instance round64_Proper : Proper (Qeq ==> Qeq) round64.
Proof. intros x y E. rewrite (round64_comp E). reflexivity. Qed.

#[global] Instance jsAdd_Proper : Proper (Qeq ==> Qeq ==> Qeq) jsAdd.
Proof. intros a a' Ea b b' Eb. unfold jsAdd. rewrite Ea, Eb. reflexivity. Qed.

#[global] Instance jsSub_Proper : Proper (Qeq ==> Qeq ==> Qeq) jsSub.
Proof. intros a a' Ea b b' Eb. unfold jsSub. rewrite Ea, Eb. reflexivity. Qed.

#[global] Instance jsMul_Proper : Proper (Qeq ==> Qeq ==> Qeq) jsMul.
Proof. intros a a' Ea b b' Eb. unfold jsMul. rewrite Ea, Eb. reflexivity. Qed.

#[global] Instance jsDiv_Proper : Proper (Qeq ==> Qeq ==> Qeq) jsDiv.
Proof. intros a a' Ea b b' Eb. unfold jsDiv. rewrite Ea, Eb. reflexivity. Qed.

Lemma pow2_pos (e : Z) : 0 < pow2 e.
Proof. apply Qpower_0_lt. reflexivity. Qed.

Lemma roundHalfEven_nonneg (x : Q) : 0 <= x -> (0 <= roundHalfEven x)%Z.
Proof.
  intro H. unfold roundHalfEven.
  assert (F : (0 <= Qfloor x)%Z).
  { change 0%Z with (Qfloor 0). apply Qfloor_resp_le. exact H. }
  destruct (Qcompare (x - inject_Z (Qfloor x)) (1 # 2)); [|lia|lia].
  destruct (Z.even (Qfloor x)); lia.
Qed.

Lemma roundPos_nonneg (n d : positive) : 0 <= roundPos n d.
Proof.
  unfold roundPos. apply Qmult_le_0_compat; [|apply Qlt_le_weak, pow2_pos].
  change 0 with (inject_Z 0). rewrite <- Zle_Qle.
  apply roundHalfEven_nonneg.
  apply Qle_shift_div_l; [apply pow2_pos|]. rewrite Qmult_0_l. discriminate.
Qed.

(** Rounding keeps the sign: no operation turns a result that is not
    negative into a negative double. *)
Lemma round64_nonneg (x : Q) : 0 <= x -> 0 <= round64 x.
Proof.
  intro H. unfold round64.
  destruct (Qred x) as [[|n|n] d] eqn:E.
  - apply Qle_refl.
  - rewrite Qred_correct. apply roundPos_nonneg.
  - exfalso. rewrite <- (Qred_correct x), E in H.
    revert H. unfold Qle. cbn. lia.
Qed.

Lemma round64_opp (x : Q) : round64 (- x) = - round64 x.
Proof.
  unfold round64. rewrite Qred_opp.
  destruct (Qred x) as [[|n|n] d]; cbn [Qopp Qnum Qden Z.opp].
  - reflexivity.
  - apply Qred_opp.
  - rewrite Qred_opp. destruct (Qred (roundPos n d)) as [a b].
    unfold Qopp. cbn [Qnum Qden]. rewrite Z.opp_involutive. reflexivity.
Qed.

Lemma round64_nonpos (x : Q) : x <= 0 -> round64 x <= 0.
Proof.
  intro H.
  assert (N : 0 <= round64 (- x)) by (apply round64_nonneg; lra).
  rewrite round64_opp in N. lra.
Qed.

Lemma roundHalfEven_Z (x : Q) (k : Z) : x == inject_Z k -> roundHalfEven x = k.
Proof.
  intro E. unfold roundHalfEven.
  assert (F : Qfloor x = k) by (rewrite (Qfloor_comp _ _ E); apply Qfloor_Z).
  rewrite F.
  assert (C : Qcompare (x - inject_Z k) (1 # 2) = Lt).
  { apply Qlt_alt. rewrite E. unfold Qminus. rewrite Qplus_opp_r. reflexivity. }
  rewrite C. reflexivity.
Qed.

(** A whole number below 2^53 is a double. *)
Lemma round64_Z (z : Z) : (Z.abs z < 2 ^ 53)%Z -> round64 (inject_Z z) == inject_Z z.
Proof.
  assert (P : forall n : positive, (Zpos n < 2 ^ 53)%Z ->
                roundPos n 1 == inject_Z (Zpos n)).
  { intros n Hn. unfold roundPos, floorLog2.
    change (Z.log2 1) with 0%Z. rewrite Z.sub_0_r.
    set (L := Z.log2 (Z.pos n)).
    assert (HL : (0 <= L < 53)%Z).
    { split; [apply Z.log2_nonneg|].
      apply Z.log2_lt_pow2; [reflexivity | exact Hn]. }
    assert (Hp : (2 ^ L <= Z.pos n)%Z)
      by (apply Z.log2_spec; reflexivity).
    assert (E : Qle_bool (pow2 L) (Z.pos n # 1) = true).
    { apply Qle_bool_iff. unfold pow2.
      change 2 with (inject_Z 2). rewrite <- Zpower_Qpower by lia.
      change (Z.pos n # 1) with (inject_Z (Z.pos n)).
      rewrite <- Zle_Qle. exact Hp. }
    rewrite E. rewrite Z.max_l by lia.
    set (j := (52 - L)%Z).
    assert (U : pow2 (L - 52) == / inject_Z (2 ^ j)).
    { unfold pow2. replace (L - 52)%Z with (- j)%Z by (unfold j; lia).
      rewrite Qpower_opp. change 2 with (inject_Z 2) at 1.
      rewrite <- Zpower_Qpower by (unfold j; lia). reflexivity. }
    assert (Hj : ~ inject_Z (2 ^ j) == 0).
    { change 0 with (inject_Z 0). rewrite inject_Z_injective.
      assert (0 < 2 ^ j)%Z by (apply Z.pow_pos_nonneg; unfold j; lia). lia. }
    rewrite (@roundHalfEven_Z _ (Z.pos n * 2 ^ j)%Z).
    - rewrite U, inject_Z_mult. field. exact Hj.
    - rewrite U, inject_Z_mult.
      change (Z.pos n # 1) with (inject_Z (Z.pos n)). field. exact Hj. }
  intro H. unfold round64.
  assert (R : Qred (inject_Z z) = inject_Z z).
  { unfold Qred, inject_Z.
    pose proof (Z.ggcd_correct_divisors z 1) as D.
    pose proof (Z.ggcd_gcd z 1) as G. rewrite Z.gcd_1_r in G.
    destruct (Z.ggcd z 1) as [g [aa bb]]. cbn in G. subst g.
    cbn [snd]. destruct D as [Da Db]. rewrite Z.mul_1_l in Da, Db.
    subst aa bb. reflexivity. }
  rewrite R. unfold inject_Z. destruct z as [|n|n].
  - reflexivity.
  - rewrite Qred_correct. apply P. exact H.
  - rewrite Qred_correct, (P n H). reflexivity.
Qed.

Lemma jsSub_nonneg (a b : Q) : b <= a -> 0 <= a -! b.
Proof. intro H. apply round64_nonneg. lra. Qed.

Lemma jsSub_nonpos (a b : Q) : a <= b -> a -! b <= 0.
Proof. intro H. apply round64_nonpos. lra. Qed.

Lemma jsAdd_nonneg (a b : Q) : 0 <= a -> 0 <= b -> 0 <= a +! b.
Proof. intros Ha Hb. apply round64_nonneg. lra. Qed.

Lemma jsDiv_nonneg (a b : Q) : 0 <= a -> 0 < b -> 0 <= a /! b.
Proof.
  intros Ha Hb. apply round64_nonneg.
  apply Qle_shift_div_l; [exact Hb|]. rewrite Qmult_0_l. exact Ha.
Qed.

(** The rounding at work on the decimals of everyday quantities, each
    literal being the double nearest to it: [0.3 / 0.1] is below 3 and
    [0.85 / 0.05] is 17, [3 * 0.1] is above [0.3], and [0.9 - 0.2 + 0.2]
    is below [0.9]. *)
Example double_quotients :
  floorQuotient (round64 (3 # 10)) (round64 (1 # 10)) = Finite 2
  /\ floorQuotient (round64 (85 # 100)) (round64 (5 # 100)) = Finite 17
  /\ Qgtb (17 *! round64 (5 # 100)) (round64 (85 # 100)) = true.
Proof. vm_compute. repeat split. Qed.

Example double_product_and_round_trip :
  Qgtb (3 *! round64 (1 # 10)) (round64 (3 # 10)) = true
  /\ Qgtb (round64 (9 # 10))
       (round64 (9 # 10) -! round64 (2 # 10) +! round64 (2 # 10)) = true.
Proof. vm_compute. repeat split. Qed.

(** ** Virtual stock *)

Lemma floorQuotient_orZero (a b : Q) : floorQuotient a (orZero b) = floorQuotient a b.
Proof.
  unfold floorQuotient, jsDiv.
  rewrite (@round64_comp (a / orZero b) (a / b)); [reflexivity|].
  rewrite orZero_eq. reflexivity.
Qed.

Lemma producible_orZero all comp :
  floorQuotient (availableOf (findProduct all (bom_productId comp)))
    (orZero (bom_quantity comp))
  = producibleOf all comp.
Proof. apply floorQuotient_orZero. Qed.

(** A loop that runs to its end has only seen positive quantities, and
    it folded [Math.min] over the producible amounts. *)
Lemma virtualStockLoop_inr all comps : forall acc r,
  virtualStockLoop all comps acc = inr r ->
  Forall (fun c => 0 < bom_quantity c) comps
  /\ r = fold_left mathMin (map (producibleOf all) comps) acc.
Proof.
  induction comps as [|c cs IH]; cbn [virtualStockLoop map fold_left]; intros acc r H.
  - inversion H. split; [constructor | reflexivity].
  - destruct (Qle_bool (orZero (bom_quantity c)) 0) eqn:E; [discriminate|].
    apply Qle_bool_false in E. rewrite orZero_eq in E.
    rewrite producible_orZero in H.
    destruct (IH _ _ H) as [F R]. split; [constructor; assumption | exact R].
Qed.

(** The early return always yields 0. *)
Lemma virtualStockLoop_inl all comps : forall acc z,
  virtualStockLoop all comps acc = inl z -> z = 0%Z.
Proof.
  induction comps as [|c cs IH]; cbn [virtualStockLoop]; intros acc z H;
    [discriminate|].
  destruct (Qle_bool (orZero (bom_quantity c)) 0); [congruence | eauto].
Qed.

(** With only positive quantities the loop runs to its end. *)
Lemma virtualStockLoop_positive all comps : forall acc,
  Forall (fun c => 0 < bom_quantity c) comps ->
  virtualStockLoop all comps acc
  = inr (fold_left mathMin (map (producibleOf all) comps) acc).
Proof.
  induction comps as [|c cs IH]; cbn [virtualStockLoop map fold_left];
    intros acc F; [reflexivity|].
  inversion F as [|? ? Hc Hcs]; subst.
  assert (E : Qle_bool (orZero (bom_quantity c)) 0 = false).
  { apply Qle_bool_false. rewrite orZero_eq. exact Hc. }
  rewrite E, producible_orZero. apply IH. exact Hcs.
Qed.

Lemma unitsLe_refl (a : Units) : unitsLe a a.
Proof. destruct a; cbn; trivial. lia. Qed.

Lemma unitsLe_trans (a b c : Units) : unitsLe a b -> unitsLe b c -> unitsLe a c.
Proof. destruct a, b, c; cbn; trivial; try contradiction. lia. Qed.

Lemma mathMin_spec (a b : Units) :
  unitsLe (mathMin a b) a /\ unitsLe (mathMin a b) b
  /\ (mathMin a b = a \/ mathMin a b = b).
Proof.
  destruct a as [|x|], b as [|y|]; cbn; repeat split; auto; try lia.
  destruct (Z.min_spec x y) as [[_ ->] | [_ ->]]; auto.
Qed.

(** [Math.min] folded over a list returns its least element, or the
    start value when that is smaller. *)
Lemma fold_mathMin (l : list Units) : forall a,
  unitsLe (fold_left mathMin l a) a
  /\ Forall (unitsLe (fold_left mathMin l a)) l
  /\ (fold_left mathMin l a = a \/ In (fold_left mathMin l a) l).
Proof.
  induction l as [|x xs IH]; cbn [fold_left]; intro a.
  - split; [apply unitsLe_refl|]. split; [constructor | left; reflexivity].
  - destruct (IH (mathMin a x)) as (Hle & Hall & Hin).
    destruct (mathMin_spec a x) as (Ha & Hx & Hc).
    split; [exact (unitsLe_trans _ _ _ Hle Ha)|]. split.
    + constructor; [exact (unitsLe_trans _ _ _ Hle Hx) | exact Hall].
    + destruct Hin as [E | Hin]; [|right; right; exact Hin].
      rewrite E. destruct Hc as [-> | ->]; [left | right; left]; reflexivity.
Qed.

(** With a well-formed BOM the function returns the least producible
    amount of the BOM, and 0 when that amount is an infinity. *)
Lemma computeVirtualStock_min fp all c cs :
  bom fp = Some (c :: cs) ->
  Forall (fun x => 0 < bom_quantity x) (c :: cs) ->
  exists least,
    In least (map (producibleOf all) (c :: cs))
    /\ Forall (fun x => unitsLe least (producibleOf all x)) (c :: cs)
    /\ computeVirtualStock (Some fp) (Some all) = finiteOrZero least.
Proof.
  intros Hb Hpos. unfold computeVirtualStock. rewrite Hb.
  rewrite (virtualStockLoop_positive all Infinity Hpos).
  cbn [map fold_left].
  assert (E : mathMin Infinity (producibleOf all c) = producibleOf all c)
    by (destruct (producibleOf all c); reflexivity).
  rewrite E.
  destruct (fold_mathMin (map (producibleOf all) cs) (producibleOf all c))
    as (Hle & Hall & Hin).
  exists (fold_left mathMin (map (producibleOf all) cs) (producibleOf all c)).
  split; [|split; [|reflexivity]].
  - destruct Hin as [-> | Hin]; [left; reflexivity | right; exact Hin].
  - constructor; [exact Hle|].
    rewrite Forall_forall in *. intros x Hx. apply Hall.
    apply in_map. exact Hx.
Qed.

(** A non-positive quantity anywhere in the BOM makes the result 0. *)
Lemma computeVirtualStock_malformed fp all comps comp :
  bom fp = Some comps -> In comp comps -> bom_quantity comp <= 0 ->
  computeVirtualStock (Some fp) (Some all) = 0%Z.
Proof.
  intros Hb Hin Hq. unfold computeVirtualStock. rewrite Hb.
  destruct comps as [|c cs]; [reflexivity|].
  destruct (virtualStockLoop all (c :: cs) Infinity) as [z | r] eqn:E.
  - eapply virtualStockLoop_inl; eassumption.
  - apply virtualStockLoop_inr in E. destruct E as [F _].
    rewrite Forall_forall in F. specialize (F _ Hin).
    exfalso. apply (Qlt_not_le _ _ F Hq).
Qed.

(** Over a stock that is not negative the producible amount is not
    negative. *)
Lemma producibleOf_nonneg all comp :
  0 < bom_quantity comp ->
  0 <= availableOf (findProduct all (bom_productId comp)) ->
  unitsLe (Finite 0) (producibleOf all comp).
Proof.
  intros Hq Ha. unfold producibleOf, floorQuotient.
  set (a := availableOf (findProduct all (bom_productId comp))) in *.
  assert (Hn : 0 <= a /! bom_quantity comp) by (apply jsDiv_nonneg; assumption).
  destruct (Qle_bool (pow2 1024) (a /! bom_quantity comp)); [exact I|].
  destruct (Qle_bool (a /! bom_quantity comp) (- pow2 1024)) eqn:E.
  - exfalso. apply Qle_bool_iff in E.
    assert (P := pow2_pos 1024). lra.
  - cbn. change 0%Z with (Qfloor 0). apply Qfloor_resp_le. exact Hn.
Qed.

(** C5 (as amended).  [computeVirtualStock] returns 0 when an input is
    absent, when the BOM is absent or empty, and when some BOM quantity is
    not positive.  With only positive quantities it returns the least
    [Math.floor(componentStock / quantityPerUnit)] of the BOM, the quotient
    being the quotient of doubles, and 0 when that least amount is an
    infinity.  Its result does not exceed that amount for a component of
    positive quantity as soon as every quantity of the BOM is positive and
    no quotient is [-Infinity], or that component's stock is not
    negative. *)
Theorem computeVirtualStock_spec (fp : Product) (all : list Product) :
  (forall all', computeVirtualStock None all' = 0%Z)
  /\ (forall fp', computeVirtualStock fp' None = 0%Z)
  /\ (bomList fp = [] -> computeVirtualStock (Some fp) (Some all) = 0%Z)
  /\ (forall comp, In comp (bomList fp) -> bom_quantity comp <= 0 ->
        computeVirtualStock (Some fp) (Some all) = 0%Z)
  /\ (bomList fp <> [] -> Forall (fun c => 0 < bom_quantity c) (bomList fp) ->
        exists least,
          In least (map (producibleOf all) (bomList fp))
          /\ Forall (fun c => unitsLe least (producibleOf all c)) (bomList fp)
          /\ computeVirtualStock (Some fp) (Some all) = finiteOrZero least)
  /\ (forall comp, In comp (bomList fp) -> 0 < bom_quantity comp ->
        (Forall (fun c => 0 < bom_quantity c) (bomList fp)
         /\ Forall (fun c => producibleOf all c <> NegInfinity) (bomList fp))
        \/ 0 <= availableOf (findProduct all (bom_productId comp)) ->
        unitsLe (Finite (computeVirtualStock (Some fp) (Some all)))
          (producibleOf all comp)).
Proof.
  assert (Hmin : bomList fp <> [] ->
            Forall (fun c => 0 < bom_quantity c) (bomList fp) ->
            exists least,
              In least (map (producibleOf all) (bomList fp))
              /\ Forall (fun c => unitsLe least (producibleOf all c)) (bomList fp)
              /\ computeVirtualStock (Some fp) (Some all) = finiteOrZero least).
  { unfold bomList. destruct (bom fp) as [[|c cs]|] eqn:Hb;
      try (intros Hne; exfalso; apply Hne; reflexivity).
    intros _ Hpos. apply computeVirtualStock_min; assumption. }
  assert (Hbad : forall comp, In comp (bomList fp) -> bom_quantity comp <= 0 ->
            computeVirtualStock (Some fp) (Some all) = 0%Z).
  { unfold bomList. destruct (bom fp) as [comps|] eqn:Hb; [|intros ? []].
    intros comp Hin Hq. eapply computeVirtualStock_malformed; eassumption. }
  split; [reflexivity|].
  split; [intros [?|]; reflexivity|].
  split.
  { unfold bomList, computeVirtualStock.
    destruct (bom fp) as [[|c cs]|]; [reflexivity | discriminate | reflexivity]. }
  split; [exact Hbad|].
  split; [exact Hmin|].
  intros comp Hin Hq Hcase.
  assert (Hne : bomList fp <> []) by (intro E; rewrite E in Hin; destruct Hin).
  destruct Hcase as [[Hpos Hfin] | Hav].
  - destruct (Hmin Hne Hpos) as (least & Hl & F & ->).
    rewrite Forall_forall in F, Hfin. specialize (F _ Hin).
    apply in_map_iff in Hl. destruct Hl as (c0 & E0 & Hin0).
    specialize (Hfin _ Hin0). rewrite E0 in Hfin.
    destruct least as [|m|]; [contradiction | exact F |].
    cbn [finiteOrZero]. destruct (producibleOf all comp); cbn in F |- *;
      try contradiction; exact I.
  - assert (Hnn := producibleOf_nonneg all comp Hq Hav).
    destruct (Forall_Exists_dec (fun c => 0 < bom_quantity c)
                (fun c => match Qlt_le_dec 0 (bom_quantity c) with
                          | left h => left h
                          | right h => right (Qle_not_lt _ _ h)
                          end) (bomList fp))
      as [Hpos | Hex].
    + destruct (Hmin Hne Hpos) as (least & _ & F & ->).
      rewrite Forall_forall in F. specialize (F _ Hin).
      destruct least as [|m|]; [exact Hnn | exact F | exact Hnn].
    + apply Exists_exists in Hex. destruct Hex as (bad & Hbin & Hnle).
      rewrite (Hbad bad Hbin); [exact Hnn|].
      apply Qnot_lt_le. exact Hnle.
Qed.

(** The theorem at scenario B: ten units of C at two per unit bound the
    virtual stock of F by five. *)
Lemma computeVirtualStock_spec_witness :
  In compC2 (bomList productF) /\ 0 < bom_quantity compC2
  /\ producibleOf (products storeB) compC2 = Finite 5
  /\ unitsLe (Finite (computeVirtualStock (Some productF) (Some (products storeB))))
       (producibleOf (products storeB) compC2).
Proof.
  split; [left; reflexivity|]. split; [reflexivity|].
  split; [vm_compute; reflexivity|].
  apply (computeVirtualStock_spec productF (products storeB)).
  - left; reflexivity.
  - reflexivity.
  - right. vm_compute. discriminate.
Defined.

(** C5 as stated fails: with a quantity per unit of -1 over five units of B
    the function returns 0, above floor(5 / -1) = -5. *)
Lemma computeVirtualStock_exceeds_ratio :
  In malformedComp (bomList malformedFinal)
  /\ computeVirtualStock (Some malformedFinal) (Some malformedCatalog) = 0%Z
  /\ producibleOf malformedCatalog malformedComp = Finite (-5)
  /\ ~ unitsLe (Finite (computeVirtualStock (Some malformedFinal)
                          (Some malformedCatalog)))
         (producibleOf malformedCatalog malformedComp).
Proof.
  split; [left; reflexivity|].
  split; [vm_compute; reflexivity|]. split; [vm_compute; reflexivity|].
  vm_compute. intro H. apply H. reflexivity.
Qed.

(** ** The collections *)

Section CollectionFacts.
Variable A : Type.
Variable key : A -> string.

Lemma collUpdate_none (patch : A -> A) items id :
  collUpdate key patch items id = None <-> getById key items id = None.
Proof.
  unfold getById. induction items as [|x rest IH]; simpl; [tauto|].
  destruct (key x =? id)%string; [split; discriminate|].
  destruct (collUpdate key patch rest id); split; intro H;
    try discriminate; try (apply IH; assumption).
  apply IH in H. discriminate.
Qed.

(** Reading after an update that keeps the identifiers. *)
Lemma getById_collUpdate (patch : A -> A) :
  (forall x, key (patch x) = key x) ->
  forall items id items' k,
  collUpdate key patch items id = Some items' ->
  getById key items' k
  = if (k =? id)%string then option_map patch (getById key items id)
    else getById key items k.
Proof.
  intros Hkey. unfold getById.
  induction items as [|x rest IH]; simpl; intros id items' k H; [discriminate|].
  destruct (key x =? id)%string eqn:Ex.
  - inversion H; subst. simpl. rewrite Hkey.
    apply String.eqb_eq in Ex. subst id.
    rewrite (String.eqb_sym k (key x)).
    destruct (key x =? k)%string; reflexivity.
  - destruct (collUpdate key patch rest id) as [rest'|] eqn:Er; [|discriminate].
    inversion H; subst. simpl.
    destruct (key x =? k)%string eqn:Ek.
    + apply String.eqb_eq in Ek. subst k. rewrite Ex. reflexivity.
    + apply IH. exact Er.
Qed.

(** Writing a record under an identifier that is not stored appends it. *)
Lemma collSet_fresh (merge : A -> A) (fresh : A) items id :
  getById key items id = None ->
  collSet key merge fresh items id = items ++ [fresh].
Proof.
  unfold getById. induction items as [|x rest IH]; simpl; intro H; [reflexivity|].
  destruct (key x =? id)%string; [discriminate|].
  rewrite IH; [reflexivity | exact H].
Qed.

Lemma getById_app items more id :
  getById key (items ++ more) id
  = match getById key items id with
    | Some x => Some x
    | None => getById key more id
    end.
Proof.
  unfold getById. induction items as [|x rest IH]; simpl; [reflexivity|].
  destruct (key x =? id)%string; [reflexivity | exact IH].
Qed.

Lemma getById_key items id x :
  getById key items id = Some x -> key x = id /\ In x items.
Proof.
  unfold getById. intro H. apply find_some in H. destruct H as [Hin Hk].
  apply String.eqb_eq in Hk. tauto.
Qed.
End CollectionFacts.

Lemma applyPatch_id d p : p_id (applyPatch d p) = p_id p.
Proof. reflexivity. Qed.

(** ** The commit loop *)

Lemma applyOp_products s op s' :
  applyOp s op = inr s' ->
  forall k,
  getById p_id (products s') k
  = match op with
    | UpdateProduct id d =>
        if (k =? id)%string
        then option_map (applyPatch d) (getById p_id (products s) id)
        else getById p_id (products s) k
    | _ => getById p_id (products s) k
    end.
Proof.
  destruct op; simpl; intro H; try (inversion H; subst; reflexivity).
  destruct (collUpdate p_id (applyPatch data) (products s) id) as [ps|] eqn:E;
    [|discriminate].
  inversion H; subst. simpl. intro k.
  apply (getById_collUpdate p_id (applyPatch data) (applyPatch_id data) _ _ k E).
Qed.

Lemma applyOp_keeps_existence s op s' k :
  applyOp s op = inr s' ->
  getById p_id (products s) k <> None -> getById p_id (products s') k <> None.
Proof.
  intros H Hk. rewrite (applyOp_products _ _ H k).
  destruct op; try exact Hk.
  destruct (k =? id)%string eqn:E; [|exact Hk].
  apply String.eqb_eq in E. subst id.
  destruct (getById p_id (products s) k); [discriminate | contradiction].
Qed.

(** A log whose updates all target stored products commits to its end. *)
Lemma commit_succeeds ops : forall s,
  updatesExist s ops -> exists s', commit s ops = (None, s').
Proof.
  unfold updatesExist.
  induction ops as [|op rest IH]; simpl; intros s H; [eauto|].
  inversion H as [|? ? Hop Hrest]; subst.
  assert (Hstep : exists s1, applyOp s op = inr s1).
  { destruct op; simpl; eauto.
    destruct (collUpdate p_id (applyPatch data) (products s) id) eqn:E; eauto.
    apply collUpdate_none in E. contradiction. }
  destruct Hstep as [s1 E1]. rewrite E1. apply IH.
  rewrite Forall_forall in *. intros o Ho. specialize (Hrest o Ho).
  destruct o; trivial. eapply applyOp_keeps_existence; eassumption.
Qed.

(** The other two collections follow their own operations only. *)
Lemma commit_items ops : forall s e s',
  commit s ops = (e, s') -> e = None ->
  transaction_items s' = fold_left itemsStep ops (transaction_items s)
  /\ transactions s' = fold_left transactionsStep ops (transactions s).
Proof.
  induction ops as [|op rest IH]; simpl; intros s e s' H He.
  - inversion H; subst. split; reflexivity.
  - destruct (applyOp s op) as [err|s1] eqn:E1.
    + inversion H; subst. discriminate.
    + destruct (IH _ _ _ H He) as [Hi Ht]. rewrite Hi, Ht.
      destruct op; simpl in E1;
        try (inversion E1; subst; simpl; split; reflexivity).
      destruct (collUpdate p_id (applyPatch data) (products s) id);
        inversion E1; subst; simpl; split; reflexivity.
Qed.

(** Writes of non-negative stock keep every stock non-negative, also when
    the loop stops early. *)
Lemma commit_stockNonneg ops : forall s e s',
  assignsNonneg ops -> stockNonneg s -> commit s ops = (e, s') -> stockNonneg s'.
Proof.
  unfold assignsNonneg, stockNonneg.
  induction ops as [|op rest IH]; simpl; intros s e s' Hops Hs H.
  - inversion H; subst. exact Hs.
  - inversion Hops as [|? ? Hop Hrest]; subst.
    destruct (applyOp s op) as [err|s1] eqn:E1.
    + inversion H; subst. exact Hs.
    + apply (IH s1 e s' Hrest); [|exact H].
      destruct op; simpl in E1; try (inversion E1; subst; exact Hs).
      destruct (collUpdate p_id (applyPatch data) (products s) id) as [ps|] eqn:E;
        inversion E1; subst; simpl.
      clear - Hop Hs E. revert ps E.
      induction (products s) as [|x xs IHx]; simpl; intros ps E; [discriminate|].
      inversion Hs as [|? ? Hx Hxs]; subst.
      destruct (p_id x =? id)%string.
      * inversion E; subst. constructor; [|exact Hxs].
        simpl. destruct (u_currentStock data) as [[v|v]|]; simpl;
          [exact Hop | contradiction | exact Hx].
      * destruct (collUpdate p_id (applyPatch data) xs id) as [xs'|] eqn:E';
          [|discriminate].
        inversion E; subst. constructor; [exact Hx | apply IHx; auto].
Qed.

(** ** The sale: step 1 *)

Lemma saleCheckBom_inr s shortfall comps : forall acc acc',
  saleCheckBom s shortfall comps acc = inr acc' ->
  acc' = acc ++ flat_map (bomConsumption s shortfall) comps
  /\ Forall (compOk s shortfall) comps.
Proof.
  induction comps as [|comp rest IH]; cbn [saleCheckBom flat_map]; intros acc acc' H.
  - inversion H; subst. rewrite app_nil_r. split; [reflexivity | constructor].
  - unfold bomConsumption at 1.
    destruct (getById p_id (products s) (bom_productId comp)) as [cd|] eqn:Eg;
      [|discriminate].
    destruct (Qgtb (shortfall *! bom_quantity comp) (orZero (currentStock cd))) eqn:Ea;
      [discriminate|].
    apply Qgtb_false in Ea.
    apply IH in H. destruct H as [-> Hrest]. split.
    + destruct (Qgtb (shortfall *! bom_quantity comp) 0);
        [rewrite <- app_assoc|]; reflexivity.
    + constructor; [|exact Hrest]. exists cd. split; assumption.
Qed.

Lemma saleReadCart_inr s cart : forall pd co pd' co',
  saleReadCart s cart pd co = inr (pd', co') ->
  pd' = pd ++ flat_map (lineDetail s) cart
  /\ co' = co ++ flat_map (lineConsumption s) cart
  /\ Forall (lineOk s) cart.
Proof.
  induction cart as [|item rest IH]; cbn [saleReadCart flat_map]; intros pd co pd' co' H.
  - inversion H; subst. rewrite !app_nil_r. repeat split; constructor.
  - unfold lineDetail at 1, lineConsumption at 1, lineOk.
    destruct (getById p_id (products s) (productId item)) as [p|] eqn:Eg;
      [|discriminate].
    fold (lineFromStock p item) in H. fold (lineShortfall p item) in H.
    destruct (hasBom p) eqn:Eb; cbn [bindE] in H.
    + destruct (saleCheckBom s (lineShortfall p item) (bomList p) co)
        as [e|co1] eqn:Ec; cbn [bindE] in H; [discriminate|].
      apply saleCheckBom_inr in Ec. destruct Ec as [-> Hcomps].
      apply IH in H. destruct H as (-> & -> & Hrest).
      rewrite <- !app_assoc. repeat split.
      constructor; [|exact Hrest]. exists p. split; [exact Eg | intros _; exact Hcomps].
    + apply IH in H. destruct H as (-> & -> & Hrest).
      rewrite <- !app_assoc. repeat split.
      constructor; [|exact Hrest]. exists p.
      split; [exact Eg | intro Hb; congruence].
Qed.

(** ** The sale: steps 2 and 3 *)

Lemma saleAssembledCost_inr s comps : forall acc r,
  saleAssembledCost s comps acc = inr r ->
  r = fold_left (fun a comp => a +! compCostOf s comp *! bom_quantity comp) comps acc.
Proof.
  induction comps as [|comp rest IH]; cbn [saleAssembledCost fold_left]; intros acc r H.
  - inversion H; reflexivity.
  - unfold compCostOf at 2.
    destruct (getById p_id (products s) (bom_productId comp)); [|discriminate].
    apply IH. exact H.
Qed.

Lemma saleWriteDetails_inr uuid txid s details : forall k ops,
  saleWriteDetails uuid txid s k details = inr ops ->
  ops = detailOps uuid txid s k details.
Proof.
  induction details as [|d rest IH]; cbn [saleWriteDetails detailOps]; intros k ops H.
  - inversion H; reflexivity.
  - assert (Ha : exists a,
        (if hasBom (d_snap d) then saleAssembledCost s (bomList (d_snap d)) 0
         else inr 0) = inr a /\ a = assembledOf s (d_snap d)).
    { unfold assembledOf. destruct (hasBom (d_snap d)).
      - destruct (saleAssembledCost s (bomList (d_snap d)) 0) as [e|a] eqn:E;
          [discriminate|].
        exists a. split; [reflexivity|]. apply saleAssembledCost_inr. exact E.
      - exists 0. split; reflexivity. }
    destruct Ha as (a & Ea & ->). rewrite Ea in H. cbn [bindE] in H.
    destruct (saleWriteDetails uuid txid s (S k) rest) as [e|ops'] eqn:Er;
      cbn [bindE] in H; [discriminate|].
    inversion H; subst. rewrite (IH _ _ Er). reflexivity.
Qed.

(** A sale whose update function returns has queued exactly [saleOps],
    and every line passed the checks of step 1. *)
Lemma saleUpdateFunction_inr uuid form cart s ops :
  saleUpdateFunction uuid form cart s = inr ops ->
  ops = saleOps uuid form cart s /\ Forall (lineOk s) cart.
Proof.
  unfold saleUpdateFunction, saleOps. intro H.
  destruct (saleReadCart s cart [] []) as [e|[pd co]] eqn:Er; cbn [bindE] in H;
    [discriminate|].
  apply saleReadCart_inr in Er. destruct Er as (-> & -> & Hok).
  cbn [app] in H.
  destruct (saleWriteDetails uuid (uuid 0%nat) s 1 (flat_map (lineDetail s) cart))
    as [e|io] eqn:Ew; cbn [bindE] in H; [discriminate|].
  apply saleWriteDetails_inr in Ew. subst io.
  inversion H; subst. split; [reflexivity | exact Hok].
Qed.

(** Every update queued by a sale targets a product read in step 1. *)
Lemma saleOps_updatesExist uuid form cart s :
  updatesExist s (saleOps uuid form cart s).
Proof.
  unfold updatesExist, saleOps. constructor; [exact I|].
  apply Forall_app. split.
  - generalize 1%nat.
    induction cart as [|item rest IH]; cbn [flat_map]; intro k; [constructor|].
    unfold lineDetail at 1.
    destruct (getById p_id (products s) (productId item)) eqn:Eg; cbn [app].
    + cbn [detailOps]. constructor; [exact I|]. constructor; [|apply IH].
      cbn. rewrite Eg. discriminate.
    + apply IH.
  - unfold saleWriteConsumption. apply Forall_map.
    apply Forall_flat_map. apply Forall_forall. intros item _.
    unfold lineConsumption.
    destruct (getById p_id (products s) (productId item)); [|constructor].
    destruct (hasBom p); [|constructor].
    apply Forall_flat_map. apply Forall_forall. intros comp _.
    unfold bomConsumption.
    destruct (getById p_id (products s) (bom_productId comp)) eqn:Ec; [|constructor].
    destruct (Qgtb _ 0); constructor; [|constructor].
    cbn. rewrite Ec. discriminate.
Qed.

Lemma onFinalizeSale_cases uuid form cart s :
  (exists e, onFinalizeSale uuid form cart s = (Some e, s))
  \/ (exists s', onFinalizeSale uuid form cart s = (None, s')
        /\ commit s (saleOps uuid form cart s) = (None, s')
        /\ Forall (lineOk s) cart /\ cart <> []).
Proof.
  unfold onFinalizeSale. destruct cart as [|item rest]; [left; eauto|].
  unfold runTransaction.
  destruct (saleUpdateFunction uuid form (item :: rest) s) as [e|ops] eqn:E;
    [left; eauto|].
  apply saleUpdateFunction_inr in E. destruct E as [-> Hok].
  destruct (commit_succeeds (saleOps_updatesExist uuid form (item :: rest) s))
    as [s' Hc].
  right. exists s'. rewrite Hc. repeat split; trivial. discriminate.
Qed.

(** C3.  A sale that fails, whatever the line and the reason, leaves the
    store as it was: no stock is modified and no transaction or item
    document is created. *)
Theorem sale_atomic uuid form cart s e :
  fst (onFinalizeSale uuid form cart s) = Some e ->
  snd (onFinalizeSale uuid form cart s) = s.
Proof.
  destruct (onFinalizeSale_cases uuid form cart s) as [[e' H] | (s' & H & _)];
    rewrite H; cbn [fst snd]; [reflexivity | discriminate].
Qed.

(** The theorem at scenario C: six units of C are required, four are
    there, and the store is untouched. *)
Lemma sale_atomic_witness :
  fst (onFinalizeSale uuidOf saleFormB cartB storeC)
  = Some (InsufficientComponentStock "C" 6 4)
  /\ snd (onFinalizeSale uuidOf saleFormB cartB storeC) = storeC.
Proof.
  split; [vm_compute; reflexivity|].
  apply (sale_atomic uuidOf saleFormB cartB storeC
           (e := InsufficientComponentStock "C" 6 4)).
  vm_compute. reflexivity.
Defined.

(** ** Stock never goes below zero in a sale *)

Lemma lineFromStock_le_stock p item :
  0 <= currentStock p ->
  0 <= currentStock p -! orZero (lineFromStock p item).
Proof.
  intro H. apply jsSub_nonneg. unfold lineFromStock. rewrite !orZero_eq.
  destruct (Q.min_spec (currentStock p) (quantity item)) as [[L E]|[L E]];
    rewrite E; lra.
Qed.

Lemma detailOps_assignsNonneg uuid txid s cart :
  stockNonneg s -> forall k,
  assignsNonneg (detailOps uuid txid s k (flat_map (lineDetail s) cart)).
Proof.
  unfold assignsNonneg. intros Hs.
  induction cart as [|item rest IH]; cbn [flat_map]; intro k; [constructor|].
  unfold lineDetail at 1.
  destruct (getById p_id (products s) (productId item)) as [p|] eqn:Eg;
    cbn [app]; [|apply IH].
  cbn [detailOps]. constructor; [exact I|]. constructor; [|apply IH].
  cbn. apply lineFromStock_le_stock.
  apply getById_key in Eg. destruct Eg as [_ Hin].
  unfold stockNonneg in Hs. rewrite Forall_forall in Hs. exact (Hs _ Hin).
Qed.

Lemma bomConsumption_assignsNonneg s shortfall comps :
  stockNonneg s -> Forall (compOk s shortfall) comps ->
  assignsNonneg (saleWriteConsumption (flat_map (bomConsumption s shortfall) comps)).
Proof.
  unfold assignsNonneg, saleWriteConsumption. intros Hs Hok.
  apply Forall_map. apply Forall_flat_map.
  rewrite Forall_forall in *. intros comp Hin.
  destruct (Hok _ Hin) as (cd & Eg & Hle).
  unfold bomConsumption. rewrite Eg.
  destruct (Qgtb _ 0); constructor; [|constructor].
  cbn. apply jsSub_nonneg. rewrite orZero_eq in Hle. exact Hle.
Qed.

Lemma saleOps_assignsNonneg uuid form cart s :
  stockNonneg s -> Forall (lineOk s) cart ->
  assignsNonneg (saleOps uuid form cart s).
Proof.
  intros Hs Hok. unfold saleOps, assignsNonneg.
  constructor; [exact I|]. apply Forall_app. split.
  - apply detailOps_assignsNonneg. exact Hs.
  - unfold saleWriteConsumption. rewrite flat_map_concat_map, concat_map.
    apply Forall_concat. rewrite !map_map. apply Forall_map.
    rewrite Forall_forall in *. intros item Hin.
    destruct (Hok _ Hin) as (p & Eg & Hcomps).
    unfold lineConsumption. rewrite Eg.
    destruct (hasBom p) eqn:Eb; [|constructor].
    apply (bomConsumption_assignsNonneg Hs (Hcomps eq_refl)).
Qed.

(** C10.  When no product has a negative stock before a sale, none has
    after a successful sale. *)
Theorem sale_keeps_stock_nonneg uuid form cart s s' :
  stockNonneg s ->
  onFinalizeSale uuid form cart s = (None, s') ->
  stockNonneg s'.
Proof.
  intros Hs H.
  destruct (onFinalizeSale_cases uuid form cart s)
    as [[e He] | (s1 & H1 & Hc & Hok & _)]; [congruence|].
  rewrite H1 in H. inversion H; subst s1.
  apply (commit_stockNonneg (saleOps_assignsNonneg uuid form Hs Hok) Hs Hc).
Qed.

(** The theorem at scenario B: the sale succeeds and the two stocks end
    at 0 and 4. *)
Lemma sale_keeps_stock_nonneg_witness :
  stockNonneg storeB
  /\ stockNonneg (snd (onFinalizeSale uuidOf saleFormB cartB storeB)).
Proof.
  assert (Hs : stockNonneg storeB).
  { repeat constructor; cbn; discriminate. }
  split; [exact Hs|].
  apply (sale_keeps_stock_nonneg uuidOf saleFormB cartB Hs).
  vm_compute. reflexivity.
Defined.

(** ** The records a sale persists *)

Lemma fold_itemsStep_updates (l : list ConsumptionOp) items :
  fold_left itemsStep (saleWriteConsumption l) items = items.
Proof.
  unfold saleWriteConsumption. revert items.
  induction l as [|c rest IH]; intro items; [reflexivity | apply IH].
Qed.

Lemma fold_transactionsStep_updates (l : list ConsumptionOp) txs :
  fold_left transactionsStep (saleWriteConsumption l) txs = txs.
Proof.
  unfold saleWriteConsumption. revert txs.
  induction l as [|c rest IH]; intro txs; [reflexivity | apply IH].
Qed.

Lemma fold_transactionsStep_detailOps uuid txid s details : forall k txs,
  fold_left transactionsStep (detailOps uuid txid s k details) txs = txs.
Proof.
  induction details as [|d rest IH]; intros k txs; [reflexivity | apply IH].
Qed.

Lemma fold_itemsStep_detailOps uuid txid s details :
  (forall i j, uuid i = uuid j -> i = j) ->
  forall k items,
  (forall j, (k <= j)%nat -> getById ti_id items (uuid j) = None) ->
  fold_left itemsStep (detailOps uuid txid s k details) items
  = items ++ detailItems uuid txid s k details.
Proof.
  intro Hinj.
  induction details as [|d rest IH]; intros k items Hfresh;
    cbn [detailOps detailItems fold_left].
  - rewrite app_nil_r. reflexivity.
  - cbn [itemsStep detailUpdate].
    rewrite collSet_fresh by (apply Hfresh; lia).
    rewrite IH.
    + rewrite <- app_assoc. reflexivity.
    + intros j Hj. rewrite getById_app, Hfresh by lia.
      unfold getById. cbn [find detailItem ti_id].
      destruct (uuid k =? uuid j)%string eqn:E; [|reflexivity].
      apply String.eqb_eq, Hinj in E. lia.
Qed.

Lemma detailItems_cart uuid txid s cart :
  Forall (lineOk s) cart -> forall k,
  Forall2 (lineItemOf txid s) cart
    (detailItems uuid txid s k (flat_map (lineDetail s) cart)).
Proof.
  induction 1 as [|item rest Hok _ IH]; intro k; cbn [flat_map]; [constructor|].
  destruct Hok as (p & Eg & _). unfold lineDetail at 1. rewrite Eg.
  cbn [app detailItems]. constructor; [|apply IH].
  exists p. repeat split; trivial.
Qed.

(** What a successful sale leaves in the two record collections. *)
Lemma sale_records uuid form cart s s' :
  freshIds uuid s ->
  onFinalizeSale uuid form cart s = (None, s') ->
  transactions s' = transactions s ++ [saleTransactionDoc form cart (uuid 0%nat)]
  /\ exists newItems,
       transaction_items s' = transaction_items s ++ newItems
       /\ Forall2 (lineItemOf (uuid 0%nat) s) cart newItems.
Proof.
  intros (Hinj & Htx & Hit) H.
  destruct (onFinalizeSale_cases uuid form cart s)
    as [[e He] | (s1 & H1 & Hc & Hok & _)]; [congruence|].
  rewrite H1 in H. inversion H; subst s1.
  destruct (commit_items _ _ Hc eq_refl) as [Hi Ht].
  unfold saleOps in Hi, Ht. cbn [fold_left itemsStep transactionsStep] in Hi, Ht.
  rewrite fold_left_app in Hi, Ht.
  rewrite fold_itemsStep_updates in Hi.
  rewrite fold_transactionsStep_updates, fold_transactionsStep_detailOps in Ht.
  rewrite collSet_fresh in Ht by apply Htx.
  rewrite fold_itemsStep_detailOps in Hi by (trivial; intros; apply Hit).
  split; [exact Ht|].
  eexists. split; [exact Hi|]. apply detailItems_cart. exact Hok.
Qed.

Lemma uuidOf_injective i : forall j, uuidOf i = uuidOf j -> i = j.
Proof.
  induction i as [|i IH]; destruct j as [|j]; cbn; intro H;
    try reflexivity; try discriminate.
  inversion H. f_equal. apply IH. assumption.
Qed.

Lemma freshIds_empty ps : freshIds uuidOf (mkStore ps [] []).
Proof.
  split; [exact uuidOf_injective|]. split; reflexivity.
Qed.

(** C8 (as amended).  A successful sale appends exactly one transaction
    document, of type IN, and exactly one item document per cart line, in
    cart order, carrying the line's product, quantity and price; nothing
    else is added to the items, so the components consumed for a shortfall
    get a stock update and no item of their own. *)
Theorem sale_persists_one_item_per_line uuid form cart s s' :
  freshIds uuid s ->
  onFinalizeSale uuid form cart s = (None, s') ->
  exists txDoc newItems,
    transactions s' = transactions s ++ [txDoc]
    /\ t_type txDoc = IN
    /\ netTotal txDoc = totalValue txDoc -! discountValue txDoc
    /\ transaction_items s' = transaction_items s ++ newItems
    /\ Forall2 (fun item ti =>
                  transactionId ti = t_id txDoc
                  /\ ti_productId ti = productId item
                  /\ ti_quantity ti = quantity item
                  /\ ti_price ti = price item) cart newItems.
Proof.
  intros Hf H. destruct (@sale_records uuid form cart s s' Hf H) as (Ht & newItems & Hi & F).
  exists (saleTransactionDoc form cart (uuid 0%nat)), newItems.
  repeat split; trivial.
  eapply Forall2_impl; [|exact F].
  intros item ti (p & _ & ? & ? & _ & ? & ? & _). cbn. tauto.
Qed.

(** The theorem at scenario B: one transaction and one item, for F. *)
Lemma sale_persists_one_item_per_line_witness :
  exists txDoc newItems,
    transactions (snd (onFinalizeSale uuidOf saleFormB cartB storeB)) = [txDoc]
    /\ t_type txDoc = IN
    /\ transaction_items (snd (onFinalizeSale uuidOf saleFormB cartB storeB))
       = newItems
    /\ List.length newItems = List.length cartB.
Proof.
  destruct (@sale_persists_one_item_per_line uuidOf saleFormB cartB storeB
              (snd (onFinalizeSale uuidOf saleFormB cartB storeB))
              (freshIds_empty _))
    as (txDoc & newItems & Ht & Hty & _ & Hi & F).
  - vm_compute. reflexivity.
  - exists txDoc, newItems. repeat split; trivial.
    symmetry. eapply Forall2_length. exact F.
Defined.

(** C8 as stated fails: in scenario B six units of C are consumed, and the
    only item written is the one of F. *)
Lemma sale_writes_no_consumption_record :
  fst (onFinalizeSale uuidOf saleFormB cartB storeB) = None
  /\ option_map currentStock
       (getById p_id (products (snd (onFinalizeSale uuidOf saleFormB cartB storeB))) "C")
     = Some 4
  /\ map ti_productId
       (transaction_items (snd (onFinalizeSale uuidOf saleFormB cartB storeB)))
     = ["F"].
Proof.
  vm_compute. repeat split.
Qed.

(** ** The blended cost *)

Lemma assembledOf_spec s p : assembledOf s p = specAssembledCostPerUnit s p.
Proof.
  unfold assembledOf, specAssembledCostPerUnit, sumOf, hasBom, bomList.
  destruct (bom p) as [[|c cs]|]; reflexivity.
Qed.

Lemma lineFromStock_spec p item :
  orZero (lineFromStock p item) == specFromStock p item.
Proof.
  unfold lineFromStock, specFromStock. rewrite !orZero_eq. reflexivity.
Qed.

(** The shortfall is a difference that is not negative, so [Math.max]
    leaves it as it is. *)
Lemma lineShortfall_spec p item :
  Qmax 0 (quantity item -! orZero (lineFromStock p item)) == specShortfall p item.
Proof.
  unfold specShortfall. rewrite lineFromStock_spec.
  apply Q.max_r. apply jsSub_nonneg. unfold specFromStock. apply Q.le_min_r.
Qed.

Lemma saleCostPerUnit_spec s p item :
  0 < quantity item ->
  saleCostPerUnit (orZero (lineFromStock p item)) (orZeroOpt (p_costPrice p))
    (Qmax 0 (quantity item -! orZero (lineFromStock p item)))
    (assembledOf s p) (quantity item)
  == specBlendedCost s p item.
Proof.
  intro Hq. unfold saleCostPerUnit, specBlendedCost.
  assert (E : Qgtb (quantity item) 0 = true) by (apply Qgtb_true; exact Hq).
  rewrite E, lineShortfall_spec, lineFromStock_spec, assembledOf_spec.
  reflexivity.
Qed.

(** C7.  After a successful sale every cart line of positive quantity has
    its item document, and the [costPrice] of that document is
    [(fromStock * readyCostPrice + shortfall * assembledCostPerUnit) / quantity]
    with the amounts taken from the product as it was stored before the
    sale. *)
Theorem sale_item_blended_cost uuid form cart s s' :
  freshIds uuid s ->
  onFinalizeSale uuid form cart s = (None, s') ->
  exists newItems,
    transaction_items s' = transaction_items s ++ newItems
    /\ Forall2 (fun item ti =>
                  ti_productId ti = productId item
                  /\ ti_quantity ti = quantity item
                  /\ (0 < quantity item ->
                      exists p c,
                        getById p_id (products s) (productId item) = Some p
                        /\ ti_costPrice ti = Some c
                        /\ c == specBlendedCost s p item)) cart newItems.
Proof.
  intros Hf H.
  destruct (@sale_records uuid form cart s s' Hf H) as (_ & newItems & Hi & F).
  exists newItems. split; [exact Hi|].
  eapply Forall2_impl; [|exact F].
  intros item ti (p & Eg & _ & Hp & _ & Hq & _ & Hc). cbn.
  repeat split; trivial.
  intro Hpos. exists p. eexists. split; [exact Eg|]. split; [exact Hc|].
  apply saleCostPerUnit_spec. exact Hpos.
Qed.

(** The theorem at scenario B: nothing sold from the shelf, three units
    assembled from two C at 7 each, so a unit cost of 14. *)
Lemma sale_item_blended_cost_witness :
  exists ti,
    transaction_items (snd (onFinalizeSale uuidOf saleFormB cartB storeB)) = [ti]
    /\ exists c, ti_costPrice ti = Some c /\ c == 14.
Proof.
  destruct (@sale_item_blended_cost uuidOf saleFormB cartB storeB
              (snd (onFinalizeSale uuidOf saleFormB cartB storeB))
              (freshIds_empty _))
    as (newItems & Hi & F).
  - vm_compute. reflexivity.
  - cbn [storeB transaction_items app] in Hi. unfold cartB in F.
    destruct newItems as [|ti rest']; [inversion F|].
    destruct rest' as [|ti2 rest']; [|inversion F as [|? ? ? ? _ F2]; inversion F2].
    inversion F as [|? ? ? ? (_ & _ & Hc) _]; subst.
    exists ti. split; [exact Hi|].
    destruct Hc as (p & c & Eg & Ec & Eq); [reflexivity|].
    exists c. split; [exact Ec|].
    rewrite Eq. vm_compute in Eg. inversion Eg; subst p. reflexivity.
Defined.

(** ** Sales beyond the shelf *)

(** A line over a product without BOM passes step 1 whatever its
    quantity: the shortfall is computed and never looked at. *)
Lemma saleReadCart_no_bom s item p :
  getById p_id (products s) (productId item) = Some p ->
  hasBom p = false ->
  saleReadCart s [item] [] []
  = inr ([mkDetail (productId item) p (withAvailableStock item (lineFromStock p item))],
         []).
Proof.
  intros Eg Eb. cbn [saleReadCart]. rewrite Eg, Eb. reflexivity.
Qed.

(** The check of [handleAddItem]: the same line is refused when it is put
    into the cart against the stock the form has loaded. *)
Lemma handleAddItem_refuses_over_stock p q currentPrice allProducts cart :
  hasBom p = false -> 0 < q -> currentStock p < q ->
  handleAddItem (Some p) q currentPrice allProducts cart
  = (Some ToastEstoqueInsuficiente, cart).
Proof.
  intros Eb Hq Hs. unfold handleAddItem.
  assert (E1 : Qle_bool q 0 = false) by (apply Qle_bool_false; exact Hq).
  assert (E2 : Qgtb q (currentStock p) = true) by (apply Qgtb_true; exact Hs).
  rewrite E1, Eb, E2. reflexivity.
Qed.

(** C1 at its failing input.  Five units of P are in the cart and three on
    the shelf when the sale is finalized: the sale succeeds, the stock goes
    to 0, and the item written records five units sold. *)
Theorem sale_oversells_without_bom :
  hasBom productP = false
  /\ fst (onFinalizeSale uuidOf saleFormB cartP storeP) = None
  /\ map (fun p => (p_id p, currentStock p))
       (products (snd (onFinalizeSale uuidOf saleFormB cartP storeP)))
     = [("P", 0)]
  /\ map (fun ti => (ti_productId ti, ti_quantity ti))
       (transaction_items (snd (onFinalizeSale uuidOf saleFormB cartP storeP)))
     = [("P", 5)].
Proof.
  vm_compute. repeat split.
Qed.

(** Scenario B evaluated: the sale succeeds, F stays at 0 and C goes from
    10 to 4. *)
Lemma sale_scenario_B :
  fst (onFinalizeSale uuidOf saleFormB cartB storeB) = None
  /\ map (fun p => (p_id p, currentStock p))
       (products (snd (onFinalizeSale uuidOf saleFormB cartB storeB)))
     = [("F", 0); ("C", 4)].
Proof.
  vm_compute. repeat split.
Qed.

(** C2 at its failing input.  Two cart lines draw on the same component:
    each consumption is computed from the stock read in step 1 and written
    as an absolute value, so the second write replaces the first.  Nine
    units of C are consumed on paper; C goes from 10 to 7. *)
Theorem sale_shared_component_lost_update :
  fst (onFinalizeSale uuidOf saleFormB cartShared storeShared) = None
  /\ map (fun c => (c_ref c, c_required c))
       (flat_map (lineConsumption storeShared) cartShared)
     = [("C", 6); ("C", 3)]
  /\ map (fun p => (p_id p, currentStock p))
       (products (snd (onFinalizeSale uuidOf saleFormB cartShared storeShared)))
     = [("F1", 0); ("F2", 0); ("C", 7)].
Proof.
  vm_compute. repeat split.
Qed.

(** ** Reversal *)

(** Scenario E evaluated: C goes from 10 to 6, F from 0 to 2, and the
    assembly leaves one consumption item and one informational item. *)
Lemma assembly_scenario_E :
  fst (processAssemblyToStock uuidOf "F" 2 storeB) = None
  /\ map (fun p => (p_id p, currentStock p)) (products storeE)
     = [("F", 2); ("C", 6)]
  /\ transactions storeE = [assemblyTransaction]
  /\ map (fun ti => (ti_productId ti, ti_quantity ti)) (transaction_items storeE)
     = [("C", 4); ("F", 2)].
Proof.
  vm_compute. repeat split.
Qed.

(** C4 at its failing input.  Reverting the assembly of scenario E takes
    the quantity of every item away, the consumed component included: F
    returns to 0, and C, which the assembly had taken from 10 to 6, goes
    to 2 instead of back to 10. *)
Theorem revert_assembly_consumes_again :
  fst (handleRevert assemblyTransaction (Some (transaction_items storeE)) storeE)
  = None
  /\ map (fun p => (p_id p, currentStock p))
       (products (snd (handleRevert assemblyTransaction
                         (Some (transaction_items storeE)) storeE)))
     = [("F", 0); ("C", 2)]
  /\ transactions (snd (handleRevert assemblyTransaction
                          (Some (transaction_items storeE)) storeE)) = []
  /\ transaction_items (snd (handleRevert assemblyTransaction
                               (Some (transaction_items storeE)) storeE)) = [].
Proof.
  vm_compute. repeat split.
Qed.

(** ** References to products that do not exist *)

Lemma bomCheckComponents_inr s units comps : forall snaps,
  bomCheckComponents s units comps = inr snaps ->
  snaps = flat_map (bomSnap s units) comps /\ Forall (compOk s units) comps.
Proof.
  induction comps as [|comp rest IH]; cbn [bomCheckComponents flat_map]; intros snaps H.
  - inversion H; subst. split; [reflexivity | constructor].
  - unfold bomSnap at 1.
    destruct (getById p_id (products s) (bom_productId comp)) as [cd|] eqn:Eg;
      [|discriminate].
    destruct (Qgtb (units *! bom_quantity comp) (orZero (currentStock cd))) eqn:Ea;
      [discriminate|].
    apply Qgtb_false in Ea.
    destruct (bomCheckComponents s units rest) as [e|snaps'] eqn:Er;
      cbn [bindE] in H; [discriminate|].
    inversion H; subst. destruct (IH _ eq_refl) as [-> Hrest].
    split; [reflexivity|]. constructor; [|exact Hrest].
    exists cd. split; assumption.
Qed.

Lemma compOk_exists s units comps comp :
  Forall (compOk s units) comps -> In comp comps ->
  getById p_id (products s) (bom_productId comp) <> None.
Proof.
  intros F Hin. rewrite Forall_forall in F.
  destruct (F _ Hin) as (cd & E & _). rewrite E. discriminate.
Qed.

Lemma sale_fails_on_missing_product uuid form cart s item :
  In item cart ->
  getById p_id (products s) (productId item) = None ->
  exists e, onFinalizeSale uuid form cart s = (Some e, s).
Proof.
  intros Hin Hnone.
  destruct (onFinalizeSale_cases uuid form cart s)
    as [He | (s' & _ & _ & Hok & _)]; [exact He|].
  rewrite Forall_forall in Hok. destruct (Hok _ Hin) as (p & Eg & _). congruence.
Qed.

Lemma sale_fails_on_missing_component uuid form cart s item p comp :
  In item cart ->
  getById p_id (products s) (productId item) = Some p ->
  hasBom p = true -> In comp (bomList p) ->
  getById p_id (products s) (bom_productId comp) = None ->
  exists e, onFinalizeSale uuid form cart s = (Some e, s).
Proof.
  intros Hin Eg Eb Hc Hnone.
  destruct (onFinalizeSale_cases uuid form cart s)
    as [He | (s' & _ & _ & Hok & _)]; [exact He|].
  rewrite Forall_forall in Hok. destruct (Hok _ Hin) as (p' & Eg' & Hcomps).
  assert (p' = p) by congruence. subst p'.
  exfalso. exact (@compOk_exists _ _ _ _ (Hcomps Eb) Hc Hnone).
Qed.

Lemma assembly_fails_on_missing_component uuid id qty s p comp :
  getById p_id (products s) id = Some p ->
  In comp (bomList p) ->
  getById p_id (products s) (bom_productId comp) = None ->
  exists e, processAssemblyToStock uuid id qty s = (Some e, s).
Proof.
  intros Eg Hc Hnone.
  unfold processAssemblyToStock, runTransaction, assemblyUpdateFunction.
  rewrite Eg. destruct (hasBom p); cbn [negb]; [|eauto].
  destruct (bomCheckComponents s qty (bomList p)) as [e|snaps] eqn:Ec;
    cbn [bindE]; [eauto|].
  apply bomCheckComponents_inr in Ec. destruct Ec as [_ F].
  exfalso. exact (@compOk_exists _ _ _ _ F Hc Hnone).
Qed.

Lemma purchaseItemOps_filter uuid loaded values items : forall k,
  purchaseItemOps uuid loaded values k items
  = purchaseItemOps uuid loaded values k (filter (lineLoaded loaded) items).
Proof.
  induction items as [|item rest IH]; intro k; [reflexivity|].
  cbn [filter]. unfold lineLoaded at 1.
  destruct loaded as [ps|]; cbn [purchaseItemOps].
  - destruct (findProduct ps (pi_productId item)) eqn:E.
    + cbn [purchaseItemOps]. rewrite E. rewrite <- IH. reflexivity.
    + apply IH.
  - apply IH.
Qed.

(** ** Purchases *)

(** Sums of doubles whose terms agree agree. *)
Lemma fold_jsAdd_comp (A : Type) (f g : A -> Q) (l : list A) :
  (forall x, f x == g x) -> forall a b, a == b ->
  fold_left (fun acc x => acc +! f x) l a
  == fold_left (fun acc x => acc +! g x) l b.
Proof.
  intro Hfg. induction l as [|x rest IH]; intros a b E; cbn [fold_left];
    [exact E|].
  apply IH. rewrite E, (Hfg x). reflexivity.
Qed.

Lemma purchaseSubtotal_spec items : purchaseSubtotal items == specSubtotal items.
Proof.
  unfold purchaseSubtotal, specSubtotal, sumOf.
  apply fold_jsAdd_comp; [|reflexivity].
  intro item. rewrite !orZero_eq. reflexivity.
Qed.

Lemma lineLoaded_some cache item :
  lineLoaded (Some cache) item = true
  <-> findProduct cache (pi_productId item) <> None.
Proof.
  unfold lineLoaded. destruct (findProduct cache (pi_productId item));
    split; intro H; try reflexivity; try discriminate; try contradiction.
Qed.

Lemma filter_all (A : Type) (f : A -> bool) (l : list A) :
  Forall (fun x => f x = true) l -> filter f l = l.
Proof.
  induction 1 as [|x rest Hx _ IH]; cbn [filter]; [reflexivity|].
  rewrite Hx, IH. reflexivity.
Qed.

Lemma fold_transactionsStep_purchaseItemOps uuid loaded values items : forall k txs,
  fold_left transactionsStep (purchaseItemOps uuid loaded values k items) txs = txs.
Proof.
  induction items as [|item rest IH]; intros k txs; cbn [purchaseItemOps];
    [reflexivity|].
  destruct (match loaded with
            | Some ps => findProduct ps (pi_productId item)
            | None => None
            end); [cbn [fold_left transactionsStep]|]; apply IH.
Qed.

Lemma fold_itemsStep_purchaseItemOps uuid cache values items :
  (forall i j, uuid i = uuid j -> i = j) ->
  Forall (fun item => findProduct cache (pi_productId item) <> None) items ->
  forall k its,
  (forall j, (k <= j)%nat -> getById ti_id its (uuid j) = None) ->
  exists newItems,
    fold_left itemsStep (purchaseItemOps uuid (Some cache) values k items) its
    = its ++ newItems
    /\ Forall2 (purchaseLineItem (uuid 0%nat)) items newItems.
Proof.
  intros Hinj.
  induction 1 as [|item rest Hitem _ IH]; intros k its Hfresh; cbn [purchaseItemOps].
  - exists []. rewrite app_nil_r. split; [reflexivity | constructor].
  - destruct (findProduct cache (pi_productId item)) as [product|]; [|contradiction].
    cbn [fold_left itemsStep].
    rewrite collSet_fresh by (apply Hfresh; lia).
    edestruct (IH (S k)) as (newItems & E & F); [|rewrite E].
    + intros j Hj. rewrite getById_app, Hfresh by lia.
      unfold getById. cbn [find ti_id].
      destruct (uuid k =? uuid j)%string eqn:Ej; [|reflexivity].
      apply String.eqb_eq, Hinj in Ej. lia.
    + eexists. rewrite <- app_assoc. split; [reflexivity|].
      constructor; [|exact F]. repeat split.
Qed.

Lemma purchaseItemOps_updatesExist uuid cache values items s :
  linesResolve cache s items -> forall k,
  updatesExist s (purchaseItemOps uuid (Some cache) values k items).
Proof.
  unfold updatesExist.
  induction 1 as [|item rest [Hc Hs] _ IH]; intro k; cbn [purchaseItemOps];
    [constructor|].
  destruct (findProduct cache (pi_productId item)); [|contradiction].
  constructor; [exact I|]. constructor; [exact Hs | apply IH].
Qed.

(** The products after the writes of the lines, one line after the other. *)
Lemma purchase_products uuid cache values items : forall k s s',
  Forall (fun item => findProduct cache (pi_productId item) <> None) items ->
  commit s (purchaseItemOps uuid (Some cache) values k items) = (None, s') ->
  forall id p,
  getById p_id (products s) id = Some p ->
  exists p', getById p_id (products s') id = Some p'
             /\ purchasedProduct (v_supplierId values) items id p p'.
Proof.
  induction items as [|item rest IH]; intros k s s' Hl H id p Eg;
    cbn [purchaseItemOps] in H.
  - cbn [commit] in H. inversion H; subst s'. exists p. split; [exact Eg|].
    unfold purchasedProduct. cbn. split; reflexivity.
  - inversion Hl as [|? ? Hitem Hrest]; subst.
    destruct (findProduct cache (pi_productId item)) as [product|];
      [|contradiction].
    cbn [commit applyOp] in H.
    match type of H with
    | context [collUpdate p_id ?f ?ps ?i] =>
        destruct (collUpdate p_id f ps i) as [ps'|] eqn:Eu
    end; [|discriminate].
    cbn [products transactions transaction_items] in Eu.
    assert (Eg1 := getById_collUpdate p_id _ (applyPatch_id _) _ _ id Eu).
    rewrite Eg in Eg1.
    match type of H with
    | commit ?s1 _ = _ => destruct (IH (S k) s1 s' Hrest H id
        (if (id =? pi_productId item)%string
         then applyPatch (mkPatch (Some (Increment (pi_quantity item)))
                            (Some (pi_price item)) (Some (v_supplierId values))) p
         else p)) as (p' & Eg' & Hq & Hlast)
    end.
    { cbn [products]. rewrite Eg1.
      destruct (id =? pi_productId item)%string eqn:Ei.
      - apply String.eqb_eq in Ei. subst id. rewrite Eg. reflexivity.
      - reflexivity. }
    exists p'. split; [exact Eg'|].
    unfold purchasedProduct, purchasedQuantities. cbn [lastLineOf filter].
    fold (purchasedQuantities id rest).
    rewrite (String.eqb_sym (pi_productId item) id).
    destruct (id =? pi_productId item)%string eqn:Ei.
    + split.
      * rewrite Hq. reflexivity.
      * destruct (lastLineOf id rest); [exact Hlast|]. subst p'. split; reflexivity.
    + split; [exact Hq|]. destruct (lastLineOf id rest); exact Hlast.
Qed.

(** Without a loaded list every line is passed over. *)
Lemma purchaseItemOps_unloaded uuid values items : forall k,
  purchaseItemOps uuid None values k items = [].
Proof. induction items as [|item rest IH]; intro k; [reflexivity | apply IH]. Qed.

(** What a purchase commits: the transaction document, and for the lines
    the guard lets through, in their order, one item document each and
    the update of the product, provided those products are stored.  The
    lines whose product is not in the loaded list leave no trace. *)
Lemma purchase_commits uuid loaded values s :
  freshIds uuid s ->
  Forall (fun item => getById p_id (products s) (pi_productId item) <> None)
    (filter (lineLoaded loaded) (v_items values)) ->
  exists s' newItems,
    onFinalizePurchase uuid loaded values s = (None, s')
    /\ transactions s'
       = transactions s ++ [purchaseTransactionDoc values (uuid 0%nat)]
    /\ transaction_items s' = transaction_items s ++ newItems
    /\ Forall2 (purchaseLineItem (uuid 0%nat))
         (filter (lineLoaded loaded) (v_items values)) newItems
    /\ (forall id p,
          getById p_id (products s) id = Some p ->
          exists p',
            getById p_id (products s') id = Some p'
            /\ purchasedProduct (v_supplierId values)
                 (filter (lineLoaded loaded) (v_items values)) id p p').
Proof.
  intros (Hinj & Htx & Hit) Hstored.
  unfold onFinalizePurchase, purchaseOps. rewrite purchaseItemOps_filter.
  set (kept := filter (lineLoaded loaded) (v_items values)) in *.
  destruct loaded as [cache|].
  - assert (Hloaded : Forall (fun item => findProduct cache (pi_productId item) <> None)
                        kept).
    { apply Forall_forall. intros item Hin. apply lineLoaded_some.
      unfold kept in Hin. apply filter_In in Hin. tauto. }
    assert (Hres : linesResolve cache s kept).
    { unfold linesResolve. rewrite Forall_forall in *. intros item Hin.
      split; [apply Hloaded | apply Hstored]; exact Hin. }
    destruct (@commit_succeeds
                (SetTransaction (uuid 0%nat) (purchaseTransactionDoc values (uuid 0%nat))
                 :: purchaseItemOps uuid (Some cache) values 1 kept) s)
      as [s' Hc].
    { constructor; [exact I|]. apply purchaseItemOps_updatesExist. exact Hres. }
    destruct (commit_items _ _ Hc eq_refl) as [Hi Ht].
    cbn [fold_left itemsStep transactionsStep] in Hi, Ht.
    rewrite fold_transactionsStep_purchaseItemOps in Ht.
    rewrite collSet_fresh in Ht by apply Htx.
    destruct (@fold_itemsStep_purchaseItemOps uuid cache values kept
                Hinj Hloaded 1%nat (transaction_items s))
      as (newItems & Ei & F); [intros; apply Hit|].
    rewrite Ei in Hi.
    exists s', newItems.
    split; [exact Hc|]. split; [exact Ht|]. split; [exact Hi|]. split; [exact F|].
    intros id p Eg. cbn [commit applyOp] in Hc.
    eapply purchase_products; [exact Hloaded | exact Hc | exact Eg].
  - assert (Ek : kept = []).
    { unfold kept. induction (v_items values) as [|x rest IH]; [reflexivity|].
      cbn [filter lineLoaded]. apply IH.
      cbn [filter lineLoaded] in Hstored. exact Hstored. }
    rewrite Ek, purchaseItemOps_unloaded. cbn [commit applyOp].
    rewrite collSet_fresh by apply Htx.
    eexists. exists []. split; [reflexivity|]. cbn [transactions transaction_items products].
    split; [reflexivity|]. split; [rewrite app_nil_r; reflexivity|].
    split; [constructor|].
    intros id p Eg. exists p. split; [exact Eg|].
    unfold purchasedProduct. cbn. split; reflexivity.
Qed.

(** C6 (as amended).  A purchase whose lines all name stored products
    of the loaded list is committed whatever the stocks are.  It appends
    exactly one transaction document, of type OUT, whose net total is the
    subtotal of the lines minus the discount, and exactly one item document
    per line; and every stored product ends with its stock raised by the
    quantities of its lines, one after the other, with the unit cost of its
    last line as cost price and the supplier of the purchase, and untouched
    when no line names it. *)
Theorem purchase_finalized uuid cache values s :
  freshIds uuid s ->
  linesResolve cache s (v_items values) ->
  exists s' txDoc newItems,
    onFinalizePurchase uuid (Some cache) values s = (None, s')
    /\ transactions s' = transactions s ++ [txDoc]
    /\ t_type txDoc = OUT
    /\ netTotal txDoc == specSubtotal (v_items values) -! v_discountValue values
    /\ transaction_items s' = transaction_items s ++ newItems
    /\ Forall2 (purchaseLineItem (t_id txDoc)) (v_items values) newItems
    /\ (forall id p,
          getById p_id (products s) id = Some p ->
          exists p',
            getById p_id (products s') id = Some p'
            /\ purchasedProduct (v_supplierId values) (v_items values) id p p').
Proof.
  intros Hf Hres.
  assert (Hall : filter (lineLoaded (Some cache)) (v_items values) = v_items values).
  { apply filter_all. eapply Forall_impl; [|exact Hres].
    intros item [Hc _]. apply lineLoaded_some. exact Hc. }
  destruct (@purchase_commits uuid (Some cache) values s Hf)
    as (s' & newItems & Hc & Ht & Hi & F & Hp).
  { rewrite Hall. eapply Forall_impl; [|exact Hres]. cbn. tauto. }
  rewrite Hall in F, Hp.
  exists s', (purchaseTransactionDoc values (uuid 0%nat)), newItems.
  split; [exact Hc|]. split; [exact Ht|]. split; [reflexivity|].
  split.
  { cbn [purchaseTransactionDoc netTotal]. unfold purchaseNetTotal.
    rewrite purchaseSubtotal_spec, orZero_eq. reflexivity. }
  split; [exact Hi|]. split; [exact F | exact Hp].
Qed.

(** The theorem at scenario D: five units of P bought at 20 raise the
    stock from 10 to 15 and set the cost price to 20, under one
    transaction of type OUT with a net total of 100 and one item. *)
Lemma purchase_finalized_witness :
  exists s' txDoc ti p',
    onFinalizePurchase uuidOf (Some (products storeD)) purchaseD storeD = (None, s')
    /\ transactions s' = [txDoc] /\ t_type txDoc = OUT /\ netTotal txDoc == 100
    /\ transaction_items s' = [ti]
    /\ getById p_id (products s') "P" = Some p'
    /\ currentStock p' == 15 /\ p_costPrice p' = Some 20.
Proof.
  destruct (@purchase_finalized uuidOf (products storeD) purchaseD storeD)
    as (s' & txDoc & newItems & Hc & Ht & Hty & Hnet & Hi & F & Hp).
  - apply freshIds_empty.
  - repeat constructor; cbn; discriminate.
  - destruct (Hp "P" (simpleProduct "P" 10 (Some 12) None) eq_refl)
      as (p' & Eg & Hq & Hlast).
    cbn in Hlast. destruct Hlast as [Hcost _].
    destruct newItems as [|ti rest]; [inversion F|].
    destruct rest as [|ti2 rest]; [|inversion F as [|? ? ? ? _ F2]; inversion F2].
    exists s', txDoc, ti, p'.
    split; [exact Hc|]. split; [exact Ht|]. split; [exact Hty|].
    split; [rewrite Hnet; vm_compute; reflexivity|].
    split; [exact Hi|]. split; [exact Eg|].
    split; [rewrite Hq; vm_compute; reflexivity | exact Hcost].
Defined.

(** C6 as stated fails: a purchase of two lines, one of them naming a
    product that is not in the loaded list, is finalized with its net total
    of 200 over both lines and with the one item of the other line. *)
Lemma purchase_skips_unlisted_line :
  findProduct (products storeD) "ghost" = None
  /\ List.length (v_items purchaseMixed) = 2%nat
  /\ fst (onFinalizePurchase uuidOf (Some (products storeD)) purchaseMixed storeD)
     = None
  /\ map (fun t => (t_type t, netTotal t))
       (transactions
          (snd (onFinalizePurchase uuidOf (Some (products storeD)) purchaseMixed storeD)))
     = [(OUT, 200)]
  /\ map ti_productId
       (transaction_items
          (snd (onFinalizePurchase uuidOf (Some (products storeD)) purchaseMixed storeD)))
     = ["P"].
Proof.
  vm_compute. repeat split.
Qed.

(** ** Missing references in the three operations *)

(** C9 (as amended).  A sale fails, with the store as it was, when a cart
    line names a product that is not stored or when a BOM entry of a sold
    product does; so does an assembly for its final product and for its
    components.  A purchase does not fail on a line whose product is not
    in the loaded list: with the products of the other lines stored it is
    committed, its transaction document is written, and the lines that
    were passed over leave neither an item nor a change to any product. *)
Theorem missing_reference_behaviour uuid (s : Store) :
  (forall form cart item,
     In item cart -> getById p_id (products s) (productId item) = None ->
     exists e, onFinalizeSale uuid form cart s = (Some e, s))
  /\ (forall form cart item p comp,
        In item cart -> getById p_id (products s) (productId item) = Some p ->
        hasBom p = true -> In comp (bomList p) ->
        getById p_id (products s) (bom_productId comp) = None ->
        exists e, onFinalizeSale uuid form cart s = (Some e, s))
  /\ (forall id qty,
        getById p_id (products s) id = None ->
        processAssemblyToStock uuid id qty s = (Some (ProductNotFound id), s))
  /\ (forall id qty p comp,
        getById p_id (products s) id = Some p -> In comp (bomList p) ->
        getById p_id (products s) (bom_productId comp) = None ->
        exists e, processAssemblyToStock uuid id qty s = (Some e, s))
  /\ (forall loaded values,
        freshIds uuid s ->
        Forall (fun item => getById p_id (products s) (pi_productId item) <> None)
          (filter (lineLoaded loaded) (v_items values)) ->
        exists s' newItems,
          onFinalizePurchase uuid loaded values s = (None, s')
          /\ transactions s'
             = transactions s ++ [purchaseTransactionDoc values (uuid 0%nat)]
          /\ transaction_items s' = transaction_items s ++ newItems
          /\ Forall2 (purchaseLineItem (uuid 0%nat))
               (filter (lineLoaded loaded) (v_items values)) newItems
          /\ (forall id p,
                getById p_id (products s) id = Some p ->
                exists p',
                  getById p_id (products s') id = Some p'
                  /\ purchasedProduct (v_supplierId values)
                       (filter (lineLoaded loaded) (v_items values)) id p p')).
Proof.
  split; [intros; eapply sale_fails_on_missing_product; eassumption|].
  split; [intros; eapply sale_fails_on_missing_component; eassumption|].
  split.
  { intros id qty E.
    unfold processAssemblyToStock, runTransaction, assemblyUpdateFunction.
    rewrite E. reflexivity. }
  split; [intros; eapply assembly_fails_on_missing_component; eassumption|].
  intros loaded values Hf Hstored. apply purchase_commits; assumption.
Qed.

(** The theorem at a cart naming a product that is not stored, where the
    sale fails and scenario B's store is untouched, and at the purchase of
    two lines over scenario D, where the line of the product that is not
    in the list leaves no item and P gets its five units. *)
Lemma missing_reference_behaviour_witness :
  (exists e, onFinalizeSale uuidOf saleFormB cartGhost storeB = (Some e, storeB))
  /\ exists s' ti p',
       onFinalizePurchase uuidOf (Some (products storeD)) purchaseMixed storeD
       = (None, s')
       /\ transaction_items s' = [ti] /\ ti_productId ti = "P"
       /\ getById p_id (products s') "P" = Some p' /\ currentStock p' == 15.
Proof.
  split.
  - destruct (missing_reference_behaviour uuidOf storeB) as (Hsale & _).
    apply (Hsale saleFormB cartGhost (mkCartItem "ghost" "Ghost" 1 10 1 0)).
    + left. reflexivity.
    + reflexivity.
  - destruct (missing_reference_behaviour uuidOf storeD) as (_ & _ & _ & _ & Hp).
    destruct (Hp (Some (products storeD)) purchaseMixed (freshIds_empty _))
      as (s' & newItems & Hc & _ & Hi & F & Hprod).
    { repeat constructor. cbn. discriminate. }
    destruct (Hprod "P" (simpleProduct "P" 10 (Some 12) None) eq_refl)
      as (p' & Eg & Hq & _).
    change (filter (lineLoaded (Some (products storeD))) (v_items purchaseMixed))
      with [mkPurchaseItem "P" 5 20] in F, Hq.
    destruct newItems as [|ti rest]; [inversion F|].
    destruct rest as [|ti2 rest]; [|inversion F as [|? ? ? ? _ F2]; inversion F2].
    inversion F as [|? ? ? ? (_ & Hpid & _) _]; subst.
    exists s', ti, p'.
    split; [exact Hc|]. split; [exact Hi|]. split; [exact Hpid|].
    split; [exact Eg|]. rewrite Hq. vm_compute. reflexivity.
Defined.

(** C9 as stated fails for purchases: a purchase of a product that is in
    no list does not fail, and its transaction document is committed. *)
Lemma purchase_of_missing_product_commits :
  getById p_id (products storeB) "ghost" = None
  /\ findProduct (products storeB) "ghost" = None
  /\ fst (onFinalizePurchase uuidOf (Some (products storeB)) purchaseGhost storeB)
     = None
  /\ map (fun t => (t_type t, netTotal t))
       (transactions
          (snd (onFinalizePurchase uuidOf (Some (products storeB)) purchaseGhost storeB)))
     = [(OUT, 100)]
  /\ transaction_items
       (snd (onFinalizePurchase uuidOf (Some (products storeB)) purchaseGhost storeB))
     = [].
Proof.
  vm_compute. repeat split.
Qed.

(** ** What a successful sale does to the stocks *)

(** After a log of plain stock writes every product carries the last
    value written to it, and is untouched when nothing was written. *)
Lemma commit_last_write_wins ops : forall s s' id p acc,
  onlyStockAssigns ops ->
  commit s ops = (None, s') ->
  getById p_id (products s) id = Some (withStockOpt p acc) ->
  getById p_id (products s') id = Some (withStockOpt p (lastAssign id ops acc)).
Proof.
  unfold onlyStockAssigns, lastAssign.
  induction ops as [|op rest IH]; intros s s' id p acc Hops H Eg;
    cbn [commit fold_left] in *.
  - inversion H; subst. exact Eg.
  - inversion Hops as [|? ? Hop Hrest]; subst.
    destruct (applyOp s op) as [e|s1] eqn:E1; [discriminate|].
    apply (IH s1 s' id p _ Hrest H).
    rewrite (applyOp_products _ _ E1 id).
    destruct op; try exact Eg; try contradiction.
    destruct Hop as [v ->]. cbn [u_currentStock stockAssign].
    rewrite (String.eqb_sym id0 id).
    destruct (id =? id0)%string eqn:Ei; [|exact Eg].
    apply String.eqb_eq in Ei. subst id0. rewrite Eg.
    destruct acc; reflexivity.
Qed.

Lemma saleOps_onlyStockAssigns uuid form cart s :
  onlyStockAssigns (saleOps uuid form cart s).
Proof.
  unfold onlyStockAssigns, saleOps. constructor; [exact I|].
  apply Forall_app. split.
  - generalize 1%nat. generalize (flat_map (lineDetail s) cart).
    induction l as [|d rest IH]; intro k; cbn [detailOps]; [constructor|].
    constructor; [exact I|]. constructor; [|apply IH].
    unfold detailUpdate. eauto.
  - unfold saleWriteConsumption. apply Forall_map, Forall_forall.
    intros c _. eauto.
Qed.

(** The stocks after a successful sale: every stored product carries the
    last value the sale assigned to it. *)
Lemma sale_products uuid form cart s s' id p :
  onFinalizeSale uuid form cart s = (None, s') ->
  getById p_id (products s) id = Some p ->
  getById p_id (products s') id
  = Some (withStockOpt p (assignedStock id (saleOps uuid form cart s))).
Proof.
  intros H Eg.
  destruct (onFinalizeSale_cases uuid form cart s)
    as [[e He] | (s1 & H1 & Hc & _)]; [congruence|].
  rewrite H1 in H. inversion H; subst s1.
  apply (@commit_last_write_wins _ s s' id p None
           (saleOps_onlyStockAssigns uuid form cart s) Hc Eg).
Qed.

Lemma lastAssign_app id ops1 ops2 acc :
  lastAssign id (ops1 ++ ops2) acc = lastAssign id ops2 (lastAssign id ops1 acc).
Proof. unfold lastAssign. apply fold_left_app. Qed.

Lemma lineShortfall_step1_spec p item :
  lineShortfall p item == specShortfall p item.
Proof.
  unfold lineShortfall, specShortfall, lineFromStock, specFromStock.
  rewrite orZero_eq.
  apply Q.max_r. apply jsSub_nonneg. apply Q.le_min_r.
Qed.

Lemma lineShortfall_nonneg p item : 0 <= lineShortfall p item.
Proof. unfold lineShortfall. apply Q.le_max_l. Qed.

(** The consumption writes of one BOM leave the products outside the BOM
    alone. *)
Lemma lastAssign_consumption_other s shortfall id comps : forall acc,
  ~ In id (map bom_productId comps) ->
  lastAssign id (saleWriteConsumption (flat_map (bomConsumption s shortfall) comps)) acc
  = acc.
Proof.
  induction comps as [|c rest IH]; intros acc Hnot; [reflexivity|].
  assert (Hrest : ~ In id (map bom_productId rest))
    by (intro; apply Hnot; right; assumption).
  assert (Hhead : bom_productId c <> id)
    by (intro; apply Hnot; left; assumption).
  cbn [flat_map]. unfold saleWriteConsumption in *.
  rewrite map_app, lastAssign_app, IH by exact Hrest.
  unfold bomConsumption.
  destruct (getById p_id (products s) (bom_productId c)); [|reflexivity].
  destruct (Qgtb (shortfall *! bom_quantity c) 0); [|reflexivity].
  unfold lastAssign. cbn.
  apply String.eqb_neq in Hhead. rewrite Hhead. reflexivity.
Qed.

(** With no component listed twice, a component of the BOM is written
    once, when something is required of it. *)
Lemma lastAssign_consumption_comp s shortfall comp cd comps : forall acc,
  NoDup (map bom_productId comps) -> In comp comps ->
  getById p_id (products s) (bom_productId comp) = Some cd ->
  lastAssign (bom_productId comp)
    (saleWriteConsumption (flat_map (bomConsumption s shortfall) comps)) acc
  = if Qgtb (shortfall *! bom_quantity comp) 0
    then Some (currentStock cd -! shortfall *! bom_quantity comp)
    else acc.
Proof.
  induction comps as [|c rest IH]; intros acc Hnd Hin Eg; [destruct Hin|].
  cbn [flat_map map] in *. inversion Hnd as [|? ? Hc Hrest]; subst.
  unfold saleWriteConsumption in *. rewrite map_app, lastAssign_app.
  destruct Hin as [-> | Hin].
  - rewrite lastAssign_consumption_other by exact Hc.
    unfold bomConsumption. rewrite Eg.
    destruct (Qgtb (shortfall *! bom_quantity comp) 0); [|reflexivity].
    unfold lastAssign. cbn. rewrite String.eqb_refl. reflexivity.
  - rewrite IH by assumption.
    destruct (Qgtb (shortfall *! bom_quantity comp) 0); [reflexivity|].
    unfold bomConsumption.
    destruct (getById p_id (products s) (bom_productId c)); [|reflexivity].
    destruct (Qgtb (shortfall *! bom_quantity c) 0); [|reflexivity].
    unfold lastAssign. cbn.
    destruct (bom_productId c =? bom_productId comp)%string eqn:E; [|reflexivity].
    apply String.eqb_eq in E. exfalso. apply Hc. rewrite E.
    apply in_map. exact Hin.
Qed.

(** X19.  In a sale of one line, over a BOM that lists no component
    twice and does not list the sold product, the sold product loses
    [min(currentStock, quantity)], every component of which something is
    required loses [shortfall * quantityPerUnit], and the other components
    keep their stock. *)
Lemma sale_single_bom_line uuid form item s s' p :
  onFinalizeSale uuid form [item] s = (None, s') ->
  getById p_id (products s) (productId item) = Some p ->
  hasBom p = true ->
  NoDup (map bom_productId (bomList p)) ->
  ~ In (productId item) (map bom_productId (bomList p)) ->
  (exists p',
     getById p_id (products s') (productId item) = Some p'
     /\ currentStock p' == currentStock p -! specFromStock p item)
  /\ (forall comp cd,
        In comp (bomList p) ->
        getById p_id (products s) (bom_productId comp) = Some cd ->
        exists cd',
          getById p_id (products s') (bom_productId comp) = Some cd'
          /\ currentStock cd'
             == if Qgtb (specShortfall p item *! bom_quantity comp) 0
                then currentStock cd -! specShortfall p item *! bom_quantity comp
                else currentStock cd).
Proof.
  intros H Eg Eb Hnd Hself.
  assert (Hops : forall id,
            assignedStock id (saleOps uuid form [item] s)
            = lastAssign id
                (saleWriteConsumption
                   (flat_map (bomConsumption s (lineShortfall p item)) (bomList p)))
                (if (productId item =? id)%string
                 then Some (currentStock p -! orZero (lineFromStock p item))
                 else None)).
  { intro id. unfold assignedStock, saleOps. cbn [flat_map].
    unfold lineDetail, lineConsumption. rewrite Eg, Eb, !app_nil_r.
    cbn [detailOps app]. unfold lastAssign at 1. cbn [fold_left].
    fold (lastAssign id). cbn.
    destruct (productId item =? id)%string; reflexivity. }
  split.
  - eexists. split; [apply (@sale_products _ _ _ _ _ _ _ H Eg)|].
    rewrite Hops, String.eqb_refl, lastAssign_consumption_other by exact Hself.
    cbn. rewrite lineFromStock_spec. reflexivity.
  - intros comp cd Hin Ec. eexists.
    split; [apply (@sale_products _ _ _ _ _ _ _ H Ec)|].
    rewrite Hops, (@lastAssign_consumption_comp _ _ _ _ _ _ Hnd Hin Ec).
    assert (Hne : (productId item =? bom_productId comp)%string = false).
    { apply String.eqb_neq. intro E. apply Hself. rewrite E.
      apply in_map. exact Hin. }
    rewrite Hne.
    rewrite <- (@Qgtb_comp (lineShortfall p item *! bom_quantity comp)
                  (specShortfall p item *! bom_quantity comp) 0)
      by (rewrite lineShortfall_step1_spec; reflexivity).
    destruct (Qgtb (lineShortfall p item *! bom_quantity comp) 0); cbn.
    + rewrite lineShortfall_step1_spec. reflexivity.
    + reflexivity.
Qed.

(** ** What a reversal does *)

Lemma commit_app ops1 ops2 : forall s,
  commit s (ops1 ++ ops2)
  = match commit s ops1 with
    | (None, s1) => commit s1 ops2
    | failed => failed
    end.
Proof.
  induction ops1 as [|op rest IH]; intro s; cbn [app commit]; [reflexivity|].
  destruct (applyOp s op); [reflexivity | apply IH].
Qed.

Lemma getById_collDelete (A : Type) (key : A -> string) items id k :
  getById key (collDelete key items id) k
  = if (k =? id)%string then None else getById key items k.
Proof.
  unfold getById, collDelete.
  induction items as [|x rest IH]; cbn [filter find].
  - destruct (k =? id)%string; reflexivity.
  - destruct (key x =? id)%string eqn:Ex; cbn [negb find].
    + rewrite IH. destruct (key x =? k)%string eqn:Ek; [|reflexivity].
      apply String.eqb_eq in Ex, Ek. subst.
      rewrite String.eqb_refl. reflexivity.
    + destruct (key x =? k)%string eqn:Ek; [|exact IH].
      apply String.eqb_eq in Ek. subst k. rewrite Ex. reflexivity.
Qed.

Lemma revertOps_updatesExist transaction freshItems s :
  updatesExist s (revertOps transaction freshItems s).
Proof.
  unfold updatesExist, revertOps, revertStockOps.
  apply Forall_app. split.
  - apply Forall_flat_map, Forall_forall. intros item _.
    destruct (getById p_id (products s) (ti_productId item)) eqn:E;
      constructor; [|constructor].
    rewrite E. discriminate.
  - apply Forall_app. split.
    + apply Forall_map, Forall_forall. intros; exact I.
    + constructor; [exact I | constructor].
Qed.

(** The transactional path of the reversal never throws, so the batched
    path is not entered; items of deleted products are no obstacle. *)
Lemma handleRevert_succeeds transaction its s :
  t_status transaction <> CANCELLED ->
  exists s',
    handleRevert transaction (Some its) s = (None, s')
    /\ commit s (revertOps transaction (freshItemsOf transaction its s) s)
       = (None, s').
Proof.
  intro Hst. unfold handleRevert.
  assert (E : TxStatus_eqb (t_status transaction) CANCELLED = false)
    by (destruct (t_status transaction); trivial; contradiction).
  rewrite E. unfold runTransaction, revertUpdateFunction.
  destruct (commit_succeeds
              (revertOps_updatesExist transaction
                 (freshItemsOf transaction its s) s)) as [s' Hc].
  exists s'. rewrite Hc. split; reflexivity.
Qed.

Lemma fold_itemsStep_stockOps type freshItems s items :
  fold_left itemsStep (revertStockOps type freshItems s) items = items.
Proof.
  unfold revertStockOps. revert items.
  induction freshItems as [|it rest IH]; intro items; cbn [flat_map]; [reflexivity|].
  rewrite fold_left_app, IH.
  destruct (getById p_id (products s) (ti_productId it)); reflexivity.
Qed.

Lemma fold_transactionsStep_stockOps type freshItems s txs :
  fold_left transactionsStep (revertStockOps type freshItems s) txs = txs.
Proof.
  unfold revertStockOps. revert txs.
  induction freshItems as [|it rest IH]; intro txs; cbn [flat_map]; [reflexivity|].
  rewrite fold_left_app, IH.
  destruct (getById p_id (products s) (ti_productId it)); reflexivity.
Qed.

Lemma fold_deleteItems_gone freshItems : forall items item,
  In item freshItems ->
  getById ti_id
    (fold_left itemsStep (map (fun it => DeleteItem (ti_id it)) freshItems) items)
    (ti_id item) = None.
Proof.
  assert (Hkeep : forall l items k,
            getById ti_id items k = None ->
            getById ti_id
              (fold_left itemsStep (map (fun it => DeleteItem (ti_id it)) l) items) k
            = None).
  { induction l as [|x l IH]; intros items k H; [exact H|].
    cbn [map fold_left itemsStep]. apply IH.
    rewrite getById_collDelete, H. destruct (k =? ti_id x)%string; reflexivity. }
  induction freshItems as [|x rest IH]; intros items item Hin; [destruct Hin|].
  cbn [map fold_left itemsStep]. destruct Hin as [-> | Hin].
  - apply Hkeep. rewrite getById_collDelete, String.eqb_refl. reflexivity.
  - apply IH. exact Hin.
Qed.

Lemma fold_transactionsStep_deleteItems (l : list TransactionItem) txs :
  fold_left transactionsStep (map (fun it => DeleteItem (ti_id it)) l) txs = txs.
Proof.
  revert txs. induction l as [|x l IH]; intro txs; [reflexivity | apply IH].
Qed.

(** After a reversal the transaction document and the item documents it
    was given are gone. *)
Lemma handleRevert_deletes_records transaction its s s' :
  handleRevert transaction (Some its) s = (None, s') ->
  t_status transaction <> CANCELLED ->
  getById t_id (transactions s') (t_id transaction) = None
  /\ forall item, In item (freshItemsOf transaction its s) ->
       getById ti_id (transaction_items s') (ti_id item) = None.
Proof.
  intros H Hst.
  destruct (@handleRevert_succeeds transaction its s Hst) as (s1 & H1 & Hc).
  rewrite H1 in H. inversion H; subst s1.
  destruct (commit_items _ _ Hc eq_refl) as [Hi Ht].
  unfold revertOps in Hi, Ht. rewrite !fold_left_app in Hi, Ht.
  rewrite fold_itemsStep_stockOps in Hi.
  rewrite fold_transactionsStep_stockOps, fold_transactionsStep_deleteItems in Ht.
  cbn [fold_left itemsStep transactionsStep] in Hi, Ht.
  split.
  - rewrite Ht, getById_collDelete, String.eqb_refl. reflexivity.
  - intros item Hin. rewrite Hi. apply fold_deleteItems_gone. exact Hin.
Qed.

Lemma commit_without_updates ops : forall s r s',
  Forall (fun op => opProduct op = None) ops ->
  commit s ops = (r, s') -> products s' = products s.
Proof.
  induction ops as [|op rest IH]; intros s r s' F H; cbn [commit] in H.
  - inversion H; reflexivity.
  - inversion F as [|? ? Hop Hrest]; subst.
    destruct op; try discriminate; cbn [applyOp] in H;
      apply (IH _ _ _ Hrest) in H; exact H.
Qed.

(** The stock writes of a reversal, one item after the other: every
    stored product gets the adjustments of its items added. *)
Lemma revert_stock_ops type items s0 : forall s s',
  (forall k, getById p_id (products s0) k = None
             <-> getById p_id (products s) k = None) ->
  commit s (revertStockOps type items s0) = (None, s') ->
  forall id p,
  getById p_id (products s) id = Some p ->
  exists p', getById p_id (products s') id = Some p'
             /\ currentStock p'
                == incremented (currentStock p) (revertedQuantities type id items).
Proof.
  unfold revertStockOps.
  induction items as [|item rest IH]; intros s s' Hsame H id p Eg;
    cbn [flat_map] in H.
  - cbn [commit] in H. inversion H; subst. exists p. split; [exact Eg|].
    reflexivity.
  - unfold revertedQuantities. cbn [filter]. fold (revertedQuantities type id rest).
    destruct (getById p_id (products s0) (ti_productId item)) as [p0|] eqn:E0;
      cbn [app] in H.
    + cbn [commit applyOp] in H.
      match type of H with
      | context [collUpdate p_id ?f ?ps ?i] =>
          destruct (collUpdate p_id f ps i) as [ps'|] eqn:Eu
      end; [|discriminate].
      assert (Eg1 := getById_collUpdate p_id _ (applyPatch_id _) _ _ id Eu).
      rewrite Eg in Eg1.
      match type of H with
      | commit ?s1 _ = _ => destruct (IH s1 s') with (id := id)
          (p := if (id =? ti_productId item)%string
                then applyPatch (mkPatch (Some (Increment (stockAdjustment type item)))
                                   None None) p
                else p) as (p' & Eg' & Hq)
      end; trivial.
      * intro k. rewrite Hsame. cbn [products].
        rewrite (getById_collUpdate p_id _ (applyPatch_id _) _ _ k Eu).
        destruct (k =? ti_productId item)%string eqn:Ek; [|tauto].
        apply String.eqb_eq in Ek. subst k.
        destruct (getById p_id (products s) (ti_productId item)) eqn:Es;
          cbn; [split; discriminate | tauto].
      * cbn [products]. rewrite Eg1.
        destruct (id =? ti_productId item)%string eqn:Ei; [|reflexivity].
        apply String.eqb_eq in Ei. subst id. rewrite Eg. reflexivity.
      * exists p'. split; [exact Eg'|]. rewrite Hq.
        rewrite (String.eqb_sym (ti_productId item) id).
        destruct (id =? ti_productId item)%string; reflexivity.
    + destruct (IH s s' Hsame H id p Eg) as (p' & Eg' & Hq).
      exists p'. split; [exact Eg'|]. rewrite Hq.
      destruct (ti_productId item =? id)%string eqn:Ei; [|reflexivity].
      apply String.eqb_eq in Ei. subst id.
      apply Hsame in E0. congruence.
Qed.

(** The stocks after a reversal: the quantity of every item is added
    back for a transaction of type IN and taken away for every other
    type. *)
Lemma handleRevert_products transaction its s s' id p :
  handleRevert transaction (Some its) s = (None, s') ->
  t_status transaction <> CANCELLED ->
  getById p_id (products s) id = Some p ->
  exists p',
    getById p_id (products s') id = Some p'
    /\ currentStock p'
       == incremented (currentStock p)
            (revertedQuantities (t_type transaction) id
               (freshItemsOf transaction its s)).
Proof.
  intros H Hst Eg.
  destruct (@handleRevert_succeeds transaction its s Hst) as (s1 & H1 & Hc).
  rewrite H1 in H. inversion H; subst s1.
  unfold revertOps in Hc. rewrite commit_app in Hc.
  destruct (commit s (revertStockOps (t_type transaction)
                        (freshItemsOf transaction its s) s)) as [[e|] s1] eqn:E1;
    [discriminate|].
  destruct (@revert_stock_ops _ _ s s s1 (fun k => iff_refl _) E1 id p Eg)
    as (p' & Eg' & Hq).
  exists p'. split; [|exact Hq].
  apply commit_without_updates in Hc.
  - rewrite Hc. exact Eg'.
  - apply Forall_app. split.
    + apply Forall_map, Forall_forall. reflexivity.
    + constructor; [reflexivity | constructor].
Qed.

(** Scenario A and property P4 evaluated: three of ten units of P are
    sold, and reverting the sale brings P back to ten and removes the
    records. *)
Lemma sale_then_revert_scenario_A :
  map (fun p => (p_id p, currentStock p)) (products storeA1) = [("P", 7)]
  /\ map (fun ti => (ti_productId ti, ti_quantity ti, ti_price ti))
       (transaction_items storeA1) = [("P", 3, 50)]
  /\ map netTotal (transactions storeA1) = [150]
  /\ handleRevert (saleTransactionDoc saleFormB cartA (uuidOf 0))
       (Some (transaction_items storeA1)) storeA1
     = (None, storeA).
Proof.
  vm_compute. repeat split.
Qed.

(** ** The BOM service *)

(** The explosion sale of [services/bom.ts] on scenario B: the sibling of
    the sale form writes one consumption item per component, and none for
    the product sold. *)
Lemma explosion_sale_scenario_B :
  fst (processBomExplosionSale uuidOf "F" 3 storeB) = None
  /\ map (fun p => (p_id p, currentStock p))
       (products (snd (processBomExplosionSale uuidOf "F" 3 storeB)))
     = [("F", 0); ("C", 4)]
  /\ map (fun ti => (ti_productId ti, ti_quantity ti))
       (transaction_items (snd (processBomExplosionSale uuidOf "F" 3 storeB)))
     = [("C", 6)].
Proof.
  vm_compute. repeat split.
Qed.

(** ** A sale within the stock and its reversal (property P4) *)

Lemma cartLine_none cart id :
  ~ In id (map productId cart) -> cartLine cart id = None.
Proof.
  unfold cartLine. induction cart as [|item rest IH]; intro Hnot; [reflexivity|].
  cbn [find]. destruct (productId item =? id)%string eqn:E.
  - apply String.eqb_eq in E. exfalso. apply Hnot. left. exact E.
  - apply IH. intro Hin. apply Hnot. right. exact Hin.
Qed.

(** With one line per product, the stock a sale assigns to a product is
    the one computed for its line. *)
Lemma lastAssign_detailOps uuid txid s id cart :
  NoDup (map productId cart) -> Forall (lineOk s) cart ->
  forall k acc,
  lastAssign id (detailOps uuid txid s k (flat_map (lineDetail s) cart)) acc
  = match cartLine cart id, getById p_id (products s) id with
    | Some item, Some p => Some (currentStock p -! orZero (lineFromStock p item))
    | _, _ => acc
    end.
Proof.
  induction cart as [|item rest IH]; intros Hnd Hok k acc.
  - cbn. destruct (getById p_id (products s) id); reflexivity.
  - inversion Hnd as [|? ? Hhead Hrest]; subst.
    inversion Hok as [|? ? (p0 & Eg & _) Hokr]; subst.
    cbn [flat_map]. unfold lineDetail at 1. rewrite Eg. cbn [app detailOps].
    match goal with
    | |- context [lastAssign id (?a :: ?b :: ?r) acc] =>
        change (a :: b :: r) with ([a; b] ++ r)
    end.
    rewrite lastAssign_app, (IH Hrest Hokr).
    unfold lastAssign. cbn [fold_left detailUpdate d_ref d_snap d_item
                              u_currentStock stockAssign].
    unfold cartLine. cbn [find]. fold (cartLine rest id).
    destruct (productId item =? id)%string eqn:E.
    + apply String.eqb_eq in E. subst id.
      rewrite (cartLine_none _ _ Hhead), Eg. reflexivity.
    + destruct (cartLine rest id), (getById p_id (products s) id); reflexivity.
Qed.

(** With one line per product, a reversal of type IN gives a product the
    quantity of its line back. *)
Lemma revertedQuantities_sale txid s cart newItems :
  Forall2 (lineItemOf txid s) cart newItems ->
  NoDup (map productId cart) ->
  forall id,
  revertedQuantities IN id newItems
  = match cartLine cart id with
    | Some item => [quantity item]
    | None => []
    end.
Proof.
  induction 1 as [|item ti rest rest' Hhd _ IH]; intros Hnd id; [reflexivity|].
  inversion Hnd as [|? ? Hhead Hrest]; subst.
  destruct Hhd as (p & _ & _ & Hp & _ & Hq & _).
  unfold revertedQuantities. cbn [filter]. fold (revertedQuantities IN id rest').
  change (cartLine (item :: rest) id)
    with (if (productId item =? id)%string then Some item else cartLine rest id).
  rewrite Hp.
  destruct (productId item =? id)%string eqn:E; [|apply (IH Hrest id)].
  cbn [map]. fold (revertedQuantities IN id rest'). rewrite (IH Hrest id).
  apply String.eqb_eq in E. subst id.
  rewrite (cartLine_none _ _ Hhead).
  unfold stockAdjustment. cbn [TxType_eqb]. rewrite Hq. reflexivity.
Qed.

Lemma inject_Z_minus (a b : Z) : inject_Z a - inject_Z b == inject_Z (a - b).
Proof.
  unfold Z.sub. rewrite inject_Z_plus, inject_Z_opp. reflexivity.
Qed.

(** Whole numbers go and come back: taking a whole quantity from a whole
    stock that covers it and adding it again gives the stock. *)
Lemma whole_round_trip (stock q : Q) :
  wholeNumber stock -> wholeNumber q -> 0 <= q -> q <= stock ->
  orZero (stock -! q) +! q == stock.
Proof.
  intros (n & En & Hn) (z & Ez & Hz) H0 Hle.
  rewrite Ez in H0. rewrite En, Ez in Hle.
  change 0 with (inject_Z 0) in H0. rewrite <- Zle_Qle in H0, Hle.
  rewrite orZero_eq. unfold jsSub, jsAdd. rewrite En, Ez.
  rewrite inject_Z_minus, round64_Z by lia.
  rewrite <- inject_Z_plus.
  replace (n - z + z)%Z with n by lia.
  apply round64_Z. exact Hn.
Qed.

Lemma withinStock_no_consumption s cart :
  withinStock s cart -> flat_map (lineConsumption s) cart = [].
Proof.
  induction 1 as [|item rest (p & Eg & Eb & _) _ IH]; [reflexivity|].
  cbn [flat_map]. unfold lineConsumption at 1. rewrite Eg, Eb, IH. reflexivity.
Qed.

Lemma cartLine_some cart id item :
  cartLine cart id = Some item -> In item cart /\ productId item = id.
Proof.
  unfold cartLine. intro H. apply find_some in H. destruct H as [Hin E].
  apply String.eqb_eq in E. tauto.
Qed.

(** X18.  Property P4 for the sales the cart check lets through, in
    whole numbers: a completed sale of whole quantities over products
    without BOM, one line per product, every line within the stock and
    every stock a whole number below 2^53, followed by its reversal,
    returns every product to the stock it had before the sale and leaves
    neither the transaction nor its items behind. *)
Lemma sale_then_revert_restores uuid form cart s s1 newItems :
  freshIds uuid s ->
  withinStock s cart -> NoDup (map productId cart) ->
  Forall (fun item => wholeNumber (quantity item) /\ 0 <= quantity item) cart ->
  Forall (fun p => wholeNumber (currentStock p)) (products s) ->
  paymentStatus form = COMPLETED ->
  onFinalizeSale uuid form cart s = (None, s1) ->
  transaction_items s1 = transaction_items s ++ newItems ->
  exists s2,
    handleRevert (saleTransactionDoc form cart (uuid 0%nat)) (Some newItems) s1
    = (None, s2)
    /\ getById t_id (transactions s2) (uuid 0%nat) = None
    /\ (forall ti, In ti newItems ->
          getById ti_id (transaction_items s2) (ti_id ti) = None)
    /\ (forall id p,
          getById p_id (products s) id = Some p ->
          exists p2, getById p_id (products s2) id = Some p2
                     /\ currentStock p2 == currentStock p).
Proof.
  intros Hf Hin Hnd Hwq Hws Hst Hsale Hitems.
  destruct (@sale_records uuid form cart s s1 Hf Hsale) as (_ & items' & Hi & F).
  assert (items' = newItems)
    by (rewrite Hitems in Hi; apply app_inv_head in Hi; congruence).
  subst items'.
  destruct (onFinalizeSale_cases uuid form cart s)
    as [[e He] | (s1' & H1 & _ & Hok & Hne)]; [congruence|].
  assert (Hnew : freshItemsOf (saleTransactionDoc form cart (uuid 0%nat)) newItems s1
                 = newItems).
  { destruct newItems; [|reflexivity]. inversion F; subst. contradiction. }
  assert (Hstatus : t_status (saleTransactionDoc form cart (uuid 0%nat)) <> CANCELLED)
    by (cbn; rewrite Hst; discriminate).
  destruct (@handleRevert_succeeds _ newItems s1 Hstatus) as (s2 & Hr & _).
  exists s2. split; [exact Hr|].
  destruct (@handleRevert_deletes_records _ _ _ _ Hr Hstatus) as [Ht Hd].
  split; [exact Ht|]. split; [rewrite Hnew in Hd; exact Hd|].
  intros id p Eg.
  assert (E1 := @sale_products uuid form cart s s1 id p Hsale Eg).
  destruct (@handleRevert_products _ _ _ _ id _ Hr Hstatus E1) as (p2 & E2 & Hq).
  exists p2. split; [exact E2|].
  rewrite Hq, Hnew. cbn [saleTransactionDoc t_type].
  rewrite (revertedQuantities_sale F Hnd id).
  unfold assignedStock, saleOps.
  rewrite (withinStock_no_consumption Hin). cbn [saleWriteConsumption map].
  rewrite app_nil_r.
  match goal with
  | |- context [lastAssign id (?a :: ?r) None] =>
      change (a :: r) with ([a] ++ r)
  end.
  rewrite lastAssign_app.
  rewrite (@lastAssign_detailOps uuid (uuid 0%nat) s id cart Hnd Hok), Eg.
  destruct (cartLine cart id) as [item|] eqn:El; [|reflexivity].
  apply cartLine_some in El. destruct El as [Hitem <-].
  unfold withinStock in Hin. rewrite Forall_forall in Hin, Hwq, Hws.
  destruct (Hin _ Hitem) as (p' & Eg' & _ & Hle).
  assert (p' = p) by congruence. subst p'.
  destruct (Hwq _ Hitem) as [Hw H0].
  assert (Hwp : wholeNumber (currentStock p))
    by (apply Hws; apply getById_key in Eg; tauto).
  cbn [withStockOpt withStock applyPatch stockAssign u_currentStock applyNum
       currentStock incremented fold_left].
  assert (Efs : orZero (lineFromStock p item) == quantity item).
  { unfold lineFromStock. rewrite !orZero_eq. apply Q.min_r. exact Hle. }
  rewrite Efs. apply whole_round_trip; assumption.
Qed.

(* ================================================================== *)
(** * Further properties of the code *)

(** ** The storage layer *)

(** X1.  [storage.set] followed by a read: the identifier written reads
    as the data merged over the record it had, or as the data alone when
    it was new; every other identifier reads as before. *)
Theorem storage_set_then_get (A : Type) (key : A -> string) (merge : A -> A)
    (fresh : A) (items : list A) (id k : string) :
  key fresh = id ->
  (forall x, key x = id -> key (merge x) = id) ->
  getById key (collSet key merge fresh items id) k
  = if (k =? id)%string
    then Some match getById key items id with
              | Some x => merge x
              | None => fresh
              end
    else getById key items k.
Proof.
  intros Hfresh Hmerge. unfold getById.
  induction items as [|x rest IH]; cbn [collSet find].
  - rewrite Hfresh, (String.eqb_sym id k). destruct (k =? id)%string; reflexivity.
  - destruct (key x =? id)%string eqn:Ex.
    + apply String.eqb_eq in Ex. cbn [find]. rewrite (Hmerge x Ex).
      rewrite (String.eqb_sym id k).
      destruct (k =? id)%string eqn:Ek; [reflexivity|].
      rewrite <- Ex in Ek. rewrite (String.eqb_sym (key x) k), Ek. reflexivity.
    + cbn [find]. destruct (key x =? k)%string eqn:Ek; [|exact IH].
      apply String.eqb_eq in Ek. subst k. rewrite Ex. reflexivity.
Qed.

(** The theorem on the items of scenario A after the sale: writing the
    item again under its identifier reads back the new data merged over
    the item the sale had written. *)
Lemma storage_set_then_get_witness :
  getById ti_id
    (collSet ti_id (mergeItem repricedItem) repricedItem
       (transaction_items storeA1) (uuidOf 1))
    (uuidOf 1)
  = option_map (mergeItem repricedItem)
      (getById ti_id (transaction_items storeA1) (uuidOf 1)).
Proof.
  rewrite (@storage_set_then_get TransactionItem ti_id (mergeItem repricedItem)
             repricedItem (transaction_items storeA1) (uuidOf 1) (uuidOf 1)).
  - vm_compute. reflexivity.
  - reflexivity.
  - intros x _. reflexivity.
Defined.

(** X2.  [storage.update] throws exactly when no record has the
    identifier.  Otherwise it keeps the number of records, the identifier
    patched reads as the patch of what it held, and every other identifier
    reads as before. *)
Theorem storage_update_then_get (A : Type) (key : A -> string) (patch : A -> A)
    (items : list A) (id : string) :
  (forall x, key (patch x) = key x) ->
  (collUpdate key patch items id = None <-> getById key items id = None)
  /\ forall items',
       collUpdate key patch items id = Some items' ->
       List.length items' = List.length items
       /\ forall k,
            getById key items' k
            = if (k =? id)%string then option_map patch (getById key items id)
              else getById key items k.
Proof.
  intro Hkey. split; [apply collUpdate_none|].
  intros items' H. split.
  - revert items' H. induction items as [|x rest IH]; cbn [collUpdate];
      intros items' H; [discriminate|].
    destruct (key x =? id)%string.
    + inversion H; reflexivity.
    + destruct (collUpdate key patch rest id) as [rest'|]; [|discriminate].
      inversion H; subst. cbn [List.length]. f_equal. apply IH. reflexivity.
  - intro k. apply (getById_collUpdate key patch Hkey _ _ k H).
Qed.

(** The theorem on the products of scenario B: a write of the stock of C
    keeps two products and is read back. *)
Lemma storage_update_then_get_witness :
  exists items',
    collUpdate p_id (applyPatch (stockAssign 4)) (products storeB) "C" = Some items'
    /\ List.length items' = 2%nat
    /\ option_map currentStock (getById p_id items' "C") = Some 4
    /\ getById p_id items' "F" = Some productF.
Proof.
  destruct (@storage_update_then_get Product p_id (applyPatch (stockAssign 4))
              (products storeB) "C" (applyPatch_id (stockAssign 4)))
    as [_ H].
  eexists. split; [reflexivity|].
  destruct (H _ eq_refl) as [Hlen Hget].
  split; [exact Hlen|]. split.
  - rewrite (Hget "C"). reflexivity.
  - rewrite (Hget "F"). reflexivity.
Defined.

Lemma collDelete_absent (A : Type) (key : A -> string) (items : list A) (id : string) :
  getById key items id = None -> collDelete key items id = items.
Proof.
  unfold getById, collDelete. induction items as [|x rest IH]; cbn [find filter];
    intro H; [reflexivity|].
  destruct (key x =? id)%string; [discriminate|].
  cbn [negb]. f_equal. apply IH. exact H.
Qed.

(** X3.  [storage.delete] followed by a read: the identifier deleted is
    gone, every other identifier reads as before, and deleting an
    identifier that is not stored changes nothing. *)
Theorem storage_delete_then_get (A : Type) (key : A -> string)
    (items : list A) (id : string) :
  (forall k,
     getById key (collDelete key items id) k
     = if (k =? id)%string then None else getById key items k)
  /\ (getById key items id = None -> collDelete key items id = items).
Proof.
  split; [intro k; apply getById_collDelete | apply collDelete_absent].
Qed.

(** ** The commit loop *)

Lemma applyOp_existence_back s op s' k :
  applyOp s op = inr s' ->
  (getById p_id (products s') k = None <-> getById p_id (products s) k = None).
Proof.
  intro H. rewrite (applyOp_products _ _ H k).
  destruct op; try tauto.
  destruct (k =? id)%string eqn:E; [|tauto].
  apply String.eqb_eq in E. subst id.
  destruct (getById p_id (products s) k); cbn; split; congruence.
Qed.

Lemma commit_existence ops : forall s k,
  getById p_id (products (snd (commit s ops))) k = None
  <-> getById p_id (products s) k = None.
Proof.
  induction ops as [|op rest IH]; intros s k; cbn [commit]; [tauto|].
  destruct (applyOp s op) as [e|s1] eqn:E; [cbn; tauto|].
  rewrite IH. apply (applyOp_existence_back _ _ k E).
Qed.

Lemma commit_none_updatesExist ops : forall s,
  fst (commit s ops) = None -> updatesExist s ops.
Proof.
  unfold updatesExist.
  induction ops as [|op rest IH]; intros s H; [constructor|].
  cbn [commit] in H. destruct (applyOp s op) as [e|s1] eqn:E; [discriminate|].
  constructor.
  - destruct op; trivial. cbn [applyOp] in E.
    destruct (collUpdate p_id (applyPatch data) (products s) id) eqn:Eu;
      [|discriminate].
    intro Hn. apply (collUpdate_none p_id (applyPatch data)) in Hn. congruence.
  - specialize (IH s1 H). rewrite Forall_forall in *. intros o Ho.
    specialize (IH o Ho). destruct o; trivial.
    intro Hn. apply IH. apply (applyOp_existence_back _ _ id E). exact Hn.
Qed.

(** The only error of the commit loop is the one of [storage.update], for
    a product that is not stored. *)
Lemma commit_error_kind ops : forall s e,
  fst (commit s ops) = Some e ->
  exists id, e = StorageItemNotFound id /\ getById p_id (products s) id = None.
Proof.
  induction ops as [|op rest IH]; intros s e H; cbn [commit] in H; [discriminate|].
  destruct (applyOp s op) as [e'|s1] eqn:E.
  - cbn [fst] in H. inversion H; subst e'. destruct op; try discriminate.
    cbn [applyOp] in E.
    destruct (collUpdate p_id (applyPatch data) (products s) id) eqn:Eu;
      [discriminate|].
    inversion E; subst. exists id. split; [reflexivity|].
    apply (collUpdate_none p_id (applyPatch data)). exact Eu.
  - destruct (IH s1 e H) as (id & -> & Hn). exists id. split; [reflexivity|].
    apply (applyOp_existence_back _ _ id E). exact Hn.
Qed.

(** X4.  The commit loop of [runTransaction] and [writeBatch] runs to its
    end exactly when every product update of the log targets a stored
    product; and whatever the outcome, it neither creates nor removes a
    product. *)
Theorem commit_throws_iff_update_missing (s : Store) (ops : list Op) :
  (fst (commit s ops) = None <-> updatesExist s ops)
  /\ forall k,
       getById p_id (products (snd (commit s ops))) k = None
       <-> getById p_id (products s) k = None.
Proof.
  split; [|intro k; apply commit_existence].
  split; [apply commit_none_updatesExist|].
  intro H. destruct (commit_succeeds H) as [s' E]. rewrite E. reflexivity.
Qed.

(** ** The stock status *)

(** X5.  [getProductStatus] follows the stock: with the thresholds of a
    product fixed, a higher stock never gives an earlier state in the order
    CRITICAL, ALERT, OK, EXCESS, and the label is the one of the state. *)
Theorem getProductStatus_monotone (p : Product) (stock1 stock2 : Q) :
  stock1 <= stock2 ->
  (statusRank (snd (getProductStatus (withStock p stock1)))
   <= statusRank (snd (getProductStatus (withStock p stock2))))%nat
  /\ fst (getProductStatus (withStock p stock2))
     = statusLabel (snd (getProductStatus (withStock p stock2))).
Proof.
  intro H. split; [|reflexivity].
  unfold getProductStatus, withStock. cbn [snd applyPatch stockAssign u_currentStock
    applyNum currentStock minStock maxStock].
  destruct (Qle_bool stock1 0) eqn:A1; destruct (Qle_bool stock2 0) eqn:A2;
    destruct (Qle_bool stock1 (minStock p)) eqn:B1;
    destruct (Qle_bool stock2 (minStock p)) eqn:B2;
    destruct (Qgtb (maxStock p) 0) eqn:C;
    destruct (Qle_bool (maxStock p) stock1) eqn:D1;
    destruct (Qle_bool (maxStock p) stock2) eqn:D2;
    cbn [andb statusRank]; try lia; exfalso;
    repeat match goal with
           | E : Qle_bool _ _ = true |- _ => apply Qle_bool_iff in E
           | E : Qle_bool _ _ = false |- _ => apply Qle_bool_false in E
           | E : Qgtb _ _ = true |- _ => apply Qgtb_true in E
           | E : Qgtb _ _ = false |- _ => apply Qgtb_false in E
           end; lra.
Qed.

(** The theorem on a product with thresholds 2 and 20: ten units are OK
    and twenty-five are EXCESS. *)
Lemma getProductStatus_monotone_witness :
  snd (getProductStatus (withStock thresholdProduct 10)) = OK
  /\ snd (getProductStatus (withStock thresholdProduct 25)) = EXCESS
  /\ (statusRank (snd (getProductStatus (withStock thresholdProduct 10)))
      <= statusRank (snd (getProductStatus (withStock thresholdProduct 25))))%nat.
Proof.
  split; [reflexivity|]. split; [reflexivity|].
  apply (@getProductStatus_monotone thresholdProduct 10 25). discriminate.
Defined.

(** ** When a sale succeeds, and what it leaves alone *)

Lemma saleCheckBom_complete s shortfall comps : forall acc,
  Forall (compOk s shortfall) comps ->
  saleCheckBom s shortfall comps acc
  = inr (acc ++ flat_map (bomConsumption s shortfall) comps).
Proof.
  induction comps as [|comp rest IH]; intros acc F; cbn [saleCheckBom flat_map].
  - rewrite app_nil_r. reflexivity.
  - inversion F as [|? ? (cd & Eg & Hle) Hrest]; subst.
    unfold bomConsumption at 1. rewrite Eg.
    assert (E : Qgtb (shortfall *! bom_quantity comp) (orZero (currentStock cd)) = false)
      by (apply Qgtb_false; exact Hle).
    rewrite E, (IH _ Hrest).
    destruct (Qgtb (shortfall *! bom_quantity comp) 0);
      [rewrite <- app_assoc|]; reflexivity.
Qed.

Lemma saleReadCart_complete s cart : forall pd co,
  Forall (lineOk s) cart ->
  saleReadCart s cart pd co
  = inr (pd ++ flat_map (lineDetail s) cart, co ++ flat_map (lineConsumption s) cart).
Proof.
  induction cart as [|item rest IH]; intros pd co F; cbn [saleReadCart flat_map].
  - rewrite !app_nil_r. reflexivity.
  - inversion F as [|? ? (p & Eg & Hcomps) Hrest]; subst.
    unfold lineDetail at 1, lineConsumption at 1. rewrite Eg.
    fold (lineFromStock p item). fold (lineShortfall p item).
    destruct (hasBom p) eqn:Eb.
    + rewrite (saleCheckBom_complete _ (Hcomps eq_refl)). cbn [bindE].
      rewrite (IH _ _ Hrest), <- !app_assoc. reflexivity.
    + cbn [bindE]. rewrite (IH _ _ Hrest), <- !app_assoc. reflexivity.
Qed.

Lemma saleAssembledCost_complete s shortfall comps : forall acc,
  Forall (compOk s shortfall) comps ->
  exists r, saleAssembledCost s comps acc = inr r.
Proof.
  induction comps as [|comp rest IH]; intros acc F; cbn [saleAssembledCost];
    [eauto|].
  inversion F as [|? ? (cd & Eg & _) Hrest]; subst.
  rewrite Eg. apply IH. exact Hrest.
Qed.

Lemma saleWriteDetails_complete uuid txid s cart :
  Forall (lineOk s) cart -> forall k,
  saleWriteDetails uuid txid s k (flat_map (lineDetail s) cart)
  = inr (detailOps uuid txid s k (flat_map (lineDetail s) cart)).
Proof.
  induction 1 as [|item rest (p & Eg & Hcomps) _ IH]; intro k; [reflexivity|].
  cbn [flat_map]. unfold lineDetail at 1 3. rewrite Eg. cbn [app].
  destruct (saleWriteDetails uuid txid s k
              (mkDetail (productId item) p (withAvailableStock item (lineFromStock p item))
               :: flat_map (lineDetail s) rest)) as [e|ops] eqn:E.
  - exfalso. cbn [saleWriteDetails d_snap] in E. rewrite (IH (S k)) in E.
    destruct (hasBom p) eqn:Eb.
    + destruct (saleAssembledCost_complete 0 (Hcomps eq_refl)) as [r Er].
      rewrite Er in E. discriminate.
    + discriminate.
  - f_equal. apply saleWriteDetails_inr in E. exact E.
Qed.

(** When the sale goes through. *)
Lemma sale_success_criterion uuid form cart s :
  (exists s', onFinalizeSale uuid form cart s = (None, s'))
  <-> cart <> [] /\ Forall (lineOk s) cart.
Proof.
  split.
  - intros [s' H].
    destruct (onFinalizeSale_cases uuid form cart s)
      as [[e He] | (s1 & _ & _ & Hok & Hne)]; [congruence | tauto].
  - intros [Hne Hok]. unfold onFinalizeSale.
    destruct cart as [|item rest]; [contradiction|].
    unfold runTransaction, saleUpdateFunction.
    rewrite (saleReadCart_complete [] [] Hok). cbn [bindE app].
    rewrite (saleWriteDetails_complete uuid (uuid 0%nat) Hok). cbn [bindE].
    apply (commit_succeeds (saleOps_updatesExist uuid form (item :: rest) s)).
Qed.

(** X6.  A sale succeeds exactly when the cart is not empty, the product
    of every line is stored and, for a product with BOM, every component
    is stored with at least [shortfall * quantityPerUnit] in stock; the
    stock of a product without BOM is not a condition. *)
Theorem sale_succeeds_iff uuid form cart s :
  (exists s', onFinalizeSale uuid form cart s = (None, s'))
  <-> cart <> [] /\ Forall (lineOk s) cart.
Proof. exact (@sale_success_criterion uuid form cart s). Qed.

Lemma lastAssign_untouched id ops : forall acc,
  Forall (fun op => opProduct op <> Some id) ops -> lastAssign id ops acc = acc.
Proof.
  unfold lastAssign.
  induction ops as [|op rest IH]; intros acc F; [reflexivity|].
  inversion F as [|? ? Hop Hrest]; subst. cbn [fold_left].
  destruct op; try (apply IH; exact Hrest).
  destruct (id0 =? id)%string eqn:E; [|apply IH; exact Hrest].
  apply String.eqb_eq in E. subst id0. exfalso. apply Hop. reflexivity.
Qed.

Lemma saleOps_touches uuid form cart s op i :
  In op (saleOps uuid form cart s) -> opProduct op = Some i ->
  In i (saleTouches s cart).
Proof.
  unfold saleOps, saleTouches. intros [<- | Hin] Hop; [discriminate|].
  apply in_app_or in Hin. destruct Hin as [Hin | Hin].
  - revert Hin. generalize 1%nat.
    induction cart as [|item rest IH]; intros k Hin; cbn [flat_map] in *;
      [destruct Hin|].
    unfold lineDetail at 1 in Hin.
    destruct (getById p_id (products s) (productId item)) as [p|]; cbn [app] in Hin.
    + cbn [detailOps] in Hin. destruct Hin as [<- | [<- | Hin]].
      * discriminate.
      * inversion Hop; subst. left. reflexivity.
      * right. apply in_or_app. right. eapply IH. exact Hin.
    + right. eapply IH. exact Hin.
  - unfold saleWriteConsumption in Hin. apply in_map_iff in Hin.
    destruct Hin as (c & <- & Hc). inversion Hop; subst.
    apply in_flat_map in Hc. destruct Hc as (item & Hitem & Hc).
    apply in_flat_map. exists item. split; [exact Hitem|]. right.
    unfold lineConsumption in Hc.
    destruct (getById p_id (products s) (productId item)) as [p|]; [|destruct Hc].
    destruct (hasBom p); [|destruct Hc].
    apply in_flat_map in Hc. destruct Hc as (comp & Hcomp & Hc).
    unfold bomConsumption in Hc.
    destruct (getById p_id (products s) (bom_productId comp)); [|destruct Hc].
    destruct (Qgtb _ 0); [|destruct Hc].
    destruct Hc as [<- | []]. cbn. apply in_map. exact Hcomp.
Qed.

(** X7.  A successful sale writes nothing of a product but its stock, and
    it leaves every product alone that is neither the product of a cart
    line nor a component in the BOM of one. *)
Theorem sale_changes_stock_only uuid form cart s s' id p :
  onFinalizeSale uuid form cart s = (None, s') ->
  getById p_id (products s) id = Some p ->
  exists p',
    getById p_id (products s') id = Some p'
    /\ p_name p' = p_name p /\ p_costPrice p' = p_costPrice p
    /\ salePrice p' = salePrice p /\ p_supplierId p' = p_supplierId p
    /\ bom p' = bom p
    /\ (~ In id (saleTouches s cart) -> p' = p).
Proof.
  intros H Eg. eexists. split; [apply (@sale_products _ _ _ _ _ _ _ H Eg)|].
  destruct (assignedStock id (saleOps uuid form cart s)) as [v|] eqn:Ea;
    cbn [withStockOpt]; repeat split.
  intro Hnot. exfalso.
  unfold assignedStock in Ea. rewrite lastAssign_untouched in Ea; [discriminate|].
  apply Forall_forall. intros op Hin Hop. apply Hnot.
  eapply saleOps_touches; eassumption.
Qed.

(** The theorem at scenario B with a third product on the shelf: the
    sale of F leaves it as it was. *)
Lemma sale_changes_stock_only_witness :
  getById p_id
    (products (snd (onFinalizeSale uuidOf saleFormB cartB storeBystander)))
    "P"
  = Some productP.
Proof.
  destruct (@sale_changes_stock_only uuidOf saleFormB cartB storeBystander
              (snd (onFinalizeSale uuidOf saleFormB cartB storeBystander))
              "P" productP)
    as (p' & Eg & _ & _ & _ & _ & _ & Hsame).
  - vm_compute. reflexivity.
  - reflexivity.
  - rewrite Eg. f_equal. apply Hsame.
    cbn. intros [H | [H | []]]; discriminate.
Defined.

(** ** The cart *)

Lemma addMerge_toast sp q currentPrice costPerUnit maxSellable cart t cart' :
  addMerge sp q currentPrice costPerUnit maxSellable cart = (Some t, cart') ->
  cart' = cart.
Proof.
  revert cart'. induction cart as [|x rest IH]; intros cart' H; cbn [addMerge] in H;
    [discriminate|].
  destruct (productId x =? p_id sp)%string.
  - destruct (Qgtb (quantity x +! q) maxSellable); inversion H; reflexivity.
  - destruct (addMerge sp q currentPrice costPerUnit maxSellable rest) as [[t'|] r];
      inversion H; reflexivity.
Qed.

(** A refused call leaves the cart alone. *)
Lemma handleAddItem_refusal selectedProduct q currentPrice allProducts
    cart t :
  fst (handleAddItem selectedProduct q currentPrice allProducts cart) = Some t ->
  snd (handleAddItem selectedProduct q currentPrice allProducts cart) = cart.
Proof.
  unfold handleAddItem. destruct selectedProduct as [sp|]; [|reflexivity].
  destruct (Qle_bool q 0); [reflexivity|].
  destruct (negb (hasBom sp) && Qgtb q (currentStock sp)); [reflexivity|].
  destruct (hasBom sp && Qgtb q _); [reflexivity|].
  destruct (if hasBom sp then addInsufficient allProducts _ (bomList sp) else []);
    [|reflexivity].
  destruct (addMerge sp q currentPrice (addCostPerUnit allProducts sp) _ cart)
    as [[t'|] cart'] eqn:E; cbn [fst snd]; [|discriminate].
  intros _. eapply addMerge_toast. exact E.
Qed.

(** X8.  Whenever [handleAddItem] raises a toast the cart stays as it
    was. *)
Theorem handleAddItem_toast_keeps_cart selectedProduct q currentPrice allProducts
    cart t :
  fst (handleAddItem selectedProduct q currentPrice allProducts cart) = Some t ->
  snd (handleAddItem selectedProduct q currentPrice allProducts cart) = cart.
Proof. exact (@handleAddItem_refusal selectedProduct q currentPrice allProducts cart t). Qed.

(** The theorem on a cart holding three of scenario A's ten units: eight
    more are refused and the cart is as before. *)
Lemma handleAddItem_toast_keeps_cart_witness :
  fst (handleAddItem (Some thresholdProduct) 8 50 None cartA)
  = Some ToastQuantidadeExcede
  /\ snd (handleAddItem (Some thresholdProduct) 8 50 None cartA) = cartA.
Proof.
  split; [vm_compute; reflexivity|].
  apply (@handleAddItem_toast_keeps_cart (Some thresholdProduct) 8 50 None cartA
           ToastQuantidadeExcede).
  vm_compute. reflexivity.
Defined.

Lemma addMerge_accepts sp q currentPrice costPerUnit maxSellable bound cart cart' :
  addMerge sp q currentPrice costPerUnit maxSellable cart = (None, cart') ->
  q <= bound ->
  exists line,
    cartLine cart' (p_id sp) = Some line
    /\ quantity line
       = match cartLine cart (p_id sp) with
         | Some old => quantity old +! q
         | None => q
         end
    /\ quantity line
       <= match cartLine cart (p_id sp) with
          | Some _ => maxSellable
          | None => bound
          end
    /\ price line = currentPrice
    /\ costPrice line = costPerUnit
    /\ handleRemoveItem (p_id sp) cart' = handleRemoveItem (p_id sp) cart
    /\ map productId cart'
       = match cartLine cart (p_id sp) with
         | Some _ => map productId cart
         | None => map productId cart ++ [p_id sp]
         end.
Proof.
  intros H Hq. revert cart' H.
  unfold cartLine, handleRemoveItem.
  induction cart as [|x rest IH]; intros cart' H; cbn [addMerge] in H.
  - inversion H; subst. eexists. cbn [find productId]. rewrite String.eqb_refl.
    split; [reflexivity|]. cbn. rewrite String.eqb_refl. repeat split. exact Hq.
  - cbn [find filter map]. destruct (productId x =? p_id sp)%string eqn:Ex.
    + destruct (Qgtb (quantity x +! q) maxSellable) eqn:Em; [discriminate|].
      inversion H; subst. apply Qgtb_false in Em.
      eexists. cbn [find productId]. rewrite Ex.
      split; [reflexivity|]. cbn [quantity price costPrice filter productId map].
      rewrite Ex. repeat split. exact Em.
    + destruct (addMerge sp q currentPrice costPerUnit maxSellable rest)
        as [[t|] r] eqn:E; [discriminate|].
      inversion H; subst. destruct (IH _ eq_refl) as (line & ? & ? & ? & ? & ? & Hrm & Hmap).
      exists line. cbn [find filter map]. rewrite Ex. cbn [negb].
      repeat split; trivial.
      * rewrite Hrm. reflexivity.
      * rewrite Hmap. destruct (find _ rest); reflexivity.
Qed.

Lemma addMerge_ids sp q currentPrice costPerUnit maxSellable cart cart' :
  addMerge sp q currentPrice costPerUnit maxSellable cart = (None, cart') ->
  map productId cart'
  = match cartLine cart (p_id sp) with
    | Some _ => map productId cart
    | None => map productId cart ++ [p_id sp]
    end.
Proof.
  revert cart'. unfold cartLine.
  induction cart as [|x rest IH]; intros cart' H; cbn [addMerge] in H.
  - inversion H; reflexivity.
  - cbn [find map]. destruct (productId x =? p_id sp)%string eqn:Ex.
    + destruct (Qgtb (quantity x +! q) maxSellable); [discriminate|].
      inversion H; reflexivity.
    + destruct (addMerge sp q currentPrice costPerUnit maxSellable rest)
        as [[t|] r] eqn:E; [discriminate|].
      inversion H; subst. cbn [map]. rewrite (IH _ eq_refl).
      destruct (find _ rest); reflexivity.
Qed.

Lemma cartLine_absent cart id :
  cartLine cart id = None -> ~ In id (map productId cart).
Proof.
  unfold cartLine. intros H Hin. apply in_map_iff in Hin.
  destruct Hin as (item & E & Hin).
  apply (find_none _ _ H) in Hin. cbn in Hin.
  apply String.eqb_neq in Hin. contradiction.
Qed.

Lemma computeVirtualStock_no_bom sp all :
  hasBom sp = false -> computeVirtualStock (Some sp) all = 0%Z.
Proof.
  unfold hasBom, computeVirtualStock. destruct all; [|reflexivity].
  destruct (bom sp) as [[|c cs]|]; [reflexivity | discriminate | reflexivity].
Qed.

(** The line an accepted call leaves in the cart. *)
Lemma handleAddItem_acceptance sp q currentPrice allProducts cart cart' :
  handleAddItem (Some sp) q currentPrice allProducts cart = (None, cart') ->
  0 < q
  /\ exists line,
       cartLine cart' (p_id sp) = Some line
       /\ quantity line
          = match cartLine cart (p_id sp) with
            | Some old => quantity old +! q
            | None => q
            end
       /\ quantity line
          <= (if hasBom sp || isSome (cartLine cart (p_id sp))
              then currentStock sp
                   +! inject_Z (computeVirtualStock (Some sp)
                                  (Some match allProducts with
                                        | Some all => all
                                        | None => []
                                        end))
              else currentStock sp)
       /\ price line = currentPrice
       /\ handleRemoveItem (p_id sp) cart' = handleRemoveItem (p_id sp) cart.
Proof.
  unfold handleAddItem. intro H.
  destruct (Qle_bool q 0) eqn:Eq; [discriminate|].
  apply Qle_bool_false in Eq. split; [exact Eq|].
  set (vs := inject_Z (computeVirtualStock (Some sp)
                 (Some match allProducts with Some all => all | None => [] end))) in *.
  destruct (negb (hasBom sp) && Qgtb q (currentStock sp)) eqn:E1; [discriminate|].
  destruct (hasBom sp && Qgtb q (currentStock sp +! vs)) eqn:E2; [discriminate|].
  destruct (if hasBom sp then addInsufficient allProducts _ (bomList sp) else []);
    [|discriminate].
  assert (Hq : q <= if hasBom sp then currentStock sp +! vs else currentStock sp).
  { destruct (hasBom sp) eqn:Eb; cbn [negb andb] in E1, E2.
    - apply Qgtb_false in E2. exact E2.
    - apply Qgtb_false in E1. exact E1. }
  destruct (@addMerge_accepts _ _ _ _ _ _ _ _ H Hq)
    as (line & ? & ? & Hb & ? & _ & ? & _).
  exists line. repeat split; trivial.
  destruct (cartLine cart (p_id sp)); cbn [isSome];
    [rewrite orb_true_r | rewrite orb_false_r]; exact Hb.
Qed.



(** X10.  [handleAddItem] keeps one line per product: a cart without two
    lines of the same product has none after any call. *)
Theorem handleAddItem_one_line_per_product selectedProduct q currentPrice
    allProducts cart :
  NoDup (map productId cart) ->
  NoDup (map productId
           (snd (handleAddItem selectedProduct q currentPrice allProducts cart))).
Proof.
  intro Hnd.
  destruct (handleAddItem selectedProduct q currentPrice allProducts cart)
    as [[t|] cart'] eqn:H.
  - cbn [snd].
    assert (E := @handleAddItem_refusal selectedProduct q currentPrice
                   allProducts cart t).
    rewrite H in E. cbn [fst snd] in E. rewrite (E eq_refl). exact Hnd.
  - cbn [snd]. unfold handleAddItem in H.
    destruct selectedProduct as [sp|]; [|discriminate].
    destruct (Qle_bool q 0); [discriminate|].
    destruct (negb (hasBom sp) && Qgtb q (currentStock sp)); [discriminate|].
    destruct (hasBom sp && Qgtb q _); [discriminate|].
    destruct (if hasBom sp then addInsufficient allProducts _ (bomList sp) else []);
      [|discriminate].
    rewrite (addMerge_ids _ _ _ _ _ _ H).
    destruct (cartLine cart (p_id sp)) eqn:El; [exact Hnd|].
    apply NoDup_app; [exact Hnd | repeat constructor; intros [] |].
    intros a Ha [<- | []]. exact (cartLine_absent _ _ El Ha).
Qed.

(** The theorem on scenario A's cart: a second call for P merges. *)
Lemma handleAddItem_one_line_per_product_witness :
  map productId (snd (handleAddItem (Some thresholdProduct) 2 50 None cartA)) = ["P"]
  /\ NoDup (map productId (snd (handleAddItem (Some thresholdProduct) 2 50 None cartA))).
Proof.
  split; [vm_compute; reflexivity|].
  apply (@handleAddItem_one_line_per_product (Some thresholdProduct) 2 50 None cartA).
  repeat constructor. intros [].
Defined.

Lemma handleRemoveItem_absent cart id :
  cartLine cart id = None -> handleRemoveItem id cart = cart.
Proof.
  unfold cartLine, handleRemoveItem.
  induction cart as [|x rest IH]; cbn [find filter]; intro H; [reflexivity|].
  destruct (productId x =? id)%string; [discriminate|].
  cbn [negb]. f_equal. apply IH. exact H.
Qed.

(** X11.  [handleRemoveItem] removes the line of the product and no
    other: the product has no line afterwards, every other product reads
    the line it had, and removing the product just added to a cart that
    had no line of it gives that cart back. *)
Theorem handleRemoveItem_removes_the_line cart id :
  cartLine (handleRemoveItem id cart) id = None
  /\ (forall k, k <> id -> cartLine (handleRemoveItem id cart) k = cartLine cart k)
  /\ (forall sp q currentPrice allProducts cart',
        id = p_id sp -> cartLine cart id = None ->
        handleAddItem (Some sp) q currentPrice allProducts cart = (None, cart') ->
        handleRemoveItem id cart' = cart).
Proof.
  split; [|split].
  - unfold cartLine, handleRemoveItem.
    induction cart as [|x rest IH]; cbn [filter find]; [reflexivity|].
    destruct (productId x =? id)%string eqn:Ex; cbn [negb find]; [exact IH|].
    rewrite Ex. exact IH.
  - intros k Hk. unfold cartLine, handleRemoveItem.
    induction cart as [|x rest IH]; cbn [filter find]; [reflexivity|].
    destruct (productId x =? id)%string eqn:Ex; cbn [negb find].
    + destruct (productId x =? k)%string eqn:Ek; [|exact IH].
      apply String.eqb_eq in Ex, Ek. congruence.
    + rewrite IH. reflexivity.
  - intros sp q currentPrice allProducts cart' -> Hnone H.
    destruct (@handleAddItem_acceptance sp q currentPrice allProducts cart cart' H)
      as (_ & line & _ & _ & _ & _ & Hrm).
    rewrite Hrm. apply handleRemoveItem_absent. exact Hnone.
Qed.

(** ** From the cart to the sale *)

Lemma addInsufficient_nil all shortfall comps :
  addInsufficient (Some all) shortfall comps = [] ->
  Forall (fun comp =>
            shortfall *! bom_quantity comp
            <= availableOf (findProduct all (bom_productId comp))) comps.
Proof.
  induction comps as [|comp rest IH]; cbn [addInsufficient flat_map]; intro H;
    [constructor|].
  apply app_eq_nil in H. destruct H as [Hhd Hrest].
  constructor; [|apply IH; exact Hrest].
  destruct (Qgtb (shortfall *! bom_quantity comp)
              (availableOf (findProduct all (bom_productId comp)))) eqn:E;
    [discriminate|].
  apply Qgtb_false. exact E.
Qed.

(** The shortfall of the cart check and the shortfall of the sale are
    the same double. *)
Lemma shortfall_add_eq stock q :
  Qmax 0 (q -! Qmin (orZero stock) q) == Qmax 0 (q -! stock).
Proof.
  rewrite orZero_eq.
  destruct (Q.min_spec stock q) as [[L E]|[L E]]; rewrite E; [reflexivity|].
  rewrite (Q.max_l 0 (q -! stock)) by (apply jsSub_nonpos; exact L).
  apply Q.max_l. apply jsSub_nonpos. apply Qle_refl.
Qed.

(** X12.  What the cart check admits, the sale commits: a line accepted
    by [handleAddItem] into the empty cart, for a stored product against
    the stored products, is finalized without error on that store, provided
    the components of its BOM are stored. *)
Theorem accepted_line_is_sold uuid form s sp q currentPrice cart :
  getById p_id (products s) (p_id sp) = Some sp ->
  Forall (fun comp => getById p_id (products s) (bom_productId comp) <> None)
    (bomList sp) ->
  handleAddItem (Some sp) q currentPrice (Some (products s)) [] = (None, cart) ->
  exists s', onFinalizeSale uuid form cart s = (None, s').
Proof.
  intros Eg Hcomps H. apply sale_success_criterion.
  unfold handleAddItem in H.
  destruct (Qle_bool q 0); [discriminate|].
  destruct (negb (hasBom sp) && Qgtb q (currentStock sp)); [discriminate|].
  destruct (hasBom sp && Qgtb q _); [discriminate|].
  destruct (if hasBom sp
            then addInsufficient (Some (products s))
                   (Qmax 0 (q -! currentStock sp)) (bomList sp)
            else []) eqn:Ei; [|discriminate].
  cbn [addMerge] in H. inversion H; subst cart. clear H.
  split; [discriminate|]. constructor; [|constructor].
  exists sp. cbn [productId]. split; [exact Eg|]. intro Eb. rewrite Eb in Ei.
  apply addInsufficient_nil in Ei.
  rewrite Forall_forall in *. intros comp Hin.
  specialize (Ei comp Hin). specialize (Hcomps comp Hin).
  unfold findProduct in Ei. fold (getById p_id (products s) (bom_productId comp)) in Ei.
  destruct (getById p_id (products s) (bom_productId comp)) as [cd|] eqn:Ec;
    [|contradiction].
  exists cd. split; [exact Ec|]. cbn [availableOf] in Ei.
  unfold lineShortfall, lineFromStock. cbn [quantity].
  rewrite shortfall_add_eq. exact Ei.
Qed.

(** The theorem at scenario B: three units of F are accepted into the
    empty cart and then sold. *)
Lemma accepted_line_is_sold_witness :
  fst (handleAddItem (Some productF) 3 50 (Some (products storeB)) []) = None
  /\ exists s',
       onFinalizeSale uuidOf saleFormB
         (snd (handleAddItem (Some productF) 3 50 (Some (products storeB)) []))
         storeB
       = (None, s').
Proof.
  split; [vm_compute; reflexivity|].
  apply (@accepted_line_is_sold uuidOf saleFormB storeB productF 3 50).
  - reflexivity.
  - repeat constructor. cbn. discriminate.
  - vm_compute. reflexivity.
Defined.

(** ** The purchase form *)

Lemma lastLineOf_none id items :
  ~ In id (map pi_productId items) -> lastLineOf id items = None.
Proof.
  induction items as [|x rest IH]; intro Hnot; cbn [lastLineOf]; [reflexivity|].
  rewrite IH by (intro; apply Hnot; right; assumption).
  destruct (pi_productId x =? id)%string eqn:E; [|reflexivity].
  apply String.eqb_eq in E. exfalso. apply Hnot. left. exact E.
Qed.

(** X14.  [addItem] of the purchase form adds the quantity entered to
    the first line of the product, or appends a line when the product has
    none, and changes the quantities of no other product; on lines with
    one line per product it keeps one line per product, and the line of
    the product carries the cost just entered. *)
Theorem purchaseAddItem_merges (data : PurchaseItem) (fields : list PurchaseItem) :
  (forall id,
     purchasedQuantities id (purchaseAddItem data fields)
     = if (pi_productId data =? id)%string
       then match purchasedQuantities id fields with
            | [] => [pi_quantity data]
            | old :: more => (old +! pi_quantity data) :: more
            end
       else purchasedQuantities id fields)
  /\ (NoDup (map pi_productId fields) ->
      NoDup (map pi_productId (purchaseAddItem data fields))
      /\ exists line,
           lastLineOf (pi_productId data) (purchaseAddItem data fields) = Some line
           /\ pi_price line = pi_price data).
Proof.
  split.
  - intro id. unfold purchasedQuantities.
    induction fields as [|x rest IH]; cbn [purchaseAddItem filter map].
    + destruct (pi_productId data =? id)%string; reflexivity.
    + destruct (pi_productId x =? pi_productId data)%string eqn:Ex.
      * cbn [filter pi_productId].
        apply String.eqb_eq in Ex. rewrite <- Ex.
        destruct (pi_productId x =? id)%string; reflexivity.
      * cbn [filter]. destruct (pi_productId x =? id)%string eqn:Ei.
        -- cbn [map]. rewrite IH.
           assert (En : (pi_productId data =? id)%string = false).
           { apply String.eqb_eq in Ei. subst id.
             rewrite String.eqb_sym. exact Ex. }
           rewrite En. reflexivity.
        -- exact IH.
  - induction fields as [|x rest IH]; intro Hnd; cbn [purchaseAddItem].
    + split; [repeat constructor; intros []|].
      exists data. cbn. rewrite String.eqb_refl. split; reflexivity.
    + inversion Hnd as [|? ? Hx Hrest]; subst.
      destruct (pi_productId x =? pi_productId data)%string eqn:Ex.
      * split; [exact Hnd|]. apply String.eqb_eq in Ex.
        eexists. cbn [lastLineOf pi_productId]. rewrite <- Ex at 1.
        rewrite (lastLineOf_none _ _ Hx), Ex, String.eqb_refl.
        split; reflexivity.
      * destruct (IH Hrest) as (Hnd' & line & El & Hp).
        split.
        -- cbn [map]. constructor; [|exact Hnd'].
           intro Hin. apply Hx. clear - Hin Ex.
           induction rest as [|y ys IHy]; cbn [purchaseAddItem map] in *.
           ++ destruct Hin as [Hin | []]. apply String.eqb_neq in Ex. congruence.
           ++ destruct (pi_productId y =? pi_productId data)%string;
                cbn [map pi_productId] in Hin; [exact Hin|].
              destruct Hin as [Hin | Hin]; [left; exact Hin | right; auto].
        -- exists line. cbn [lastLineOf]. rewrite El. split; [reflexivity | exact Hp].
Qed.

(** The theorem on the lines of scenario D: a second entry of P merges
    into one line of eight units at the new cost of 22. *)
Lemma purchaseAddItem_merges_witness :
  purchaseAddItem (mkPurchaseItem "P" 3 22) (v_items purchaseD)
  = [mkPurchaseItem "P" 8 22]
  /\ NoDup (map pi_productId
              (purchaseAddItem (mkPurchaseItem "P" 3 22) (v_items purchaseD))).
Proof.
  split; [vm_compute; reflexivity|].
  apply (@purchaseAddItem_merges (mkPurchaseItem "P" 3 22) (v_items purchaseD)).
  repeat constructor. intros [].
Defined.

Lemma purchaseItemOps_contains uuid cache values items item : forall k,
  Forall (fun it => findProduct cache (pi_productId it) <> None) items ->
  In item items ->
  exists d, In (UpdateProduct (pi_productId item) d)
              (purchaseItemOps uuid (Some cache) values k items).
Proof.
  induction items as [|x rest IH]; intros k F Hin; [destruct Hin|].
  inversion F as [|? ? Hx Hrest]; subst. cbn [purchaseItemOps].
  destruct (findProduct cache (pi_productId x)); [|contradiction].
  destruct Hin as [-> | Hin].
  - eexists. right. left. reflexivity.
  - destruct (IH (S k) Hrest Hin) as [d Hd]. exists d. right. right. exact Hd.
Qed.

Lemma commit_transactions_frame ops : forall s,
  Forall (fun op => forall txs, transactionsStep txs op = txs) ops ->
  transactions (snd (commit s ops)) = transactions s.
Proof.
  induction ops as [|op rest IH]; intros s F; cbn [commit]; [reflexivity|].
  inversion F as [|? ? Hop Hrest]; subst.
  destruct (applyOp s op) as [e|s1] eqn:E; [reflexivity|].
  rewrite (IH s1 Hrest).
  destruct op; cbn [applyOp] in E; try (inversion E; reflexivity).
  - inversion E; subst. cbn. apply (Hop (transactions s)).
  - destruct (collUpdate p_id (applyPatch data) (products s) id);
      inversion E; reflexivity.
  - inversion E; subst. cbn. apply (Hop (transactions s)).
Qed.

Lemma purchaseItemOps_no_transaction uuid loaded values items : forall k,
  Forall (fun op => forall txs, transactionsStep txs op = txs)
    (purchaseItemOps uuid loaded values k items).
Proof.
  induction items as [|x rest IH]; intro k; cbn [purchaseItemOps]; [constructor|].
  destruct (match loaded with
            | Some ps => findProduct ps (pi_productId x)
            | None => None
            end); [|apply IH].
  constructor; [reflexivity|]. constructor; [reflexivity|].
  apply IH.
Qed.

(** X15.  The batch of a purchase is not atomic: when a line names a
    product of the loaded list that is no longer stored, the purchase fails
    with the error of [storage.update] for a product that is not stored,
    and the transaction document written first stays in the store. *)
Theorem purchase_batch_not_atomic uuid cache values s :
  freshIds uuid s ->
  Forall (fun item => findProduct cache (pi_productId item) <> None)
    (v_items values) ->
  Exists (fun item => getById p_id (products s) (pi_productId item) = None)
    (v_items values) ->
  exists id,
    fst (onFinalizePurchase uuid (Some cache) values s) = Some (StorageItemNotFound id)
    /\ getById p_id (products s) id = None
    /\ transactions (snd (onFinalizePurchase uuid (Some cache) values s))
       = transactions s ++ [purchaseTransactionDoc values (uuid 0%nat)].
Proof.
  intros (_ & Htx & _) Hloaded Hmissing.
  unfold onFinalizePurchase, purchaseOps. cbn [commit applyOp].
  rewrite collSet_fresh by apply Htx.
  set (s1 := mkStore (products s)
               (transactions s ++ [purchaseTransactionDoc values (uuid 0%nat)])
               (transaction_items s)).
  set (ops := purchaseItemOps uuid (Some cache) values 1 (v_items values)).
  destruct (fst (commit s1 ops)) as [e|] eqn:E.
  - destruct (commit_error_kind _ _ E) as (id & -> & Hn).
    exists id. split; [reflexivity|]. split; [exact Hn|].
    change (transactions s ++ [purchaseTransactionDoc values (uuid 0%nat)])
      with (transactions s1).
    apply commit_transactions_frame. apply purchaseItemOps_no_transaction.
  - exfalso. apply commit_none_updatesExist in E.
    apply Exists_exists in Hmissing. destruct Hmissing as (item & Hin & Hn).
    destruct (@purchaseItemOps_contains uuid cache values _ item 1%nat Hloaded Hin)
      as [d Hd].
    unfold updatesExist in E. rewrite Forall_forall in E.
    apply (E _ Hd). exact Hn.
Qed.

(** The theorem on scenario B's store when the loaded list still shows a
    product P that was deleted: the purchase of P fails and its
    transaction document of 100 stays. *)
Lemma purchase_batch_not_atomic_witness :
  exists id,
    fst (onFinalizePurchase uuidOf (Some (products storeD)) purchaseD storeB)
    = Some (StorageItemNotFound id)
    /\ map netTotal
         (transactions
            (snd (onFinalizePurchase uuidOf (Some (products storeD)) purchaseD storeB)))
       = [100].
Proof.
  destruct (@purchase_batch_not_atomic uuidOf (products storeD) purchaseD storeB)
    as (id & He & _ & Ht).
  - apply freshIds_empty.
  - repeat constructor. cbn. discriminate.
  - constructor. reflexivity.
  - exists id. split; [exact He|]. rewrite Ht. reflexivity.
Defined.

(** ** Reversal *)

Lemma sameButStock_refl p : sameButStock p p.
Proof. destruct p. reflexivity. Qed.

Lemma sameButStock_fields p p' :
  sameButStock p p' ->
  p_id p' = p_id p /\ p_name p' = p_name p /\ p_costPrice p' = p_costPrice p
  /\ salePrice p' = salePrice p /\ p_supplierId p' = p_supplierId p
  /\ bom p' = bom p /\ minStock p' = minStock p /\ maxStock p' = maxStock p.
Proof.
  unfold sameButStock. intro H. rewrite <- H. repeat split.
Qed.

(** A log that writes stocks only changes nothing else of a product, and
    nothing at all of a product it does not name, whether it runs to its
    end or not. *)
Lemma commit_stock_only ops : forall s id p,
  stockOnly ops ->
  getById p_id (products s) id = Some p ->
  exists p',
    getById p_id (products (snd (commit s ops))) id = Some p'
    /\ sameButStock p p'
    /\ (Forall (fun op => opProduct op <> Some id) ops -> p' = p).
Proof.
  unfold stockOnly.
  induction ops as [|op rest IH]; intros s id p F Eg; cbn [commit].
  - exists p. split; [exact Eg|]. split; [apply sameButStock_refl | reflexivity].
  - inversion F as [|? ? Hop Hrest]; subst.
    destruct (applyOp s op) as [e|s1] eqn:E.
    + exists p. split; [exact Eg|]. split; [apply sameButStock_refl | reflexivity].
    + assert (E1 := applyOp_products _ _ E id). rewrite Eg in E1.
      destruct op;
        try (destruct (IH s1 id p Hrest E1) as (p' & Eg' & Hs & Hu);
             exists p'; split; [exact Eg'|]; split; [exact Hs|];
             intro Hn; apply Hu; inversion Hn; assumption).
      cbv beta iota in E1.
      destruct (id =? id0)%string eqn:Ei.
      * apply String.eqb_eq in Ei. subst id0. rewrite Eg in E1.
        cbn [option_map] in E1.
        destruct (IH s1 id _ Hrest E1) as (p' & Eg' & Hs & _).
        exists p'. split; [exact Eg'|]. split.
        -- destruct Hop as [Hc Hsup]. unfold sameButStock in *.
           assert (Hp : withStock (applyPatch data p) (currentStock p) = p).
           { destruct data as [st c sup]. cbn in Hc, Hsup. subst c sup.
             destruct p. reflexivity. }
           transitivity (withStock (applyPatch data p) (currentStock p));
             [rewrite <- Hs; reflexivity | exact Hp].
        -- intro Hn. inversion Hn as [|? ? Hhd _]; subst.
           exfalso. apply Hhd. reflexivity.
      * destruct (IH s1 id p Hrest E1) as (p' & Eg' & Hs & Hu).
        exists p'. split; [exact Eg'|]. split; [exact Hs|].
        intro Hn. apply Hu. inversion Hn; assumption.
Qed.

Lemma revertOps_stockOnly transaction freshItems s :
  stockOnly (revertOps transaction freshItems s).
Proof.
  unfold stockOnly, revertOps, revertStockOps. apply Forall_app. split.
  - apply Forall_flat_map, Forall_forall. intros item _.
    destruct (getById p_id (products s) (ti_productId item));
      repeat constructor.
  - apply Forall_app. split.
    + apply Forall_map, Forall_forall. intros; exact I.
    + repeat constructor.
Qed.

(** X16.  The reversal of a transaction that is not cancelled always
    succeeds on its transactional path, items of deleted products
    notwithstanding; afterwards the transaction document and the item
    documents it worked on are gone, and no product was created or
    removed. *)
Theorem revert_always_succeeds transaction its s :
  t_status transaction <> CANCELLED ->
  exists s',
    handleRevert transaction (Some its) s = (None, s')
    /\ getById t_id (transactions s') (t_id transaction) = None
    /\ (forall item, In item (freshItemsOf transaction its s) ->
          getById ti_id (transaction_items s') (ti_id item) = None)
    /\ (forall k, getById p_id (products s') k = None
                  <-> getById p_id (products s) k = None).
Proof.
  intro Hst.
  destruct (@handleRevert_succeeds transaction its s Hst) as (s' & Hr & Hc).
  exists s'. split; [exact Hr|].
  destruct (@handleRevert_deletes_records transaction its s s' Hr Hst) as [Ht Hi].
  split; [exact Ht|]. split; [exact Hi|].
  intro k. assert (E := commit_existence
                          (revertOps transaction (freshItemsOf transaction its s) s) s k).
  rewrite Hc in E. exact E.
Qed.

(** The theorem on scenario A after the sale when product P has been
    deleted: the reversal still succeeds and removes the records. *)
Lemma revert_always_succeeds_witness :
  handleRevert (saleTransactionDoc saleFormB cartA (uuidOf 0))
    (Some (transaction_items storeA1))
    (mkStore [] (transactions storeA1) (transaction_items storeA1))
  = (None, mkStore [] [] []).
Proof.
  destruct (@revert_always_succeeds (saleTransactionDoc saleFormB cartA (uuidOf 0))
              (transaction_items storeA1)
              (mkStore [] (transactions storeA1) (transaction_items storeA1)))
    as (s' & Hr & _).
  - discriminate.
  - rewrite Hr. vm_compute in Hr. inversion Hr. reflexivity.
Defined.

Lemma handleRevert_frame transaction its s s' id p :
  handleRevert transaction (Some its) s = (None, s') ->
  t_status transaction <> CANCELLED ->
  getById p_id (products s) id = Some p ->
  exists p',
    getById p_id (products s') id = Some p'
    /\ currentStock p'
       == incremented (currentStock p)
            (revertedQuantities (t_type transaction) id
               (freshItemsOf transaction its s))
    /\ sameButStock p p'
    /\ (~ In id (map ti_productId (freshItemsOf transaction its s)) -> p' = p).
Proof.
  intros Hr Hst Eg.
  destruct (@handleRevert_products transaction its s s' id p Hr Hst Eg)
    as (p' & Eg' & Hq).
  exists p'. split; [exact Eg'|]. split; [exact Hq|].
  destruct (@handleRevert_succeeds transaction its s Hst) as (s1 & Hr1 & Hc).
  assert (s1 = s') by congruence. subst s1.
  destruct (@commit_stock_only _ s id p
              (revertOps_stockOnly transaction (freshItemsOf transaction its s) s) Eg)
    as (p1 & Eg1 & Hs & Hu).
  rewrite Hc in Eg1. cbn [snd] in Eg1.
  assert (p1 = p') by congruence. subst p1.
  split; [exact Hs|]. intro Hnot. apply Hu.
  unfold revertOps, revertStockOps. apply Forall_app. split.
  - apply Forall_flat_map, Forall_forall. intros item Hin.
    destruct (getById p_id (products s) (ti_productId item)); [|constructor].
    constructor; [|constructor]. cbn. intro E. inversion E; subst.
    apply Hnot. apply in_map. exact Hin.
  - apply Forall_app. split.
    + apply Forall_map, Forall_forall. intros; discriminate.
    + repeat constructor. discriminate.
Qed.

(** X17.  A reversal adds to the stock of a product, one after the
    other, the quantities of the items that name it when the transaction is
    of type IN, and their negatives for every other type; it changes
    nothing else of the product, and nothing of a product that no item
    names. *)
Theorem revert_adjusts_stock_only transaction its s s' id p :
  handleRevert transaction (Some its) s = (None, s') ->
  t_status transaction <> CANCELLED ->
  getById p_id (products s) id = Some p ->
  exists p',
    getById p_id (products s') id = Some p'
    /\ currentStock p'
       == incremented (currentStock p)
            (revertedQuantities (t_type transaction) id
               (freshItemsOf transaction its s))
    /\ sameButStock p p'
    /\ (~ In id (map ti_productId (freshItemsOf transaction its s)) -> p' = p).
Proof.
  apply handleRevert_frame.
Qed.

(** The theorem on scenario A after the sale: the reversal gives P the
    three units back and keeps its cost price. *)
Lemma revert_adjusts_stock_only_witness :
  exists p',
    getById p_id
      (products (snd (handleRevert (saleTransactionDoc saleFormB cartA (uuidOf 0))
                        (Some (transaction_items storeA1)) storeA1))) "P"
    = Some p'
    /\ currentStock p' == 10 /\ p_costPrice p' = Some 20.
Proof.
  destruct (@revert_adjusts_stock_only
              (saleTransactionDoc saleFormB cartA (uuidOf 0))
              (transaction_items storeA1) storeA1
              (snd (handleRevert (saleTransactionDoc saleFormB cartA (uuidOf 0))
                      (Some (transaction_items storeA1)) storeA1))
              "P" (simpleProduct "P" 7 (Some 20) None))
    as (p' & Eg & Hq & Hs & _).
  - vm_compute. reflexivity.
  - discriminate.
  - vm_compute. reflexivity.
  - exists p'. split; [exact Eg|]. split.
    + rewrite Hq. vm_compute. reflexivity.
    + apply sameButStock_fields in Hs. tauto.
Defined.

(** Scenario A evaluated through the general statement: ten units, three
    sold, three given back. *)
Lemma sale_then_revert_restores_witness :
  exists s2,
    handleRevert (saleTransactionDoc saleFormB cartA (uuidOf 0))
      (Some (transaction_items storeA1)) storeA1 = (None, s2)
    /\ exists p2, getById p_id (products s2) "P" = Some p2
                  /\ currentStock p2 == 10.
Proof.
  destruct (@sale_then_revert_restores uuidOf saleFormB cartA storeA storeA1
              (transaction_items storeA1))
    as (s2 & Hr & _ & _ & Hp).
  - apply freshIds_empty.
  - constructor; [|constructor].
    exists (simpleProduct "P" 10 (Some 20) None).
    split; [reflexivity|]. split; [reflexivity | discriminate].
  - repeat constructor. intros [].
  - constructor; [|constructor]. split; [|discriminate].
    exists 3%Z. split; [reflexivity | reflexivity].
  - constructor; [|constructor].
    exists 10%Z. split; [reflexivity | reflexivity].
  - reflexivity.
  - vm_compute. reflexivity.
  - reflexivity.
  - exists s2. split; [exact Hr|].
    apply (Hp "P" (simpleProduct "P" 10 (Some 20) None)). reflexivity.
Defined.

(** Scenario B evaluated through the statement for one line: F stays at
    0 and C loses six. *)
Lemma sale_single_bom_line_witness :
  exists cd',
    getById p_id (products (snd (onFinalizeSale uuidOf saleFormB cartB storeB))) "C"
    = Some cd'
    /\ currentStock cd' == 4.
Proof.
  destruct (@sale_single_bom_line uuidOf saleFormB (mkCartItem "F" "F" 3 50 0 14)
              storeB (snd (onFinalizeSale uuidOf saleFormB cartB storeB)) productF)
    as (_ & Hc).
  - vm_compute. reflexivity.
  - reflexivity.
  - reflexivity.
  - repeat constructor. intros [].
  - cbn. intros [H | []]. discriminate.
  - destruct (Hc compC2 productC) as (cd' & Eg & Hq).
    + left. reflexivity.
    + reflexivity.
    + exists cd'. split; [exact Eg|]. rewrite Hq. vm_compute. reflexivity.
Defined.

(** The items of a purchase name the products of its lines. *)
Lemma purchase_items_products txid items newItems :
  Forall2 (purchaseLineItem txid) items newItems ->
  forall id,
  ~ In id (map pi_productId items) -> ~ In id (map ti_productId newItems).
Proof.
  induction 1 as [|item ti rest rest' (_ & Hp & _) _ IH]; intro id.
  - intros _ [].
  - cbn [map]. rewrite Hp. intros Hnot [E | Hin].
    + apply Hnot. left. exact E.
    + apply (IH id); [|exact Hin]. intro H'. apply Hnot. right. exact H'.
Qed.

Lemma lastLineOf_in id items :
  lastLineOf id items = None -> ~ In id (map pi_productId items).
Proof.
  induction items as [|x rest IH]; cbn [lastLineOf map]; intros H Hin;
    [destruct Hin|].
  destruct (lastLineOf id rest); [discriminate|].
  destruct Hin as [E | Hin].
  - apply String.eqb_eq in E. rewrite E in H. discriminate.
  - apply IH; trivial.
Qed.

(** X20.  The reversal of a purchase does not undo what the purchase
    did to the cost: after a purchase and its reversal a product named by a
    line keeps the unit cost of its last line and the supplier of the
    purchase, whatever it had before, and a product no line names is as it
    was. *)
Theorem purchase_then_revert_keeps_cost uuid cache values s s1 newItems :
  freshIds uuid s ->
  Forall (fun item => findProduct cache (pi_productId item) <> None)
    (v_items values) ->
  v_items values <> [] ->
  onFinalizePurchase uuid (Some cache) values s = (None, s1) ->
  transaction_items s1 = transaction_items s ++ newItems ->
  exists s2,
    handleRevert (purchaseTransactionDoc values (uuid 0%nat)) (Some newItems) s1
    = (None, s2)
    /\ forall id p,
         getById p_id (products s) id = Some p ->
         exists p2,
           getById p_id (products s2) id = Some p2
           /\ match lastLineOf id (v_items values) with
              | Some item =>
                  p_costPrice p2 = Some (pi_price item)
                  /\ p_supplierId p2 = Some (v_supplierId values)
              | None => p2 = p
              end.
Proof.
  intros (Hinj & Htx & Hit) Hloaded Hne Hbuy Hitems.
  unfold onFinalizePurchase, purchaseOps in Hbuy.
  destruct (commit_items _ _ Hbuy eq_refl) as [Hi _].
  cbn [fold_left itemsStep] in Hi.
  destruct (@fold_itemsStep_purchaseItemOps uuid cache values (v_items values)
              Hinj Hloaded 1%nat (transaction_items s))
    as (items' & Ei & F); [intros; apply Hit|].
  rewrite Ei, Hitems in Hi. apply app_inv_head in Hi. subst items'.
  cbn [commit applyOp] in Hbuy.
  set (tx := purchaseTransactionDoc values (uuid 0%nat)).
  assert (Hst : t_status tx <> CANCELLED) by discriminate.
  assert (Hfresh : freshItemsOf tx newItems s1 = newItems).
  { destruct newItems; [|reflexivity]. inversion F as [E|]; subst.
    symmetry in E. contradiction. }
  destruct (@handleRevert_succeeds tx newItems s1 Hst) as (s2 & Hr & _).
  exists s2. split; [exact Hr|].
  intros id p Eg.
  destruct (@purchase_products uuid cache values (v_items values) 1%nat _ s1
              Hloaded Hbuy id p Eg) as (p1 & Eg1 & _ & Hlast).
  destruct (@handleRevert_frame tx newItems s1 s2 id p1 Hr Hst Eg1)
    as (p2 & Eg2 & _ & Hs & Hu).
  exists p2. split; [exact Eg2|].
  rewrite Hfresh in Hu.
  apply sameButStock_fields in Hs.
  destruct (lastLineOf id (v_items values)) eqn:El.
  - destruct Hlast as [Hc Hsup]. destruct Hs as (_ & _ & Hc2 & _ & Hs2 & _).
    split; congruence.
  - subst p1. apply Hu.
    apply (@purchase_items_products (uuid 0%nat) (v_items values) newItems F id).
    apply lastLineOf_in. exact El.
Qed.

(** The theorem at scenario D: five units of P bought at 20 and the
    purchase reverted leave P at a cost price of 20 instead of 12. *)
Lemma purchase_then_revert_keeps_cost_witness :
  p_costPrice (simpleProduct "P" 10 (Some 12) None) = Some 12
  /\ exists s2 p2,
       handleRevert (purchaseTransactionDoc purchaseD (uuidOf 0))
         (Some (transaction_items storeD1)) storeD1 = (None, s2)
       /\ getById p_id (products s2) "P" = Some p2
       /\ p_costPrice p2 = Some 20.
Proof.
  split; [reflexivity|].
  destruct (@purchase_then_revert_keeps_cost uuidOf (products storeD) purchaseD
              storeD storeD1 (transaction_items storeD1))
    as (s2 & Hr & Hp).
  - apply freshIds_empty.
  - repeat constructor. cbn. discriminate.
  - discriminate.
  - vm_compute. reflexivity.
  - reflexivity.
  - destruct (Hp "P" (simpleProduct "P" 10 (Some 12) None) eq_refl)
      as (p2 & Eg & Hlast).
    exists s2, p2. cbn in Hlast. tauto.
Defined.

Lemma fold_deleteItems_in (l : list TransactionItem) : forall items x,
  In x (fold_left itemsStep (map (fun it => DeleteItem (ti_id it)) l) items) ->
  In x items /\ ~ In (ti_id x) (map ti_id l).
Proof.
  induction l as [|y rest IH]; intros items x Hin; cbn [map fold_left itemsStep] in *.
  - split; [exact Hin | intros []].
  - apply IH in Hin. destruct Hin as [Hin Hnot].
    unfold collDelete in Hin. apply filter_In in Hin. destruct Hin as [Hin Hne].
    split; [exact Hin|]. intros [E | H']; [|contradiction].
    rewrite E, String.eqb_refl in Hne. discriminate.
Qed.

Lemma filter_nil (A : Type) (f : A -> bool) (l : list A) :
  (forall x, In x l -> f x = false) -> filter f l = [].
Proof.
  induction l as [|x rest IH]; intro H; cbn [filter]; [reflexivity|].
  rewrite (H x (or_introl eq_refl)). apply IH. intros y Hy. apply H. right. exact Hy.
Qed.

(** X21.  With the item list loaded from the store, reverting is
    idempotent: a second reversal of the same transaction finds neither
    items nor document and leaves the store exactly as the first one left
    it. *)
Theorem revert_twice_is_revert_once transaction s s1 :
  t_status transaction <> CANCELLED ->
  handleRevert transaction (Some []) s = (None, s1) ->
  handleRevert transaction (Some []) s1 = (None, s1).
Proof.
  intros Hst Hr.
  destruct (@handleRevert_succeeds transaction [] s Hst) as (s1' & Hr' & Hc).
  assert (s1' = s1) by congruence. subst s1'.
  destruct (@handleRevert_deletes_records transaction [] s s1 Hr Hst) as [Ht _].
  destruct (commit_items _ _ Hc eq_refl) as [Hi _].
  unfold revertOps in Hi. rewrite !fold_left_app in Hi.
  rewrite fold_itemsStep_stockOps in Hi. cbn [fold_left itemsStep] in Hi.
  assert (Hgone : freshItemsOf transaction [] s1 = []).
  { cbn [freshItemsOf]. apply filter_nil. intros x Hx.
    rewrite Hi in Hx. apply fold_deleteItems_in in Hx. destruct Hx as [Hx Hnot].
    destruct (transactionId x =? t_id transaction)%string eqn:E; [|reflexivity].
    exfalso. apply Hnot. apply in_map. cbn [freshItemsOf].
    apply filter_In. split; assumption. }
  unfold handleRevert.
  assert (E : TxStatus_eqb (t_status transaction) CANCELLED = false)
    by (destruct (t_status transaction); trivial; contradiction).
  rewrite E, Hgone. unfold runTransaction, revertUpdateFunction, revertOps.
  cbn [revertStockOps flat_map map app commit applyOp].
  rewrite (collDelete_absent t_id _ _ Ht). destruct s1. reflexivity.
Qed.

(** The theorem on scenario A after the sale: the second reversal
    changes nothing. *)
Lemma revert_twice_is_revert_once_witness :
  handleRevert (saleTransactionDoc saleFormB cartA (uuidOf 0)) (Some []) storeA
  = (None, storeA).
Proof.
  apply (@revert_twice_is_revert_once
           (saleTransactionDoc saleFormB cartA (uuidOf 0)) storeA1 storeA).
  - discriminate.
  - vm_compute. reflexivity.
Defined.

(** ** The BOM service *)

Lemma bomCheckComponents_complete s units comps :
  Forall (compOk s units) comps ->
  bomCheckComponents s units comps = inr (flat_map (bomSnap s units) comps).
Proof.
  induction 1 as [|comp rest (cd & Eg & Hle) _ IH]; cbn [bomCheckComponents flat_map];
    [reflexivity|].
  unfold bomSnap at 1. rewrite Eg.
  assert (E : Qgtb (units *! bom_quantity comp) (orZero (currentStock cd)) = false)
    by (apply Qgtb_false; exact Hle).
  rewrite E, IH. reflexivity.
Qed.

Lemma bomConsumeOps_updatesExist uuid txid s units comps : forall k,
  updatesExist s (bomConsumeOps uuid txid k (flat_map (bomSnap s units) comps)).
Proof.
  unfold updatesExist.
  induction comps as [|comp rest IH]; intro k; cbn [flat_map]; [constructor|].
  unfold bomSnap at 1.
  destruct (getById p_id (products s) (bom_productId comp)) eqn:Eg; cbn [app];
    [|apply IH].
  cbn [bomConsumeOps]. constructor; [exact I|]. constructor; [|apply IH].
  cbn. rewrite Eg. discriminate.
Qed.

Lemma bomConsumeOps_onlyStockAssigns uuid txid snaps : forall k,
  onlyStockAssigns (bomConsumeOps uuid txid k snaps).
Proof.
  unfold onlyStockAssigns.
  induction snaps as [|c rest IH]; intro k; cbn [bomConsumeOps]; [constructor|].
  constructor; [exact I|]. constructor; [eauto | apply IH].
Qed.

(** Both functions of the service either throw in their update function
    or queue the log above and commit it. *)
Lemma assembly_cases uuid id qty s :
  (exists e, processAssemblyToStock uuid id qty s = (Some e, s) /\ ~ bomReady s id qty)
  \/ (exists p s',
        processAssemblyToStock uuid id qty s = (None, s')
        /\ getById p_id (products s) id = Some p /\ hasBom p = true
        /\ Forall (compOk s qty) (bomList p)
        /\ commit s (assemblyOps uuid id qty s p) = (None, s')).
Proof.
  unfold processAssemblyToStock, runTransaction, assemblyUpdateFunction, bomReady.
  destruct (getById p_id (products s) id) as [p|] eqn:Eg.
  - destruct (hasBom p) eqn:Eb; cbn [negb].
    + destruct (bomCheckComponents s qty (bomList p)) as [e|snaps] eqn:Ec;
        cbn [bindE].
      * left. exists e. split; [reflexivity|].
        intros (p' & Eg' & _ & F). inversion Eg'; subst p'.
        rewrite (bomCheckComponents_complete F) in Ec. discriminate.
      * apply bomCheckComponents_inr in Ec. destruct Ec as [-> F].
        right. fold (assemblyOps uuid id qty s p).
        destruct (@commit_succeeds (assemblyOps uuid id qty s p) s) as [s' Hc].
        { unfold assemblyOps, updatesExist. constructor; [exact I|].
          apply Forall_app. split; [apply bomConsumeOps_updatesExist|].
          constructor; [|repeat constructor]. rewrite Eg. discriminate. }
        exists p, s'. rewrite Hc. repeat split; trivial.
    + left. eexists. split; [reflexivity|].
      intros (p' & Eg' & Eb' & _). congruence.
  - left. eexists. split; [reflexivity|].
    intros (p' & Eg' & _). discriminate.
Qed.

Lemma explosion_cases uuid id qty s :
  (exists e, processBomExplosionSale uuid id qty s = (Some e, s) /\ ~ bomReady s id qty)
  \/ (exists p s',
        processBomExplosionSale uuid id qty s = (None, s')
        /\ getById p_id (products s) id = Some p /\ hasBom p = true
        /\ Forall (compOk s qty) (bomList p)
        /\ commit s (explosionOps uuid qty s p) = (None, s')).
Proof.
  unfold processBomExplosionSale, runTransaction, explosionUpdateFunction, bomReady.
  destruct (getById p_id (products s) id) as [p|] eqn:Eg.
  - destruct (hasBom p) eqn:Eb; cbn [negb].
    + destruct (bomCheckComponents s qty (bomList p)) as [e|snaps] eqn:Ec;
        cbn [bindE].
      * left. exists e. split; [reflexivity|].
        intros (p' & Eg' & _ & F). inversion Eg'; subst p'.
        rewrite (bomCheckComponents_complete F) in Ec. discriminate.
      * apply bomCheckComponents_inr in Ec. destruct Ec as [-> F].
        right. fold (explosionOps uuid qty s p).
        destruct (@commit_succeeds (explosionOps uuid qty s p) s) as [s' Hc].
        { unfold explosionOps, updatesExist. constructor; [exact I|].
          apply bomConsumeOps_updatesExist. }
        exists p, s'. rewrite Hc. repeat split; trivial.
    + left. eexists. split; [reflexivity|].
      intros (p' & Eg' & Eb' & _). congruence.
  - left. eexists. split; [reflexivity|].
    intros (p' & Eg' & _). discriminate.
Qed.

(** X22.  [processAssemblyToStock] is all or nothing: it succeeds exactly
    when the final product is stored with a BOM that is not empty and every
    component is stored with at least
    [quantityToAssemble * quantityPerUnit] in stock, and when it fails
    the store is as it was. *)
Theorem assembly_all_or_nothing uuid id qty s :
  ((exists s', processAssemblyToStock uuid id qty s = (None, s'))
   <-> bomReady s id qty)
  /\ (forall e, fst (processAssemblyToStock uuid id qty s) = Some e ->
        snd (processAssemblyToStock uuid id qty s) = s).
Proof.
  destruct (assembly_cases uuid id qty s)
    as [(e & H & Hnot) | (p & s' & H & Eg & Eb & F & _)]; rewrite H.
  - split; [|reflexivity]. split; [intros [s' Hs]; discriminate | contradiction].
  - split; [|discriminate]. split; [|eauto].
    intros _. exists p. repeat split; assumption.
Qed.

(** The theorem at scenario C for three units and at scenario B for two:
    four units of C are not enough for three F, ten are for two. *)
Lemma assembly_all_or_nothing_witness :
  processAssemblyToStock uuidOf "F" 3 storeC
  = (Some (InsufficientComponentStock "C" 6 4), storeC)
  /\ bomReady storeB "F" 2.
Proof.
  split; [vm_compute; reflexivity|].
  apply (@assembly_all_or_nothing uuidOf "F" 2 storeB).
  eexists. vm_compute. reflexivity.
Defined.

Lemma lastAssign_cons id op ops acc :
  lastAssign id (op :: ops) acc = lastAssign id ops (lastAssign id [op] acc).
Proof. reflexivity. Qed.

Lemma bomConsumeOps_touches uuid txid s units comps : forall k op i,
  In op (bomConsumeOps uuid txid k (flat_map (bomSnap s units) comps)) ->
  opProduct op = Some i -> In i (map bom_productId comps).
Proof.
  induction comps as [|c rest IH]; intros k op i Hin Hop; cbn [flat_map] in Hin;
    [destruct Hin|].
  unfold bomSnap at 1 in Hin. cbn [map].
  destruct (getById p_id (products s) (bom_productId c)); cbn [app] in Hin;
    [|right; exact (IH _ _ _ Hin Hop)].
  cbn [bomConsumeOps] in Hin. destruct Hin as [<- | [<- | Hin]].
  - discriminate.
  - cbn in Hop. inversion Hop. left. reflexivity.
  - right. exact (IH _ _ _ Hin Hop).
Qed.

Lemma lastAssign_bom_other uuid txid s units id comps k acc :
  ~ In id (map bom_productId comps) ->
  lastAssign id (bomConsumeOps uuid txid k (flat_map (bomSnap s units) comps)) acc
  = acc.
Proof.
  intro Hnot. apply lastAssign_untouched, Forall_forall.
  intros op Hin Hop. apply Hnot.
  exact (@bomConsumeOps_touches uuid txid s units comps k op id Hin Hop).
Qed.

(** With no component listed twice, the service writes a component once:
    its stock less what the units require. *)
Lemma lastAssign_bom_comp uuid txid s units comp cd comps : forall k acc,
  NoDup (map bom_productId comps) -> In comp comps ->
  getById p_id (products s) (bom_productId comp) = Some cd ->
  lastAssign (bom_productId comp)
    (bomConsumeOps uuid txid k (flat_map (bomSnap s units) comps)) acc
  = Some (currentStock cd -! units *! bom_quantity comp).
Proof.
  induction comps as [|c rest IH]; intros k acc Hnd Hin Eg; [destruct Hin|].
  cbn [map] in Hnd. inversion Hnd as [|? ? Hc Hrest]; subst.
  cbn [flat_map]. unfold bomSnap at 1.
  destruct Hin as [-> | Hin].
  - rewrite Eg. cbn [app bomConsumeOps cs_ref cs_snap cs_required].
    rewrite lastAssign_cons, (lastAssign_cons _ (UpdateProduct _ _)).
    rewrite lastAssign_bom_other by exact Hc.
    unfold lastAssign. cbn. rewrite String.eqb_refl. reflexivity.
  - destruct (getById p_id (products s) (bom_productId c)); cbn [app];
      [|apply IH; assumption].
    cbn [bomConsumeOps].
    rewrite lastAssign_cons, (lastAssign_cons _ (UpdateProduct _ _)).
    apply IH; assumption.
Qed.

Lemma assemblyOps_onlyStockAssigns uuid id qty s p :
  onlyStockAssigns (assemblyOps uuid id qty s p).
Proof.
  unfold assemblyOps. constructor; [exact I|].
  apply Forall_app. split; [apply bomConsumeOps_onlyStockAssigns|].
  constructor; [eauto|]. constructor; [exact I | constructor].
Qed.

Lemma explosionOps_onlyStockAssigns uuid qty s p :
  onlyStockAssigns (explosionOps uuid qty s p).
Proof.
  unfold explosionOps. constructor; [exact I|].
  apply bomConsumeOps_onlyStockAssigns.
Qed.

(** X23.  What a successful assembly does to the stocks: the final product
    ends at its stock plus the assembled quantity, a product outside the
    BOM is as it was, and, when no component is listed twice, every
    component other than the final product ends at its stock less
    [quantityToAssemble * quantityPerUnit], each operation rounded as the
    code rounds it; nothing but the stock changes. *)
Theorem assembly_moves_stock uuid id qty s s' p :
  processAssemblyToStock uuid id qty s = (None, s') ->
  getById p_id (products s) id = Some p ->
  getById p_id (products s') id = Some (withStock p (currentStock p +! qty))
  /\ (forall j q,
        getById p_id (products s) j = Some q ->
        j <> id -> ~ In j (map bom_productId (bomList p)) ->
        getById p_id (products s') j = Some q)
  /\ (NoDup (map bom_productId (bomList p)) ->
      forall comp cd,
        In comp (bomList p) -> bom_productId comp <> id ->
        getById p_id (products s) (bom_productId comp) = Some cd ->
        getById p_id (products s') (bom_productId comp)
        = Some (withStock cd (currentStock cd -! qty *! bom_quantity comp))).
Proof.
  intros H Eg.
  destruct (assembly_cases uuid id qty s)
    as [(e & He & _) | (p' & s1 & H1 & Eg' & _ & _ & Hc)]; [congruence|].
  rewrite H1 in H. inversion H; subst s1. clear H H1.
  rewrite Eg in Eg'. inversion Eg'; subst p'. clear Eg'.
  assert (Hw : forall j q, getById p_id (products s) j = Some q ->
             getById p_id (products s') j
             = Some (withStockOpt q (lastAssign j (assemblyOps uuid id qty s p) None)))
    by (intros j q Ej;
        exact (@commit_last_write_wins _ s s' j q None
                 (assemblyOps_onlyStockAssigns uuid id qty s p) Hc Ej)).
  assert (Hl : forall j,
             lastAssign j (assemblyOps uuid id qty s p) None
             = if (id =? j)%string then Some (currentStock p +! qty)
               else lastAssign j
                      (bomConsumeOps uuid (uuid 0%nat) 1
                         (flat_map (bomSnap s qty) (bomList p))) None).
  { intro j. unfold assemblyOps. cbv zeta.
    rewrite lastAssign_cons, lastAssign_app.
    unfold lastAssign at 1. cbn [fold_left u_currentStock stockAssign].
    destruct (id =? j)%string; reflexivity. }
  split; [|split].
  - rewrite (Hw _ _ Eg), Hl, String.eqb_refl. reflexivity.
  - intros j q Ej Hj Hnot. rewrite (Hw _ _ Ej), Hl.
    assert (E : (id =? j)%string = false)
      by (apply String.eqb_neq; intro; apply Hj; symmetry; assumption).
    rewrite E, lastAssign_bom_other by exact Hnot. reflexivity.
  - intros Hnd comp cd Hin Hne Ec. rewrite (Hw _ _ Ec), Hl.
    assert (E : (id =? bom_productId comp)%string = false)
      by (apply String.eqb_neq; intro; apply Hne; symmetry; assumption).
    rewrite E, (@lastAssign_bom_comp uuid _ s qty comp cd _ _ _ Hnd Hin Ec).
    reflexivity.
Qed.

(** The theorem at scenario B for two units: F goes from 0 to 2 and C
    from 10 to 6. *)
Lemma assembly_moves_stock_witness :
  getById p_id (products (snd (processAssemblyToStock uuidOf "F" 2 storeB))) "F"
  = Some (withStock productF (0 +! 2))
  /\ getById p_id (products (snd (processAssemblyToStock uuidOf "F" 2 storeB))) "C"
     = Some (withStock productC (10 -! 2 *! 2)).
Proof.
  destruct (@assembly_moves_stock uuidOf "F" 2 storeB
              (snd (processAssemblyToStock uuidOf "F" 2 storeB)) productF)
    as (Hf & _ & Hc); [vm_compute; reflexivity | reflexivity |].
  split; [exact Hf|].
  apply (Hc ltac:(repeat constructor; cbn; tauto) (mkBomItem "C" 2) productC).
  - left. reflexivity.
  - discriminate.
  - reflexivity.
Defined.

(** X24.  [processBomExplosionSale] checks as the assembly does and is all
    or nothing; when it succeeds it never writes the final product for its
    own sake: every product outside the BOM, the final product among them,
    is as it was, and with no component listed twice every component ends
    at its stock less [quantitySold * quantityPerUnit]. *)
Theorem explosion_consumes_components_only uuid id qty s :
  ((exists s', processBomExplosionSale uuid id qty s = (None, s'))
   <-> bomReady s id qty)
  /\ (forall e, fst (processBomExplosionSale uuid id qty s) = Some e ->
        snd (processBomExplosionSale uuid id qty s) = s)
  /\ (forall s' p,
        processBomExplosionSale uuid id qty s = (None, s') ->
        getById p_id (products s) id = Some p ->
        (forall j q,
           getById p_id (products s) j = Some q ->
           ~ In j (map bom_productId (bomList p)) ->
           getById p_id (products s') j = Some q)
        /\ (NoDup (map bom_productId (bomList p)) ->
            forall comp cd,
              In comp (bomList p) ->
              getById p_id (products s) (bom_productId comp) = Some cd ->
              getById p_id (products s') (bom_productId comp)
              = Some (withStock cd (currentStock cd -! qty *! bom_quantity comp)))).
Proof.
  destruct (explosion_cases uuid id qty s)
    as [(e & H & Hnot) | (p & s1 & H & Eg & Eb & F & Hc)]; rewrite H.
  - split; [|split]; [|reflexivity|discriminate].
    split; [intros [s' Hs]; discriminate | contradiction].
  - split; [|split]; [|discriminate|].
    + split; [|eauto]. intros _. exists p. repeat split; assumption.
    + intros s' p' Hs Eg'. inversion Hs; subst s1. clear Hs.
      rewrite Eg in Eg'. inversion Eg'; subst p'. clear Eg'.
      assert (Hw : forall j q, getById p_id (products s) j = Some q ->
                 getById p_id (products s') j
                 = Some (withStockOpt q
                           (lastAssign j
                              (bomConsumeOps uuid (uuid 0%nat) 1
                                 (flat_map (bomSnap s qty) (bomList p))) None))).
      { intros j q Ej.
        exact (@commit_last_write_wins _ s s' j q None
                 (explosionOps_onlyStockAssigns uuid qty s p) Hc Ej). }
      split.
      * intros j q Ej Hnot.
        rewrite (Hw _ _ Ej), lastAssign_bom_other by exact Hnot. reflexivity.
      * intros Hnd comp cd Hin Ec.
        rewrite (Hw _ _ Ec),
          (@lastAssign_bom_comp uuid _ s qty comp cd _ _ _ Hnd Hin Ec).
        reflexivity.
Qed.

Lemma assignsNonneg_bomConsumeOps uuid txid s units comps : forall k,
  Forall (compOk s units) comps ->
  assignsNonneg (bomConsumeOps uuid txid k (flat_map (bomSnap s units) comps)).
Proof.
  unfold assignsNonneg.
  induction comps as [|c rest IH]; intros k F; cbn [flat_map]; [constructor|].
  inversion F as [|? ? (cd & Ec & Hle) Hrest]; subst.
  unfold bomSnap at 1. rewrite Ec.
  cbn [app bomConsumeOps cs_ref cs_snap cs_required].
  constructor; [exact I|]. constructor; [|apply IH; exact Hrest].
  cbn [u_currentStock stockAssign]. rewrite orZero_eq in Hle.
  apply jsSub_nonneg. exact Hle.
Qed.

(** X25.  The BOM service keeps every stock non-negative: the explosion
    sale for any quantity, the assembly for a quantity that is not
    negative. *)
Theorem bom_service_keeps_stock_nonneg uuid id qty s :
  stockNonneg s ->
  stockNonneg (snd (processBomExplosionSale uuid id qty s))
  /\ (0 <= qty -> stockNonneg (snd (processAssemblyToStock uuid id qty s))).
Proof.
  intro Hs. split.
  - destruct (explosion_cases uuid id qty s)
      as [(e & H & _) | (p & s1 & H & _ & _ & F & Hc)]; rewrite H; [exact Hs|].
    cbn [snd].
    apply (@commit_stockNonneg (explosionOps uuid qty s p) s None s1);
      [|exact Hs|exact Hc].
    unfold explosionOps. constructor; [exact I|].
    apply assignsNonneg_bomConsumeOps. exact F.
  - intro Hq.
    destruct (assembly_cases uuid id qty s)
      as [(e & H & _) | (p & s1 & H & Eg & _ & F & Hc)]; rewrite H; [exact Hs|].
    cbn [snd].
    apply (@commit_stockNonneg (assemblyOps uuid id qty s p) s None s1);
      [|exact Hs|exact Hc].
    unfold assemblyOps. constructor; [exact I|].
    apply Forall_app. split; [apply assignsNonneg_bomConsumeOps; exact F|].
    constructor; [|constructor; [exact I|constructor]].
    cbn [u_currentStock stockAssign].
    assert (Hp : 0 <= currentStock p).
    { apply getById_key in Eg. destruct Eg as [_ Hin]. unfold stockNonneg in Hs.
      rewrite Forall_forall in Hs. exact (Hs _ Hin). }
    apply jsAdd_nonneg; assumption.
Qed.

(** The theorem at scenario B for two units, where ten units of C cover
    the four required, and at scenario C for three, where four do not
    cover six. *)
Lemma explosion_consumes_components_only_witness :
  (exists s', processBomExplosionSale uuidOf "F" 2 storeB = (None, s'))
  /\ snd (processBomExplosionSale uuidOf "F" 3 storeC) = storeC.
Proof.
  split.
  - apply (@explosion_consumes_components_only uuidOf "F" 2 storeB).
    exists productF. split; [reflexivity|]. split; [reflexivity|].
    constructor; [|constructor].
    exists productC. split; [reflexivity|]. vm_compute. discriminate.
  - destruct (@explosion_consumes_components_only uuidOf "F" 3 storeC)
      as (_ & Hfail & _).
    apply (Hfail (InsufficientComponentStock "C" 6 4)).
    vm_compute. reflexivity.
Defined.

(** The theorem at scenario B for two units. *)
Lemma bom_service_keeps_stock_nonneg_witness :
  stockNonneg storeB
  /\ stockNonneg (snd (processBomExplosionSale uuidOf "F" 2 storeB))
  /\ stockNonneg (snd (processAssemblyToStock uuidOf "F" 2 storeB)).
Proof.
  assert (Hs : stockNonneg storeB)
    by (repeat constructor; cbn; discriminate).
  destruct (@bom_service_keeps_stock_nonneg uuidOf "F" 2 storeB Hs) as [He Ha].
  split; [exact Hs|]. split; [exact He|]. apply Ha. discriminate.
Defined.

(** ** The virtual stock against the stock checks, in decimals *)

(** X13.  [computeVirtualStock] is not a ceiling the stock checks honour:
    over 0.85 of C in stock and 0.05 of C per unit of F it returns 17, the
    quotient of the two doubles being 17, while 17 * 0.05 is above 0.85; so
    [handleAddItem] refuses a line of 17 units of F with a toast, and the
    sale of such a line and the assembly of 17 units fail with the store
    as it was. *)
Theorem virtual_stock_above_the_checks :
  computeVirtualStock (Some productFd) (Some (products storeDecimalLow)) = 17%Z
  /\ Qgtb (17 *! bom_quantity compC005) (round64 (85 # 100)) = true
  /\ (exists toast,
        handleAddItem (Some productFd) 17 50 (Some (products storeDecimalLow)) []
        = (Some toast, []))
  /\ (exists e,
        onFinalizeSale uuidOf saleFormB (cartOfF 17) storeDecimalLow
        = (Some e, storeDecimalLow))
  /\ (exists e,
        processAssemblyToStock uuidOf "F" 17 storeDecimalLow
        = (Some e, storeDecimalLow)).
Proof.
  split; [vm_compute; reflexivity|]. split; [vm_compute; reflexivity|].
  split; [|split]; eexists; vm_compute; reflexivity.
Qed.

(** X26.  Nor is [computeVirtualStock] all that can be assembled: over
    2.15 of C in stock and 0.05 of C per unit of F it returns 42, the
    quotient of the two doubles being below 43, while 43 * 0.05 is 2.15;
    so the assembly of 43 units succeeds, and so does the sale of a line
    of 43 units. *)
Theorem virtual_stock_below_the_checks :
  computeVirtualStock (Some productFd) (Some (products storeDecimalHigh)) = 42%Z
  /\ Qgtb (43 *! bom_quantity compC005) (round64 (215 # 100)) = false
  /\ fst (processAssemblyToStock uuidOf "F" 43 storeDecimalHigh) = None
  /\ fst (onFinalizeSale uuidOf saleFormB (cartOfF 43) storeDecimalHigh) = None.
Proof.
  vm_compute. repeat split.
Qed.
